(** * Check-in analysis agent: quality classifier and aggregation engine

    A shallow embedding of [src/utils/checkinQuality.js] and
    [src/agent/checkinAgent.js], with [src/utils/checkinTransformer.js],
    [src/controllers/agentController.js], the error handler of
    [server.js] and [fetchUserProfile] of [src/services/slackService.js].

    Conventions of the embedding.
    - A JavaScript string is a [string]: a sequence of code units in
      U+0000..U+00FF.  Code units above U+00FF are outside the model.
    - A JavaScript number is an exact rational; the result of a division,
      and of a multiplication that follows one, is rounded to the nearest
      binary64 value ([Js.fl64]), as the engine does, and so is the
      number that a decimal text stands for.  The other operations of
      the sources are exact on the numbers they meet.
      [NaN] is explicit ([Js.num]).
    - A value that may be [undefined] is an [option]; [a || b] is [Js.or].
    - A function that can throw returns a [Js.result].
    - An instant is a number of milliseconds since the epoch; the process
      runs with the local zone equal to UTC, and the limit of 8.64e15 ms
      that [Date] puts on instants is modelled only where an instant
      comes from a text ([Handlers.TimeClip], [Transformer.newDate]). *)

From Stdlib Require Import ZArith QArith Qabs Qround Bool List String Ascii.
From Stdlib Require Import DecimalString Lia Lqa.
From Stdlib Require Import Sorted Permutation Qpower.
Import ListNotations.

Local Open Scope Z_scope.

(** ** JavaScript primitives used by the sources *)

Module Js.

(** *** Truthiness and [||] on optional strings *)

Definition truthy (v : option string) : bool :=
  match v with
  | None => false
  | Some s => negb (String.eqb s EmptyString)
  end.

(** [a || b]: [a] when it is truthy, otherwise [b] whatever it is. *)
Definition or (a b : option string) : option string :=
  if truthy a then a else b.

(** *** Exceptions *)

Inductive error : Type :=
| TypeError
| Error (message : string).

Inductive result (A : Type) : Type :=
| Ok (a : A)
| Throw (e : error).
Arguments Ok {A} a.
Arguments Throw {A} e.

Definition bind {A B} (m : result A) (k : A -> result B) : result B :=
  match m with
  | Ok a => k a
  | Throw e => Throw e
  end.

Definition throws {A} (m : result A) : bool :=
  match m with
  | Ok _ => false
  | Throw _ => true
  end.

(** *** Character classes *)

Definition code (c : ascii) : Z := Z.of_N (N_of_ascii c).

Definition between (lo hi : Z) (c : ascii) : bool :=
  (lo <=? code c) && (code c <=? hi).

Definition isDigit (c : ascii) : bool := between 48 57 c.

(** [\w] is [A-Za-z0-9_]. *)
Definition isWordChar (c : ascii) : bool :=
  between 65 90 c || between 97 122 c || isDigit c || (code c =? 95).

(** [\s], and what [trim] removes: TAB, LF, VT, FF, CR, SP, NBSP. *)
Definition isWhiteSpace (c : ascii) : bool :=
  between 9 13 c || (code c =? 32) || (code c =? 160).

(** Upper-case letters: A-Z, and U+00C0..U+00DE except the
    multiplication sign U+00D7. *)
Definition isUpper (c : ascii) : bool :=
  between 65 90 c || (between 192 222 c && negb (code c =? 215)).

Definition toLowerChar (c : ascii) : ascii :=
  if isUpper c then ascii_of_N (N_of_ascii c + 32) else c.

(** *** String methods *)

Fixpoint toLowerCase (s : string) : string :=
  match s with
  | EmptyString => EmptyString
  | String c r => String (toLowerChar c) (toLowerCase r)
  end.

Fixpoint startsWith (s p : string) : bool :=
  match p, s with
  | EmptyString, _ => true
  | String _ _, EmptyString => false
  | String a p', String b s' => Ascii.eqb a b && startsWith s' p'
  end.

Fixpoint includes (s k : string) : bool :=
  startsWith s k ||
  match s with
  | EmptyString => false
  | String _ r => includes r k
  end.

Fixpoint trimStart (s : string) : string :=
  match s with
  | EmptyString => EmptyString
  | String c r => if isWhiteSpace c then trimStart r else s
  end.

Fixpoint trimEnd (s : string) : string :=
  match s with
  | EmptyString => EmptyString
  | String c r =>
      match trimEnd r with
      | EmptyString => if isWhiteSpace c then EmptyString
                       else String c EmptyString
      | r' => String c r'
      end
  end.

Definition trim (s : string) : string := trimEnd (trimStart s).

Definition head (s : string) : option ascii := String.get 0 s.

(** *** Regular expressions

    A pattern is given by what it does at one position: [re prev s] is
    the length of the match that starts at the front of [s], where
    [prev] is the code unit before it.  No pattern of the sources matches
    the empty string. *)

Definition regex := option ascii -> string -> option nat.

(** [(s.match(/re/g) || []).length]: the matches are found from left to
    right, and the search resumes where the previous match ended. *)
Fixpoint matchCount (re : regex) (skip : nat) (prev : option ascii)
         (s : string) : Z :=
  match s with
  | EmptyString => 0
  | String c r =>
      match skip with
      | S k => matchCount re k (Some c) r
      | O =>
          match re prev s with
          | Some len => 1 + matchCount re (Nat.pred len) (Some c) r
          | None => matchCount re 0 (Some c) r
          end
      end
  end.

Definition countMatches (re : regex) (s : string) : Z :=
  matchCount re 0 None s.

(** [\b]: exactly one of the two sides is a word character. *)
Definition isWord (c : option ascii) : bool :=
  match c with
  | Some a => isWordChar a
  | None => false
  end.

Definition wordBoundary (before after : option ascii) : bool :=
  xorb (isWord before) (isWord after).

Fixpoint digitRun (s : string) : nat :=
  match s with
  | String c r => if isDigit c then S (digitRun r) else O
  | EmptyString => O
  end.

(** [s.split(/\s+/)]: [cur] is the piece being read, [inSep] tells that
    the previous code unit belonged to a separator. *)
Fixpoint splitSpaces (cur : string) (inSep : bool) (s : string)
  : list string :=
  match s with
  | EmptyString => [cur]
  | String c r =>
      if isWhiteSpace c then
        if inSep then splitSpaces EmptyString true r
        else cur :: splitSpaces EmptyString true r
      else splitSpaces (cur ++ String c EmptyString) false r
  end.

Definition split_spaces (s : string) : list string :=
  splitSpaces EmptyString false s.

(** *** Numbers

    [fl64 q] is the binary64 value nearest to [q], ties to even: the
    result of an arithmetic operation whose exact result is [q].  The
    exponent is not bounded: no number of the program leaves the normal
    range. *)

Inductive num : Type :=
| Num (q : Q)
| NaN.

(** [binade a b] is the [e] with [2^e <= a/b < 2^(e+1)], for positive
    [a] and [b]. *)
Definition binade (a b : Z) : Z :=
  let e := Z.log2 a - Z.log2 b in
  if (if 0 <=? e then b * 2 ^ e <=? a else b <=? a * 2 ^ (- e))
  then e else e - 1.

(** The integer nearest to [n/d], ties to even, for [0 <= n], [0 < d]. *)
Definition roundHalfEven (n d : Z) : Z :=
  let q := n / d in
  let r := n mod d in
  if 2 * r <? d then q
  else if d <? 2 * r then q + 1
  else if Z.even q then q else q + 1.

(** 2^52 and 2^51, the scales of the binades [1, 2) and [2, 4). *)
Definition two52 : Z := 4503599627370496.
Definition two51 : Z := 2251799813685248.

Definition fl64 (q : Q) : Q :=
  let a := Z.abs (Qnum q) in
  let b := Zpos (Qden q) in
  if a =? 0 then 0%Q
  else
    let s := 52 - binade a b in
    let m := if 0 <=? s then roundHalfEven (a * 2 ^ s) b
             else roundHalfEven a (b * 2 ^ (- s)) in
    (inject_Z (Z.sgn (Qnum q) * m) * 2 ^ (- s))%Q.

(** [Number(x.toFixed(2))]: [toFixed] takes the integer [n] for which
    [n / 100] is nearest to the magnitude of [x], the larger one on a
    tie, and keeps the sign.  The result stands for the binary64 value
    nearest to this decimal, which prints as the same decimal. *)
Definition toFixed2 (x : Q) : Q :=
  Qred (inject_Z (Z.sgn (Qnum x) * Qfloor (Qabs x * 100 + (1 # 2))) / 100)%Q.

Definition roundTo2 (x : num) : num :=
  match x with
  | Num q => Num (toFixed2 q)
  | NaN => NaN
  end.

(** [x >= y] is false when [x] is [NaN]. *)
Definition geq (x : num) (y : Q) : bool :=
  match x with
  | Num q => Qle_bool y q
  | NaN => false
  end.

(** *** Property lookup on an object literal

    An object literal inherits from [Object.prototype]: reading one of
    the names below yields a function (or, for [__proto__], the
    prototype itself), a truthy value that is not a number. *)

Inductive value : Type :=
| Undefined
| Number (z : Z)
| Inherited.

Definition objectPrototype : list string :=
  [ "constructor"; "hasOwnProperty"; "isPrototypeOf";
    "propertyIsEnumerable"; "toLocaleString"; "toString"; "valueOf";
    "__proto__"; "__defineGetter__"; "__defineSetter__";
    "__lookupGetter__"; "__lookupSetter__" ]%string.

Fixpoint own (o : list (string * Z)) (key : string) : option Z :=
  match o with
  | [] => None
  | (k, v) :: o' => if String.eqb k key then Some v else own o' key
  end.

(** [o[key]]; an [undefined] key reads the property named
    ["undefined"]. *)
Definition getProperty (o : list (string * Z)) (key : option string)
  : value :=
  let k := match key with Some k => k | None => "undefined"%string end in
  match own o k with
  | Some v => Number v
  | None =>
      if existsb (String.eqb k) objectPrototype then Inherited
      else Undefined
  end.

(** [v || 0] *)
Definition orZero (v : value) : value :=
  match v with
  | Undefined => Number 0
  | Number z => Number z
  | Inherited => Inherited
  end.

(** The accumulator of [acc + (v || 0)]: a number as long as numbers are
    added; adding a function or an object concatenates strings, and the
    text obtained (digits followed by the source text of the function)
    stays a string and is not the text of a number. *)
Inductive accum : Type :=
| Sum (z : Z)
| Text.

Definition plus (acc : accum) (v : value) : accum :=
  match acc, v with
  | Sum a, Number b => Sum (a + b)
  | _, _ => Text
  end.

(** [acc / n] for a positive integer [n] *)
Definition divide (acc : accum) (n : Z) : num :=
  match acc with
  | Sum s => Num (fl64 (s # Z.to_pos n))
  | Text => NaN
  end.

End Js.

(** ** [src/utils/checkinQuality.js] *)

Module Quality.
Import Js.
Local Open Scope string_scope.
Local Open Scope Z_scope.

Definition STRONG_THRESHOLD : Q := 80.
Definition MEDIUM_THRESHOLD : Q := 40.

Definition KEYWORD_GROUPS : list (string * list string) :=
  [ ("progress",
      ["progress"; "completed"; "finished"; "shipped"; "done"; "achieved"]);
    ("plans", ["plan"; "next"; "today"; "tomorrow"; "focus"]);
    ("blockers",
      ["blocker"; "stuck"; "issue"; "problem"; "waiting"; "help"]) ].

(** [text.trim().split(/\s+/).filter(Boolean).length] *)
Definition countWords (text : string) : Z :=
  Z.of_nat
    (List.length
       (filter (fun w => truthy (Some w)) (split_spaces (trim text)))).

Definition scoreCompleteness (text : string) : Z :=
  let lower := toLowerCase text in
  fold_left
    (fun score keywords =>
       if existsb (fun keyword => includes lower keyword) keywords
       then score + 1 else score)
    (map snd KEYWORD_GROUPS) 0.

(** [/\b\d+\b/]: the digits are taken greedily, and given back one at a
    time until the closing [\b] holds. *)
Fixpoint giveBack (n : nat) (s : string) : option nat :=
  match n with
  | O => None
  | S n' =>
      if wordBoundary (String.get n' s) (String.get n s) then Some n
      else giveBack n' s
  end.

Definition reNumber : regex :=
  fun prev s =>
    if wordBoundary prev (head s) then giveBack (digitRun s) s else None.

(** [/[\n\r]-|\*/] *)
Definition reBullet : regex :=
  fun _ s =>
    match s with
    | String c r =>
        if ((code c =? 10) || (code c =? 13)) &&
           match r with
           | String d _ => code d =? 45
           | EmptyString => false
           end
        then Some 2%nat
        else if code c =? 42 then Some 1%nat else None
    | EmptyString => None
    end.

Definition numbers (text : string) : Z := countMatches reNumber text.
Definition bulletIndicators (text : string) : Z := countMatches reBullet text.

Definition scoreSpecificity (text : string) : Z :=
  Z.min (numbers text + bulletIndicators text) 3.

Definition calculateQualityScore (text : option string) : Q :=
  match text with
  | None => 0
  | Some t =>
      if negb (truthy text) then 0
      else
        let wordCount := countWords t in
        let completeness := inject_Z (scoreCompleteness t) * 15 in
        let specificity := inject_Z (scoreSpecificity t) * 10 in
        let lengthScore := inject_Z (Z.min wordCount 120) * 0.25 in
        completeness + specificity + lengthScore
  end%Q.

Definition classifyCheckinQuality (text : option string) : string :=
  let score := calculateQualityScore text in
  if Qle_bool STRONG_THRESHOLD score then "Strong"
  else if Qle_bool MEDIUM_THRESHOLD score then "Medium"
  else "Weak".

End Quality.

(** ** The part of [dayjs] (and of [Date]) that the agent uses *)

Module Dayjs.
Import Js.
Local Open Scope string_scope.
Local Open Scope Z_scope.

(** A [dayjs] object holds an instant, or is an invalid date ([None]),
    which is what parsing a text that is no date yields. *)
Definition t : Type := option Z.

Definition isValid (d : t) : bool :=
  match d with
  | Some _ => true
  | None => false
  end.

(** *** Calendar arithmetic of [Date] *)

Definition msPerDay : Z := 86400000.

Definition Day (ms : Z) : Z := ms / msPerDay.
Definition TimeWithinDay (ms : Z) : Z := ms mod msPerDay.
Definition MakeDate (day time : Z) : Z := day * msPerDay + time.
Definition MakeTime (hour min sec ms : Z) : Z :=
  ((hour * 60 + min) * 60 + sec) * 1000 + ms.

Definition DayFromYear (y : Z) : Z :=
  365 * (y - 1970) + (y - 1969) / 4 - (y - 1901) / 100 + (y - 1601) / 400.

Definition InLeapYear (y : Z) : bool :=
  ((y mod 4 =? 0) && negb (y mod 100 =? 0)) || (y mod 400 =? 0).

(** The year in which day number [d] falls: an estimate from the mean
    length of a year, corrected by one where it is off. *)
Definition YearFromDay (d : Z) : Z :=
  let y := 1970 + (400 * d) / 146097 in
  if d <? DayFromYear y then y - 1
  else if DayFromYear (y + 1) <=? d then y + 1
  else y.

(** Days of the year before month [m] (0 is January). *)
Definition daysBeforeMonth (leap : bool) (m : Z) : Z :=
  let l := if leap then 1 else 0 in
  match m with
  | 0 => 0
  | 1 => 31
  | 2 => 59 + l
  | 3 => 90 + l
  | 4 => 120 + l
  | 5 => 151 + l
  | 6 => 181 + l
  | 7 => 212 + l
  | 8 => 243 + l
  | 9 => 273 + l
  | 10 => 304 + l
  | _ => 334 + l
  end.

Definition monthOfDayInYear (leap : bool) (n : Z) : Z :=
  if n <? daysBeforeMonth leap 1 then 0
  else if n <? daysBeforeMonth leap 2 then 1
  else if n <? daysBeforeMonth leap 3 then 2
  else if n <? daysBeforeMonth leap 4 then 3
  else if n <? daysBeforeMonth leap 5 then 4
  else if n <? daysBeforeMonth leap 6 then 5
  else if n <? daysBeforeMonth leap 7 then 6
  else if n <? daysBeforeMonth leap 8 then 7
  else if n <? daysBeforeMonth leap 9 then 8
  else if n <? daysBeforeMonth leap 10 then 9
  else if n <? daysBeforeMonth leap 11 then 10
  else 11.

(** [getFullYear], [getMonth] (0 is January), [getDate], [getDay]
    (0 is Sunday). *)
Definition year (ms : Z) : Z := YearFromDay (Day ms).

Definition dayInYear (ms : Z) : Z := Day ms - DayFromYear (year ms).

Definition month (ms : Z) : Z :=
  monthOfDayInYear (InLeapYear (year ms)) (dayInYear ms).

Definition date (ms : Z) : Z :=
  dayInYear ms - daysBeforeMonth (InLeapYear (year ms)) (month ms) + 1.

Definition day (ms : Z) : Z := (Day ms + 4) mod 7.

(** [MakeDay]: the month may lie outside 0..11 and the date outside the
    month; both carry over. *)
Definition MakeDay (y m d : Z) : Z :=
  let ym := y + m / 12 in
  let mn := m mod 12 in
  DayFromYear ym + daysBeforeMonth (InLeapYear ym) mn + d - 1.

(** Number of days of month [m] (0 is January) of year [y]. *)
Definition daysInMonth (y m : Z) : Z :=
  match m with
  | 1 => if InLeapYear y then 29 else 28
  | 3 | 5 | 8 | 10 => 30
  | _ => 31
  end.

(** *** [startOf], [endOf], [add], [diff] and the comparisons *)

Definition startOfDay (d : t) : t :=
  option_map (fun ms => MakeDate (Day ms) (MakeTime 0 0 0 0)) d.

Definition endOfDay (d : t) : t :=
  option_map (fun ms => MakeDate (Day ms) (MakeTime 23 59 59 999)) d.

(** The year that [new Date(y, m, d)] takes for [y]: a year from 0 to 99
    stands for 1900 + y. *)
Definition constructorYear (y : Z) : Z :=
  if (0 <=? y) && (y <=? 99) then 1900 + y else y.

(** [new Date($y, $M, 1)] *)
Definition startOfMonth (d : t) : t :=
  option_map
    (fun ms => MakeDate (MakeDay (constructorYear (year ms)) (month ms) 1) 0)
    d.

(** [new Date($y, $M + 1, 0)], then the end of that day *)
Definition endOfMonth (d : t) : t :=
  endOfDay
    (option_map
       (fun ms =>
          MakeDate (MakeDay (constructorYear (year ms)) (month ms + 1) 0) 0)
       d).

(** [setDate(getDate() + n)] *)
Definition addDays (n : Z) (d : t) : t :=
  option_map
    (fun ms =>
       MakeDate (MakeDay (year ms) (month ms) (date ms + n))
                (TimeWithinDay ms)) d.

Definition isoWeekday (ms : Z) : Z :=
  if day ms =? 0 then 7 else day ms.

Definition startOfIsoWeek (d : t) : t :=
  match d with
  | Some ms => startOfDay (addDays (- (isoWeekday ms - 1)) d)
  | None => None
  end.

Definition valueLe (a b : t) : bool :=
  match a, b with
  | Some x, Some y => x <=? y
  | _, _ => false
  end.

Definition isSameOrAfter (a b : t) : bool := valueLe b a.
Definition isSameOrBefore (a b : t) : bool := valueLe a b.

(** [Math.floor] of a non-negative number, [Math.ceil] of a negative
    one. *)
Definition absFloor (q : Q) : Z :=
  if Qle_bool 0 q then Qfloor q else Qceiling q.

(** [a.diff(b, 'day')] *)
Definition diffDays (a b : t) : num :=
  match a, b with
  | Some x, Some y =>
      Num (inject_Z (absFloor (fl64 ((x - y) # Z.to_pos msPerDay))))
  | _, _ => NaN
  end.

(** [x + 1] *)
Definition succ (x : num) : num :=
  match x with
  | Num q => Num (q + 1)
  | NaN => NaN
  end.

(** *** [format] *)

Definition decimal (n : Z) : string :=
  DecimalString.NilZero.string_of_int (Z.to_int n).

Fixpoint zeros (n : nat) : string :=
  match n with
  | O => EmptyString
  | S k => String "0" (zeros k)
  end.

Definition padStart (width : nat) (s : string) : string :=
  zeros (width - String.length s) ++ s.

Definition INVALID_DATE_STRING : string := "Invalid Date".

(** [format('YYYY-MM-DD')] *)
Definition formatIsoDate (d : t) : string :=
  match d with
  | Some ms =>
      padStart 4 (decimal (year ms)) ++ "-" ++
      padStart 2 (decimal (month ms + 1)) ++ "-" ++
      padStart 2 (decimal (date ms))
  | None => INVALID_DATE_STRING
  end.

Definition monthNames : list string :=
  [ "January"; "February"; "March"; "April"; "May"; "June"; "July";
    "August"; "September"; "October"; "November"; "December" ].

(** [format('MMMM YYYY')] *)
Definition formatMonthYear (d : t) : string :=
  match d with
  | Some ms =>
      nth (Z.to_nat (month ms)) monthNames EmptyString ++ " " ++
      padStart 4 (decimal (year ms))
  | None => INVALID_DATE_STRING
  end.

(** [dayjs(dayjs().format('YYYY-MM-DD'))]: the text of the current day,
    read back, is the local midnight at which the day began. *)
Definition today (now : Z) : t := startOfDay (Some now).

End Dayjs.

(** ** [src/agent/checkinAgent.js]: data *)

(** A check-in record as the agent receives it.  [timestamp] is the value
    of [dayjs(checkin.timestamp)]; [user_name], [message_content] and
    [quality] may be missing. *)
Module Checkin.
Record t : Type := mk {
  message_id : string;
  user_id : string;
  user_name : option string;
  timestamp : Dayjs.t;
  message_content : option string;
  quality : option string
}.

(** [{...checkin, quality: q}] *)
Definition withQuality (c : t) (q : option string) : t :=
  mk (message_id c) (user_id c) (user_name c) (timestamp c)
     (message_content c) q.
End Checkin.

(** An element of the roster argument: a string, an object with some of
    the fields below, or anything else ([null], a number, a boolean). *)
Module Roster.
Record object : Type := mk {
  id : option string;
  user_id : option string;
  email : option string;
  name : option string;
  display_name : option string;
  real_name : option string
}.

Inductive entry : Type :=
| Text (s : string)
| Obj (o : object)
| Other.
End Roster.

Module Student.
Record t : Type := mk {
  id : option string;
  name : option string
}.
End Student.

(** A [Map] with string (or [undefined]) keys, in insertion order. *)
Module JsMap.
Definition key : Type := option string.

Definition key_eqb (a b : key) : bool :=
  match a, b with
  | Some x, Some y => String.eqb x y
  | None, None => true
  | _, _ => false
  end.

Definition t (V : Type) : Type := list (key * V).

Definition has {V} (m : t V) (k : key) : bool :=
  existsb (fun e => key_eqb (fst e) k) m.

(** A new key goes last; a key already there keeps its place. *)
Fixpoint set {V} (m : t V) (k : key) (v : V) : t V :=
  match m with
  | [] => [(k, v)]
  | (k', v') :: m' =>
      if key_eqb k' k then (k', v) :: m' else (k', v') :: set m' k v
  end.

Definition values {V} (m : t V) : list V := map snd m.

(** Every value is filed under its own key. *)
Definition keyed {A} (k : A -> key) (m : t A) : Prop :=
  Forall (fun e => k (snd e) = fst e) m.

(** The test of [find] for the value whose key is [key0]. *)
Definition byKey {A} (k : A -> key) (key0 : key) (s : A) : bool :=
  key_eqb (k s) key0.
End JsMap.

Module Agent.
Import Js.
Local Open Scope string_scope.
Local Open Scope Z_scope.

Definition QUALITY_TO_SCORE : list (string * Z) :=
  [ ("Strong", 3); ("Medium", 2); ("Weak", 1) ].

Definition normalizeRosterEntry (entry : Roster.entry)
  : option Student.t :=
  match entry with
  | Roster.Text s => Some (Student.mk (Some s) (Some s))
  | Roster.Obj o =>
      Some (Student.mk
              (or (or (or (Roster.id o) (Roster.user_id o))
                      (Roster.email o)) (Roster.name o))
              (or (or (or (Roster.name o) (Roster.display_name o))
                      (Roster.real_name o)) (Roster.id o)))
  | Roster.Other => None
  end.

(** [.filter(Boolean)] on a list of objects and [null]s *)
Fixpoint filterBoolean {A} (l : list (option A)) : list A :=
  match l with
  | [] => []
  | Some a :: r => a :: filterBoolean r
  | None :: r => filterBoolean r
  end.

Definition normalizeRoster (roster : list Roster.entry)
  : list Student.t :=
  filterBoolean (map normalizeRosterEntry roster).

Definition uniqueUsersFromCheckins (checkins : list Checkin.t)
  : list Student.t :=
  JsMap.values
    (fold_left
       (fun map item =>
          if negb (JsMap.has map (Some (Checkin.user_id item))) then
            JsMap.set map (Some (Checkin.user_id item))
              (Student.mk (Some (Checkin.user_id item))
                          (or (Checkin.user_name item)
                              (Some (Checkin.user_id item))))
          else map)
       checkins []).

Definition normalizeQuality (quality content : option string)
  : option string :=
  if truthy quality then quality
  else Some (Quality.classifyCheckinQuality
               (Some (match or content (Some EmptyString) with
                      | Some text => text
                      | None => EmptyString
                      end))).

(** The state of a [CheckInAgent]. *)
Record t : Type := mk {
  checkins : list Checkin.t;
  roster : list Student.t
}.

(** [new CheckInAgent({ checkins, roster })] *)
Definition constructor (checkins : list Checkin.t)
           (roster : list Roster.entry) : t :=
  mk (map (fun checkin =>
             Checkin.withQuality checkin
               (normalizeQuality (Checkin.quality checkin)
                                 (Checkin.message_content checkin)))
          checkins)
     (normalizeRoster roster).

Definition getAllStudents (this : t) : list Student.t :=
  let uniqueUsers := uniqueUsersFromCheckins (checkins this) in
  JsMap.values
    (fold_left
       (fun combined entry =>
          if negb (JsMap.has combined (Student.id entry)) then
            JsMap.set combined (Student.id entry) entry
          else combined)
       (roster this ++ uniqueUsers)%list []).

Definition getCheckinsByDateRange (this : t) (start end_ : Dayjs.t)
  : list Checkin.t :=
  filter
    (fun checkin =>
       let timestamp := Checkin.timestamp checkin in
       Dayjs.isSameOrAfter timestamp start &&
       Dayjs.isSameOrBefore timestamp end_)
    (checkins this).

(** [checkin.user_id === userId] *)
Definition isUser (userId : option string) (checkin : Checkin.t) : bool :=
  match userId with
  | Some u => String.eqb (Checkin.user_id checkin) u
  | None => false
  end.

(** The window is [None] when [start && end] is falsy. *)
Definition getCheckinsForUser (this : t) (userId : option string)
           (window : option (Dayjs.t * Dayjs.t)) : list Checkin.t :=
  let dateFiltered :=
    match window with
    | Some (start, end_) => getCheckinsByDateRange this start end_
    | None => checkins this
    end in
  filter (isUser userId) dateFiltered.

(** [user.name.toLowerCase() === normalizedName], which throws when the
    name is [undefined] *)
Fixpoint find_by_name (normalizedName : string) (users : list Student.t)
  : result (option Student.t) :=
  match users with
  | [] => Ok None
  | user :: rest =>
      match Student.name user with
      | None => Throw TypeError
      | Some n =>
          if String.eqb (toLowerCase n) normalizedName then Ok (Some user)
          else find_by_name normalizedName rest
      end
  end.

Definition getUserByName (this : t) (name : option string)
  : result (option Student.t) :=
  let normalizedName :=
    toLowerCase
      (trim (match or name (Some EmptyString) with
             | Some n => n
             | None => EmptyString
             end)) in
  find_by_name normalizedName (getAllStudents this).

(** [entries.sort((a, b) => dayjs(a.timestamp) - dayjs(b.timestamp))]:
    the sort is stable; a comparison that yields [NaN] counts as a
    tie. *)
Definition notAfter (a b : Checkin.t) : bool :=
  match Checkin.timestamp a, Checkin.timestamp b with
  | Some x, Some y => x <=? y
  | _, _ => true
  end.

Fixpoint insertByTimestamp (x : Checkin.t) (sorted : list Checkin.t)
  : list Checkin.t :=
  match sorted with
  | [] => [x]
  | y :: r =>
      if notAfter y x then y :: insertByTimestamp x r else x :: y :: r
  end.

Definition sortByTimestamp (entries : list Checkin.t) : list Checkin.t :=
  fold_left (fun sorted x => insertByTimestamp x sorted) entries [].

Module Daily.
Record t : Type := mk {
  date : string;
  message : option string;
  quality : option string;
  timestamp : Dayjs.t
}.
End Daily.

Definition summarizeDaily (this : t) (userId : option string)
           (date : Dayjs.t) : option Daily.t :=
  let dayStart := Dayjs.startOfDay date in
  let dayEnd := Dayjs.endOfDay date in
  let entries := getCheckinsForUser this userId (Some (dayStart, dayEnd)) in
  match sortByTimestamp entries with
  | [] => None
  | entry :: _ =>
      Some (Daily.mk (Dayjs.formatIsoDate dayStart)
                     (Checkin.message_content entry)
                     (Checkin.quality entry)
                     (Checkin.timestamp entry))
  end.

Module Summary.
Record t : Type := mk {
  start : string;
  end_ : string;
  total_checkins : Z;
  average_quality_score : num;
  quality : string;
  entries : list Checkin.t
}.
End Summary.

Definition length {A} (l : list A) : Z := Z.of_nat (List.length l).

Definition summarizeRange (this : t) (userId : option string)
           (start end_ : Dayjs.t) : option Summary.t :=
  let entries := getCheckinsForUser this userId (Some (start, end_)) in
  match entries with
  | [] => None
  | _ :: _ =>
      let score :=
        fold_left
          (fun acc item =>
             plus acc
               (orZero (getProperty QUALITY_TO_SCORE
                                    (Checkin.quality item))))
          entries (Sum 0) in
      let averageScore := divide score (length entries) in
      let quality :=
        if geq averageScore 2.5 then "Strong"
        else if geq averageScore 1.75 then "Medium"
        else "Weak" in
      Some (Summary.mk (Dayjs.formatIsoDate start)
                       (Dayjs.formatIsoDate end_)
                       (length entries)
                       (roundTo2 averageScore)
                       quality
                       entries)
  end.

Module Blocker.
Record t : Type := mk {
  user_id : string;
  user_name : option string;
  timestamp : Dayjs.t;
  message : option string
}.
End Blocker.

Definition blockerKeywords : list string :=
  [ "blocker"; "blocked"; "stuck"; "issue"; "problem"; "waiting"; "delay" ].

(** [entry.message_content.toLowerCase()] throws when the record has no
    text. *)
Definition extractBlockers (entries : list Checkin.t)
  : result (list Blocker.t) :=
  fold_left
    (fun acc entry =>
       bind acc (fun blockers =>
         match Checkin.message_content entry with
         | None => Throw TypeError
         | Some text =>
             let lower := toLowerCase text in
             let hasBlocker :=
               existsb (fun keyword => includes lower keyword)
                       blockerKeywords in
             if hasBlocker then
               Ok (blockers ++
                   [ Blocker.mk (Checkin.user_id entry)
                                (Checkin.user_name entry)
                                (Checkin.timestamp entry)
                                (Checkin.message_content entry) ])%list
             else Ok blockers
         end))
    entries (Ok []).

Module Week.
Record t : Type := mk {
  summary : Summary.t;
  blockers : list Blocker.t
}.
End Week.

Definition summarizeWeek (this : t) (userId : option string)
           (weekStart : Dayjs.t) : result (option Week.t) :=
  let start := Dayjs.startOfDay weekStart in
  let end_ := Dayjs.endOfDay (Dayjs.addDays 6 start) in
  match summarizeRange this userId start end_ with
  | None => Ok None
  | Some summary =>
      bind (extractBlockers (Summary.entries summary)) (fun blockers =>
      Ok (Some (Week.mk summary blockers)))
  end.

Module Consistency.
Record t : Type := mk {
  days_checked_in : Z;
  period_length : num;
  percentage : num
}.
End Consistency.

(** [new Set(...).size]: the number of distinct strings *)
Definition distinct (l : list string) : Z :=
  length (nodup string_dec l).

(** [Number(((days / total) * 100).toFixed(2))]; it is evaluated where
    entries exist, which makes [total] at least 1. *)
Definition percent (days : Z) (total : num) : num :=
  match total with
  | Num t =>
      roundTo2 (Num (fl64 (fl64 (inject_Z days / t) * 100)))
  | NaN => NaN
  end.

Definition calculateConsistency (this : t) (userId : option string)
           (start end_ : Dayjs.t) : Consistency.t :=
  let entries := getCheckinsForUser this userId (Some (start, end_)) in
  match entries with
  | [] =>
      Consistency.mk 0 (Dayjs.succ (Dayjs.diffDays end_ start)) (Num 0)
  | _ :: _ =>
      let uniqueDays :=
        distinct
          (map (fun entry => Dayjs.formatIsoDate (Checkin.timestamp entry))
               entries) in
      let totalDays := Dayjs.succ (Dayjs.diffDays end_ start) in
      Consistency.mk uniqueDays totalDays (percent uniqueDays totalDays)
  end.

Module Month.
Record t : Type := mk {
  summary : Summary.t;
  consistency : Consistency.t;
  blockers : list Blocker.t
}.
End Month.

Definition summarizeMonth (this : t) (userId : option string)
           (month : Dayjs.t) : result (option Month.t) :=
  let start := Dayjs.startOfMonth month in
  let end_ := Dayjs.endOfMonth month in
  match summarizeRange this userId start end_ with
  | None => Ok None
  | Some summary =>
      let consistency := calculateConsistency this userId start end_ in
      bind (extractBlockers (Summary.entries summary)) (fun blockers =>
      Ok (Some (Month.mk summary consistency blockers)))
  end.

(** [new Set(...).has(student.id)] *)
Definition setHas (s : list string) (k : option string) : bool :=
  match k with
  | Some x => existsb (String.eqb x) s
  | None => false
  end.

Definition findMissingCheckins (this : t) (start end_ : Dayjs.t)
  : list Student.t :=
  let students := getAllStudents this in
  let checkins := getCheckinsByDateRange this start end_ in
  let hasCheckedIn := map Checkin.user_id checkins in
  filter (fun student => negb (setHas hasCheckedIn (Student.id student)))
         students.

(** *** The query interpreter *)

(** A comparison under the [i] flag, for the patterns of the source,
    whose letters are all ASCII. *)
Definition eqIgnoreCase (a b : ascii) : bool :=
  Ascii.eqb (toLowerChar a) (toLowerChar b).

(** What follows [p] in [s], when [s] starts with [p] up to case. *)
Fixpoint afterPrefixIgnoreCase (p s : string) : option string :=
  match p, s with
  | EmptyString, _ => Some s
  | String _ _, EmptyString => None
  | String a p', String b s' =>
      if eqIgnoreCase a b then afterPrefixIgnoreCase p' s' else None
  end.

Definition notQuestionMark (c : ascii) : bool := negb (code c =? 63).

(** [([^?]+?)] followed by the rest of a pattern: the shortest run of
    one or more admitted code units after which [stop] holds. *)
Fixpoint lazyCapture (stop : string -> bool) (s : string)
  : option string :=
  match s with
  | EmptyString => None
  | String c r =>
      if notQuestionMark c then
        if stop r then Some (String c EmptyString)
        else option_map (String c) (lazyCapture stop r)
      else None
  end.

(** [s.match(re)] without the [g] flag: the match at the leftmost
    position that has one. *)
Fixpoint firstMatch (here : string -> option string) (s : string)
  : option string :=
  match here s with
  | Some capture => Some capture
  | None =>
      match s with
      | EmptyString => None
      | String _ r => firstMatch here r
      end
  end.

(** Group 1 of [/quality of ([^?]+?)'s check-in/i] *)
Definition matchName (question : string) : option string :=
  firstMatch
    (fun s =>
       match afterPrefixIgnoreCase "quality of " s with
       | Some r =>
           lazyCapture
             (fun r' =>
                match afterPrefixIgnoreCase "'s check-in" r' with
                | Some _ => true
                | None => false
                end) r
       | None => None
       end)
    question.

(** Group 1 of [/on ([^?]+?)(\?|$)/i] *)
Definition matchDate (question : string) : option string :=
  firstMatch
    (fun s =>
       match afterPrefixIgnoreCase "on " s with
       | Some r =>
           lazyCapture
             (fun r' =>
                match r' with
                | EmptyString => true
                | String c _ => negb (notQuestionMark c)
                end) r
       | None => None
       end)
    question.

(** [s.replace(/\.$/, '')] *)
Fixpoint dropFinalDot (s : string) : string :=
  match s with
  | EmptyString => EmptyString
  | String c EmptyString => if code c =? 46 then EmptyString else s
  | String c r => String c (dropFinalDot r)
  end.

Definition weekdays : list string :=
  [ "monday"; "tuesday"; "wednesday"; "thursday"; "friday"; "saturday";
    "sunday" ].

Fixpoint indexOf (l : list string) (x : string) (i : Z) : option Z :=
  match l with
  | [] => None
  | y :: r => if String.eqb y x then Some i else indexOf r x (i + 1)
  end.

(** The payload of an answer. *)
Module Response.
Inductive t (P : Type) : Type :=
| Answer (question answer : string)
| Details (question answer : string) (details : Daily.t)
| Report (payload : P).
Arguments Answer {P} question answer.
Arguments Details {P} question answer details.
Arguments Report {P} payload.
End Response.

Section QueryInterpreter.

(** The current instant, [dayjs()]. *)
Variable now : Z.

(** [dayjs(text, 'YYYY-MM-DD', true)], the strict parser of the
    [customParseFormat] plugin. *)
Variable parseIsoStrict : string -> Dayjs.t.

(** The five handlers that the interpreter dispatches to besides
    [answerQualityQuestion], with the type of the objects they
    build. *)
Variable Payload : Type.
Variable answerYesterday : t -> result Payload.
Variable answerMissingRecent : t -> string -> result Payload.
Variable answerProgressThisWeek : t -> result Payload.
Variable answerDateRangeListing : t -> string -> result Payload.
Variable answerBlockersThisWeek : t -> result Payload.

Definition parseDateToken (token : string)
           (referenceStart : option Dayjs.t) : option Dayjs.t :=
  let trimmed := dropFinalDot (trim token) in
  let lower := toLowerCase trimmed in
  if Dayjs.isValid (parseIsoStrict trimmed) then
    Some (parseIsoStrict trimmed)
  else
    match indexOf weekdays lower 0 with
    | Some weekdayIndex =>
        let base :=
          match referenceStart with
          | Some r => r
          | None => Dayjs.startOfIsoWeek (Some now)
          end in
        Some (Dayjs.addDays weekdayIndex base)
    | None =>
        if String.eqb lower "yesterday" then
          Some (Dayjs.addDays (-1) (Some now))
        else if String.eqb lower "today" then Some (Some now)
        else if String.eqb lower "tomorrow" then
          Some (Dayjs.addDays 1 (Some now))
        else None
    end.

(** The text of [`${v}`] for a value that may be [undefined] *)
Definition text (v : option string) : string :=
  match v with
  | Some s => s
  | None => "undefined"
  end.

Definition answerQualityQuestion (this : t) (question : string)
  : result (Response.t Payload) :=
  let nameMatch := matchName question in
  let dateMatch := matchDate question in
  match nameMatch with
  | None =>
      Ok (Response.Answer question
            "Please specify the student name whose check-in quality you want to review.")
  | Some name1 =>
      let studentName := trim name1 in
      bind (getUserByName this (Some studentName)) (fun user =>
      match user with
      | None =>
          Ok (Response.Answer question
                ("I could not find a student named " ++ studentName
                 ++ "."))
      | Some user =>
          let date :=
            match dateMatch with
            | Some token => parseDateToken token None
            | None => Some (Dayjs.today now)
            end in
          match date with
          | None =>
              Ok (Response.Answer question
                    "I was unable to interpret the requested date.")
          | Some date =>
              match summarizeDaily this (Student.id user) date with
              | None =>
                  Ok (Response.Answer question
                        (studentName ++ " did not check in on "
                         ++ Dayjs.formatIsoDate date ++ "."))
              | Some daily =>
                  Ok (Response.Details question
                        (studentName ++ "'s check-in on "
                         ++ Daily.date daily ++ " was classified as "
                         ++ text (Daily.quality daily) ++ ".")
                        daily)
              end
          end
      end)
  end.

Definition report (r : result Payload) : result (Response.t Payload) :=
  bind r (fun payload => Ok (Response.Report payload)).

Definition answerQuestion (this : t) (question : string)
  : result (Response.t Payload) :=
  let lower := toLowerCase question in
  if includes lower "who checked in yesterday" then
    report (answerYesterday this)
  else if includes lower "who didn't" || includes lower "who did not"
  then report (answerMissingRecent this lower)
  else if includes lower "quality of" then
    answerQualityQuestion this question
  else if includes lower "substantial progress" then
    report (answerProgressThisWeek this)
  else if includes lower "between" && includes lower "checked in" then
    report (answerDateRangeListing this question)
  else if includes lower "key blockers" || includes lower "blockers"
  then report (answerBlockersThisWeek this)
  else
    Ok (Response.Answer question
          "I'm not sure how to answer that yet, but I can help with check-in summaries, quality, blockers, and attendance.").

End QueryInterpreter.

(** *** The dashboard generator *)

(** The [timeframe] argument.  A field is [None] when it is missing or
    falsy; a date field that is present holds what [dayjs] makes of
    it. *)
Module Timeframe.
Record t : Type := mk {
  type : option string;
  date : option Dayjs.t;
  start : option Dayjs.t;
  month : option Dayjs.t
}.
End Timeframe.

(** The report; the constructor is the [type] field. *)
Module Dashboard.
Inductive t : Type :=
| daily (user : option string) (date : string)
        (summary : option Daily.t)
| weekly (user : option string) (week_start week_end : string)
         (summary : option Week.t)
| monthly (user : option string) (month : string)
          (summary : option Month.t).
End Dashboard.

(** [a || b] on date values *)
Definition orDate (a b : option Dayjs.t) : option Dayjs.t :=
  match a with
  | Some _ => a
  | None => b
  end.

Definition generateDashboard (this : t) (now : Z)
           (userId userName : option string)
           (timeframe : option Timeframe.t) : result Dashboard.t :=
  if negb (truthy userId) then
    Throw (Error "userId is required to generate a dashboard.")
  else
    match timeframe with
    | None =>
        Throw (Error
          "A timeframe with a type is required (daily, weekly, monthly).")
    | Some timeframe =>
        match Timeframe.type timeframe with
        | None =>
            Throw (Error
              "A timeframe with a type is required (daily, weekly, monthly).")
        | Some type0 =>
            if negb (truthy (Some type0)) then
              Throw (Error
                "A timeframe with a type is required (daily, weekly, monthly).")
            else
            let type := toLowerCase type0 in
            if String.eqb type "daily" then
              match orDate (Timeframe.date timeframe)
                           (Timeframe.start timeframe) with
              | None => Throw (Error "Daily dashboards require a date value.")
              | Some date =>
                  let summary := summarizeDaily this userId date in
                  Ok (Dashboard.daily userName (Dayjs.formatIsoDate date)
                                      summary)
              end
            else if String.eqb type "weekly" then
              let startValue := orDate (Timeframe.start timeframe)
                                       (Timeframe.date timeframe) in
              let start :=
                match startValue with
                | Some v => Dayjs.startOfIsoWeek v
                | None => Dayjs.startOfIsoWeek (Some now)
                end in
              bind (summarizeWeek this userId start) (fun summary =>
              Ok (Dashboard.weekly userName
                    (Dayjs.formatIsoDate start)
                    (Dayjs.formatIsoDate (Dayjs.addDays 6 start))
                    summary))
            else if String.eqb type "monthly" then
              let monthValue :=
                match orDate (orDate (Timeframe.month timeframe)
                                     (Timeframe.start timeframe))
                             (Timeframe.date timeframe) with
                | Some v => v
                | None => Dayjs.today now
                end in
              bind (summarizeMonth this userId monthValue) (fun summary =>
              Ok (Dashboard.monthly userName
                    (Dayjs.formatMonthYear monthValue) summary))
            else
              Throw (Error ("Unsupported timeframe type: " ++ type0))
        end
    end.

End Agent.

(** ** The specification's formulas

    Written from the text of the specification, to be compared with the
    functions above. *)

Module Spec.
Import Js.
Local Open Scope string_scope.
Local Open Scope Z_scope.

(** A keyword group is present when one of its keywords occurs in the
    text, whatever the case of the letters. *)
Definition present (text : string) (group : string * list string) : bool :=
  existsb (fun keyword => includes (toLowerCase text) keyword) (snd group).

Definition categoriesPresent (text : string) : Z :=
  Z.of_nat (List.length (filter (present text) Quality.KEYWORD_GROUPS)).

(** 15 x categories + 10 x min(3, digit tokens + bullet markers)
    + 0.25 x min(120, words); 0 for a missing text. *)
Definition score (text : option string) : Q :=
  match text with
  | None => 0
  | Some t =>
      15 * inject_Z (categoriesPresent t)
      + 10 * inject_Z (Z.min 3 (Quality.numbers t
                                + Quality.bulletIndicators t))
      + 0.25 * inject_Z (Z.min 120 (Quality.countWords t))
  end%Q.

Definition label (score : Q) : string :=
  if Qle_bool 80 score then "Strong"
  else if Qle_bool 40 score then "Medium"
  else "Weak".

(** Weak < Medium < Strong *)
Definition rank (label : string) : Z :=
  if String.eqb label "Strong" then 2
  else if String.eqb label "Medium" then 1
  else 0.

(** The mean of the weights Strong = 3, Medium = 2, Weak = 1 over
    entries that all carry one of the three labels. *)
Definition count (label : string) (entries : list Checkin.t) : Z :=
  Z.of_nat
    (List.length
       (filter (fun e => JsMap.key_eqb (Checkin.quality e) (Some label))
               entries)).

Definition weights (entries : list Checkin.t) : Z :=
  3 * count "Strong" entries + 2 * count "Medium" entries
  + count "Weak" entries.



Definition labelled (e : Checkin.t) : Prop :=
  Checkin.quality e = Some "Strong" \/
  Checkin.quality e = Some "Medium" \/
  Checkin.quality e = Some "Weak".


Definition given {A} (v : option A) : bool :=
  match v with
  | Some _ => true
  | None => false
  end.

(** The conditions under which the dashboard generator fails: no user
    id, no timeframe type, a daily type with neither a date nor a start
    value, a type that is none of daily, weekly and monthly.  [norm] is
    applied to the type before it is compared. *)
Definition failsWhen (norm : string -> string) (userId : option string)
           (timeframe : option Agent.Timeframe.t) : bool :=
  negb (truthy userId) ||
  match timeframe with
  | None => true
  | Some tf =>
      match Agent.Timeframe.type tf with
      | None => true
      | Some type =>
          negb (truthy (Some type)) ||
          (String.eqb (norm type) "daily" &&
           negb (given (Agent.Timeframe.date tf)) &&
           negb (given (Agent.Timeframe.start tf))) ||
          negb (String.eqb (norm type) "daily"
                || String.eqb (norm type) "weekly"
                || String.eqb (norm type) "monthly")
      end
  end.

(** The type compared as it is written. *)
Definition dashboardFails : option string -> option Agent.Timeframe.t -> bool :=
  failsWhen (fun type => type).

(** The type compared whatever the case of its letters. *)
Definition dashboardFailsIgnoringCase
  : option string -> option Agent.Timeframe.t -> bool :=
  failsWhen toLowerCase.

Definition hasText (c : Checkin.t) : bool :=
  given (Checkin.message_content c).

End Spec.

(** ** Sample data for the examples *)

Module Samples.
Local Open Scope string_scope.
Local Open Scope Z_scope.

(** 2024-02-15T12:34:56.789Z, a Thursday. *)
Definition feb15 : Z := 1708000496789.

(** A record labelled with the name of an inherited property. *)
Definition odd_label : Checkin.t :=
  Checkin.mk "m1" "U1" (Some "Una") (Some feb15) (Some "all good")
             (Some "constructor").

(** A record with a label of its own. *)
Definition great : Checkin.t :=
  Checkin.mk "m2" "U2" (Some "Gus") (Some feb15) (Some "all good")
             (Some "Great").

(** A record whose label is the empty string. *)
Definition blank_label : Checkin.t :=
  Checkin.mk "m6" "U6" (Some "Bo") (Some feb15) (Some "all good")
             (Some EmptyString).

(** A record without a text. *)
Definition silent : Checkin.t :=
  Checkin.mk "m3" "U3" (Some "Sil") (Some feb15) None (Some "Strong").

Definition strong_entry : Checkin.t :=
  Checkin.mk "m4" "U4" (Some "Ada") (Some feb15) (Some "shipped it")
             (Some "Strong").
Definition weak_entry : Checkin.t :=
  Checkin.mk "m5" "U4" (Some "Ada") (Some (feb15 + 1)) (Some "ok")
             (Some "Weak").

(** The roster object [{ user_id: 'U1' }]. *)
Definition nameless : Roster.entry :=
  Roster.Obj (Roster.mk None (Some "U1") None None None None).

Definition sample_weak : string := "done".
Definition sample_medium : string :=
  "Finished 3 tasks, 2 reviews and 1 fix; next plan: focus on the stuck issue".
End Samples.

(** ** Vocabulary of the further properties *)

Module Notions.
Import Js Agent.
Local Open Scope string_scope.
Local Open Scope Z_scope.

(** The record is stamped on one of the [n] calendar days that begin
    with day number [first]. *)
Definition withinDays (first n : Z) (c : Checkin.t) : bool :=
  match Checkin.timestamp c with
  | Some ts => (first <=? Dayjs.Day ts) && (Dayjs.Day ts <? first + n)
  | None => false
  end.

(** The record is stamped on the calendar day of [date]. *)
Definition sameDay (date : Dayjs.t) (c : Checkin.t) : bool :=
  match date with
  | Some d => withinDays (Dayjs.Day d) 1 c
  | None => false
  end.

(** The record is stamped in month [m] (0 is January) of year [y]. *)
Definition inMonth (y m : Z) (c : Checkin.t) : bool :=
  match Checkin.timestamp c with
  | Some ts => (Dayjs.year ts =? y) && (Dayjs.month ts =? m)
  | None => false
  end.

(** [c] is stamped strictly after [a], and not before [a]. *)
Definition laterThan (a c : Checkin.t) : bool :=
  match Checkin.timestamp a, Checkin.timestamp c with
  | Some x, Some y => x <? y
  | _, _ => false
  end.

Definition notBefore (a c : Checkin.t) : bool :=
  match Checkin.timestamp a, Checkin.timestamp c with
  | Some x, Some y => x <=? y
  | _, _ => false
  end.

(** The text of the record holds one of the blocker keywords, whatever
    the case of its letters. *)
Definition mentionsBlocker (c : Checkin.t) : bool :=
  match Checkin.message_content c with
  | Some text =>
      existsb (fun keyword => includes (toLowerCase text) keyword)
              blockerKeywords
  | None => false
  end.

Definition blockerOf (c : Checkin.t) : Blocker.t :=
  Blocker.mk (Checkin.user_id c) (Checkin.user_name c)
             (Checkin.timestamp c) (Checkin.message_content c).

(** The student that a check-in stands for when the roster does not list
    its user. *)
Definition studentOf (c : Checkin.t) : Student.t :=
  Student.mk (Some (Checkin.user_id c))
             (or (Checkin.user_name c) (Some (Checkin.user_id c))).

(** The head of the sorted list after one more insertion. *)
Definition earlier (best x : Checkin.t) : Checkin.t :=
  if notAfter best x then best else x.

Definition stamped (c : Checkin.t) : bool :=
  Spec.given (Checkin.timestamp c).

(** A roster entry from which [normalizeRoster] derives a name. *)
Definition nameable (entry : Roster.entry) : bool :=
  match entry with
  | Roster.Text _ => true
  | Roster.Obj o =>
      truthy (Roster.name o) || truthy (Roster.display_name o)
      || truthy (Roster.real_name o) || Spec.given (Roster.id o)
  | Roster.Other => true
  end.

End Notions.

(** ** What the classifier counts, told without regular expressions *)

Module Tokens.
Import Js.
Local Open Scope string_scope.
Local Open Scope Z_scope.

(** The number of maximal runs of code units that are not white space;
    [inWord] tells that the code unit before belongs to a run. *)
Fixpoint runsFrom (inWord : bool) (s : string) : Z :=
  match s with
  | EmptyString => 0
  | String c r =>
      if isWhiteSpace c then runsFrom false r
      else (if inWord then 0 else 1) + runsFrom true r
  end.

Definition wordRuns (s : string) : Z := runsFrom false s.

(** The number of asterisks. *)
Fixpoint stars (s : string) : Z :=
  match s with
  | EmptyString => 0
  | String c r => (if code c =? 42 then 1 else 0) + stars r
  end.

Definition isBreak (c : ascii) : bool := (code c =? 10) || (code c =? 13).

(** The number of hyphens that follow a line feed or a carriage
    return. *)
Fixpoint dashesAfterBreak (s : string) : Z :=
  match s with
  | EmptyString => 0
  | String c r =>
      (if isBreak c && match r with
                       | String d _ => code d =? 45
                       | EmptyString => false
                       end
       then 1 else 0) + dashesAfterBreak r
  end.

(** The number of maximal runs of word characters (letters, digits and
    the underscore) that are made of digits only.  [state] is [None]
    outside a run, and inside a run tells whether the run has held
    digits only so far. *)
Definition closes (state : option bool) : Z :=
  match state with
  | Some true => 1
  | _ => 0
  end.

Fixpoint digitTokensFrom (state : option bool) (s : string) : Z :=
  match s with
  | EmptyString => closes state
  | String c r =>
      if isWordChar c then
        digitTokensFrom
          (Some (match state with
                 | None => isDigit c
                 | Some b => b && isDigit c
                 end)) r
      else closes state + digitTokensFrom None r
  end.

Definition digitTokens (s : string) : Z := digitTokensFrom None s.

End Tokens.

Module MoreSamples.
Local Open Scope string_scope.
Local Open Scope Z_scope.

(** A text that the classifier labels Strong: three categories, three
    number tokens and twenty-seven words. *)
Definition sample_strong : string :=
  "Completed 3 tasks and shipped 2 fixes today; next plan is to focus on the stuck issue with 1 blocker, waiting for help from the team.".

End MoreSamples.

(** ** [src/agent/checkinAgent.js]: the five other question handlers *)

Module Handlers.
Import Js Agent.
Local Open Scope string_scope.
Local Open Scope Z_scope.

(** *** What the handlers use of [Date] and of regular expressions *)

(** [TimeClip]: an instant further than 8.64e15 ms from the epoch is no
    date.  It matters where the number of days comes from the text of a
    question. *)
Definition maxTime : Z := 8640000000000000.

Definition TimeClip (ms : Z) : Dayjs.t :=
  if Z.abs ms <=? maxTime then Some ms else None.

(** [d.subtract(n, 'day')] for such a number [n] *)
Definition subtractDays (n : Z) (d : Dayjs.t) : Dayjs.t :=
  match Dayjs.addDays (- n) d with
  | Some ms => TimeClip ms
  | None => None
  end.

(** [dayjs(text)] for the text that [format('YYYY-MM-DD')] gives of [d]:
    the local midnight at which the day of [d] began (for a year of
    four digits). *)
Definition reparse (d : Dayjs.t) : Dayjs.t := Dayjs.startOfDay d.

(** What follows [p] in [s], when [s] starts with [p]. *)
Fixpoint afterPrefix (p s : string) : option string :=
  match p, s with
  | EmptyString, _ => Some s
  | String _ _, EmptyString => None
  | String a p', String b s' =>
      if Ascii.eqb a b then afterPrefix p' s' else None
  end.

(** The longest prefix of [s] whose code units satisfy [p], and what
    follows it. *)
Fixpoint span (p : ascii -> bool) (s : string) : string * string :=
  match s with
  | EmptyString => (EmptyString, EmptyString)
  | String c r =>
      if p c then let (a, b) := span p r in (String c a, b)
      else (EmptyString, s)
  end.

(** [s.match(re)] without the [g] flag, for a pattern with several
    groups: the match at the leftmost position that has one. *)
Fixpoint firstOf {A} (here : string -> option A) (s : string) : option A :=
  match here s with
  | Some groups => Some groups
  | None =>
      match s with
      | EmptyString => None
      | String _ r => firstOf here r
      end
  end.

(** [Number(digits)] for a run of decimal digits *)
Fixpoint numberFrom (acc : Z) (digits : string) : Z :=
  match digits with
  | EmptyString => acc
  | String c r => numberFrom (10 * acc + (code c - 48)) r
  end.

(** Group 1 of [/past (\d+) day/]: the digits are taken greedily, and a
    shorter run of them is followed by a digit, not by a space. *)
Definition matchPastDays (lowerQuestion : string) : option string :=
  firstOf
    (fun s =>
       match afterPrefix "past " s with
       | Some r =>
           let (digits, rest) := span isDigit r in
           if truthy (Some digits) && startsWith rest " day"
           then Some digits else None
       | None => None
       end)
    lowerQuestion.

Definition notSpace (c : ascii) : bool := negb (code c =? 32).

(** Groups 1 and 2 of [/between ([^ ]+) and ([^?]+)/i]: a shorter run
    for group 1 is followed by a code unit that is no space, and nothing
    follows group 2 in the pattern. *)
Definition matchBetween (question : string) : option (string * string) :=
  firstOf
    (fun s =>
       match afterPrefixIgnoreCase "between " s with
       | Some r =>
           let (startToken, r1) := span notSpace r in
           if truthy (Some startToken) then
             match afterPrefixIgnoreCase " and " r1 with
             | Some r2 =>
                 let (endToken, _) := span notQuestionMark r2 in
                 if truthy (Some endToken) then Some (startToken, endToken)
                 else None
             | None => None
             end
           else None
       | None => None
       end)
    question.

(** *** The objects that the handlers build *)

Module Ranking.
Record t : Type := mk {
  student : option string;
  average_quality_score : Q;
  quality : string;
  checkins : Z
}.
End Ranking.

Module Item.
Record t : Type := mk {
  date : string;
  message : option string;
  quality : option string
}.
End Item.

(** The object [grouped]: its own properties, in the order in which they
    were created.  (The order in which an engine enumerates them, names
    that are array indices first, is not told by this list.) *)
Definition Groups : Type := list (string * list Item.t).

Fixpoint lookup (g : Groups) (key : string) : option (list Item.t) :=
  match g with
  | [] => None
  | (k, items) :: g' =>
      if String.eqb k key then Some items else lookup g' key
  end.

(** [grouped[key].push(item)] where [key] is an own property *)
Fixpoint push (g : Groups) (key : string) (item : Item.t) : Groups :=
  match g with
  | [] => []
  | (k, items) :: g' =>
      if String.eqb k key then (k, items ++ [item])%list :: g'
      else (k, items) :: push g' key item
  end.

Module Payload.
Inductive t : Type :=
| yesterday (question date : string)
            (checked_in missing : list (option string))
            (note : option string)
| missingRecent (question start end_ : string)
                (missing : list (option string)) (note : option string)
| progress (question week_start week_end : string)
           (top_students : list Ranking.t)
| unreadable (question answer : string)
| listing (question start end_ : string) (students : Groups)
| blockersThisWeek (question week_start week_end : string)
                   (blockers : list Blocker.t).
End Payload.

(** *** [answerYesterday] and [answerMissingRecent] *)

Definition rosterProvided (this : Agent.t) : bool :=
  0 <? Agent.length (roster this).

Definition missingNames (this : Agent.t) (missing : list Student.t)
  : list (option string) :=
  if rosterProvided this then map Student.name missing else [].

Definition rosterNote (this : Agent.t) : option string :=
  if rosterProvided this then None
  else Some "Provide a roster list to identify missing check-ins.".

Definition answerYesterday (now : Z) (this : Agent.t) : Payload.t :=
  let today := Some now in
  let day := Dayjs.addDays (-1) today in
  let start := Dayjs.startOfDay (reparse day) in
  let end_ := Dayjs.endOfDay (reparse day) in
  let entries := getCheckinsByDateRange this start end_ in
  let checkinsByUser :=
    fold_left
      (fun (m : JsMap.t (option string)) entry =>
         JsMap.set m (Some (Checkin.user_id entry))
                   (Checkin.user_name entry))
      entries [] in
  let missing := findMissingCheckins this start end_ in
  Payload.yesterday "Who checked in yesterday and who did not?"
                    (Dayjs.formatIsoDate day)
                    (JsMap.values checkinsByUser)
                    (missingNames this missing)
                    (rosterNote this).

Definition answerMissingRecent (now : Z) (this : Agent.t)
           (lowerQuestion : string) : Payload.t :=
  let days :=
    match matchPastDays lowerQuestion with
    | Some digits => numberFrom 0 digits
    | None => 3
    end in
  let end_ := Dayjs.endOfDay (Some now) in
  let start := Dayjs.startOfDay (subtractDays (days - 1) end_) in
  let missing := findMissingCheckins this start end_ in
  Payload.missingRecent "Students missing check-ins"
                        (Dayjs.formatIsoDate start)
                        (Dayjs.formatIsoDate end_)
                        (missingNames this missing)
                        (rosterNote this).

(** *** [answerProgressThisWeek] *)

(** [x || 0] on a number *)
Definition numberOrZero (x : num) : Q :=
  match x with
  | Num q => if Qeq_bool q 0 then 0%Q else q
  | NaN => 0%Q
  end.

Definition rankingOf (this : Agent.t) (start end_ : Dayjs.t)
           (student : Student.t) : Ranking.t :=
  let summary := summarizeRange this (Student.id student) start end_ in
  Ranking.mk
    (Student.name student)
    (match summary with
     | Some s => numberOrZero (Summary.average_quality_score s)
     | None => 0%Q
     end)
    (match summary with
     | Some s => if truthy (Some (Summary.quality s)) then Summary.quality s
                 else "No Data"
     | None => "No Data"
     end)
    (match summary with
     | Some s => Summary.total_checkins s
     | None => 0
     end).

(** [rankings.sort((a, b) => b.average_quality_score -
    a.average_quality_score)]: the sort is stable. *)
Fixpoint insertByAverage (x : Ranking.t) (sorted : list Ranking.t)
  : list Ranking.t :=
  match sorted with
  | [] => [x]
  | y :: r =>
      if Qle_bool (Ranking.average_quality_score x)
                  (Ranking.average_quality_score y)
      then y :: insertByAverage x r
      else x :: y :: r
  end.

Definition sortByAverage (rankings : list Ranking.t) : list Ranking.t :=
  fold_left (fun sorted x => insertByAverage x sorted) rankings [].

Definition answerProgressThisWeek (now : Z) (this : Agent.t) : Payload.t :=
  let start := Dayjs.startOfIsoWeek (Some now) in
  let end_ := Dayjs.endOfDay (Dayjs.addDays 6 start) in
  let students := getAllStudents this in
  let rankings :=
    filter (fun item => 0 <? Ranking.checkins item)
           (map (rankingOf this start end_) students) in
  Payload.progress
    "Which students made the most substantial progress this week?"
    (Dayjs.formatIsoDate start) (Dayjs.formatIsoDate end_)
    (firstn 5 (sortByAverage rankings)).

(** *** [answerDateRangeListing] *)

(** One round of the [forEach]: a name that the object inherits from
    [Object.prototype] reads as a value that is truthy and has no
    [push]. *)
Definition groupEntry (grouped : Groups) (entry : Checkin.t)
  : result Groups :=
  let key := text (Checkin.user_name entry) in
  let item := Item.mk (Dayjs.formatIsoDate (Checkin.timestamp entry))
                      (Checkin.message_content entry)
                      (Checkin.quality entry) in
  match lookup grouped key with
  | Some _ => Ok (push grouped key item)
  | None =>
      if existsb (String.eqb key) objectPrototype then Throw TypeError
      else Ok (grouped ++ [(key, [item])])%list
  end.

Section DateRange.

Variable now : Z.
Variable parseIsoStrict : string -> Dayjs.t.

Definition answerDateRangeListing (this : Agent.t) (question : string)
  : result Payload.t :=
  match matchBetween question with
  | None =>
      Ok (Payload.unreadable question
            "Please specify the start and end dates for the query (e.g., between Monday and Wednesday).")
  | Some (startToken, endToken) =>
      let start := parseDateToken now parseIsoStrict startToken None in
      let end_ := parseDateToken now parseIsoStrict endToken start in
      match start, end_ with
      | Some start, Some end_ =>
          let entries :=
            getCheckinsByDateRange this (Dayjs.startOfDay start)
                                   (Dayjs.endOfDay end_) in
          bind (fold_left (fun grouped entry =>
                             bind grouped (fun g => groupEntry g entry))
                          entries (Ok []))
               (fun grouped =>
                  Ok (Payload.listing question
                        (Dayjs.formatIsoDate start)
                        (Dayjs.formatIsoDate end_) grouped))
      | _, _ =>
          Ok (Payload.unreadable question
                "I was unable to interpret the provided date range.")
      end
  end.

End DateRange.

(** *** [answerBlockersThisWeek] *)

Definition answerBlockersThisWeek (now : Z) (this : Agent.t)
  : result Payload.t :=
  let start := Dayjs.startOfIsoWeek (Some now) in
  let end_ := Dayjs.endOfDay (Dayjs.addDays 6 start) in
  let entries := getCheckinsByDateRange this start end_ in
  bind (extractBlockers entries) (fun blockers =>
  Ok (Payload.blockersThisWeek
        "What were the key blockers mentioned this week?"
        (Dayjs.formatIsoDate start) (Dayjs.formatIsoDate end_) blockers)).

(** *** [answerQuestion] with its handlers *)

Definition answer (now : Z) (parseIsoStrict : string -> Dayjs.t)
           (this : Agent.t) (question : string)
  : result (Response.t Payload.t) :=
  answerQuestion now parseIsoStrict Payload.t
    (fun this => Ok (answerYesterday now this))
    (fun this lower => Ok (answerMissingRecent now this lower))
    (fun this => Ok (answerProgressThisWeek now this))
    (answerDateRangeListing now parseIsoStrict)
    (answerBlockersThisWeek now)
    this question.

End Handlers.

(** ** Vocabulary of the handlers' properties *)

Module Told.
Import Js Agent Handlers.
Local Open Scope string_scope.
Local Open Scope Z_scope.

(** The elements of [l] that are not in [seen], each once, in the order
    in which they first occur. *)
Fixpoint firstOccurrences (seen l : list string) : list string :=
  match l with
  | [] => []
  | x :: r =>
      if existsb (String.eqb x) seen then firstOccurrences seen r
      else x :: firstOccurrences (x :: seen) r
  end.

(** The users of the entries, each once, in the order of their first
    entry. *)
Definition usersOf (entries : list Checkin.t) : list string :=
  firstOccurrences [] (map Checkin.user_id entries).

(** The user name of the last entry of user [u]. *)
Definition lastNameOf (entries : list Checkin.t) (u : string)
  : option string :=
  fold_left
    (fun acc entry =>
       if String.eqb (Checkin.user_id entry) u then Checkin.user_name entry
       else acc)
    entries None.

(** The property name under which an entry is grouped. *)
Definition groupName (entry : Checkin.t) : string :=
  text (Checkin.user_name entry).

Definition itemOf (entry : Checkin.t) : Item.t :=
  Item.mk (Dayjs.formatIsoDate (Checkin.timestamp entry))
          (Checkin.message_content entry) (Checkin.quality entry).

(** The groups of the entries: one per name, in the order of the first
    entry of each name, with the items of the name's entries in their
    order. *)
Definition groupsOf (entries : list Checkin.t) : Groups :=
  map (fun name =>
         (name,
          map itemOf
              (filter (fun entry => String.eqb (groupName entry) name)
                      entries)))
      (firstOccurrences [] (map groupName entries)).

(** The entry is grouped under a name that objects inherit. *)
Definition inheritedName (entry : Checkin.t) : bool :=
  existsb (String.eqb (groupName entry)) objectPrototype.

(** The students without an entry among [entries], by name when the
    agent has a roster; none without a roster. *)
Definition absentees (this : Agent.t) (entries : list Checkin.t)
  : list (option string) :=
  match roster this with
  | [] => []
  | _ :: _ =>
      map Student.name
          (filter (fun s => negb (setHas (map Checkin.user_id entries)
                                         (Student.id s)))
                  (getAllStudents this))
  end.

Definition noteWithoutRoster (this : Agent.t) : option string :=
  match roster this with
  | [] => Some "Provide a roster list to identify missing check-ins."
  | _ :: _ => None
  end.

(** The day number of the Monday of the ISO week of the instant. *)
Definition mondayOf (ms : Z) : Z := Dayjs.Day ms - (Dayjs.Day ms + 3) mod 7.

(** The check-ins of the [n] days that begin with day number [first]. *)
Definition ofDays (this : Agent.t) (first n : Z) : list Checkin.t :=
  filter (Notions.withinDays first n) (checkins this).

(** No average of a later item is above that of an earlier one. *)
Definition descending (l : list Ranking.t) : Prop :=
  StronglySorted
    (fun a b => (Ranking.average_quality_score b
                 <= Ranking.average_quality_score a)%Q) l.

End Told.

(** ** [src/controllers/agentController.js] and the error handler of
    [server.js]

    The body of a request is a JSON object.  A field that the
    controllers only test and pass on is told by what the tests see of
    it; the elements of [checkins] are objects, and the fields of a
    check-in, of the user and of the timeframe have the types that the
    agent expects when they are present. *)

Module Controller.
Import Js Agent.
Local Open Scope string_scope.
Local Open Scope Z_scope.

(** What a handler ends with: a value, or an error, with the [status]
    property of the error when it has one. *)
Inductive outcome (A : Type) : Type :=
| Returned (a : A)
| Raised (status : option Z) (e : error).
Arguments Returned {A} a.
Arguments Raised {A} status e.

Definition andThen {A B} (m : outcome A) (k : A -> outcome B) : outcome B :=
  match m with
  | Returned a => k a
  | Raised status e => Raised status e
  end.

(** An exception of the agent has no [status]. *)
Definition run {A} (m : result A) : outcome A :=
  match m with
  | Ok a => Returned a
  | Throw e => Raised None e
  end.

(** [throw badRequest(message)] *)
Definition badRequest {A} (message : string) : outcome A :=
  Raised (Some 400) (Error message).

(** A field that should hold an array: [undefined], another falsy value
    ([null], [false], [0], the empty string), a truthy value that is no
    array, or an array. *)
Inductive arrayField (A : Type) : Type :=
| Unset
| Falsy
| NoArray
| Items (l : list A).
Arguments Unset {A}.
Arguments Falsy {A}.
Arguments NoArray {A}.
Arguments Items {A} l.

(** The question: a falsy value or none, a text, or a truthy value of
    another type. *)
Inductive questionField : Type :=
| NoQuestion
| Question (text : string)
| NoText.

(** An element of [checkins] as it arrives.  [timestamp] is [None] when
    the field is missing or falsy, and otherwise what [dayjs] makes of
    it. *)
Module RawCheckin.
Record t : Type := mk {
  message_id : option string;
  user_id : option string;
  user_name : option string;
  timestamp : option Dayjs.t;
  message_content : option string;
  quality : option string
}.
End RawCheckin.

Module User.
Record t : Type := mk {
  id : option string;
  user_id : option string;
  name : option string;
  display_name : option string;
  real_name : option string
}.
End User.

(** [ensureArray(checkins || [], 'checkins')] *)
Definition ensureArray {A} (value : arrayField A) (fieldName : string)
  : outcome (list A) :=
  match value with
  | Unset | Falsy => Returned []
  | NoArray => badRequest (fieldName ++ " must be an array.")
  | Items l => Returned l
  end.

(** The callback of [items.map]: the item, when it has the three
    fields. *)
Definition ensureCheckin (item : RawCheckin.t) : outcome Checkin.t :=
  match RawCheckin.message_id item, RawCheckin.user_id item,
        RawCheckin.timestamp item with
  | Some message_id, Some user_id, Some timestamp =>
      if truthy (Some message_id) && truthy (Some user_id) then
        Returned (Checkin.mk message_id user_id
                             (RawCheckin.user_name item) timestamp
                             (RawCheckin.message_content item)
                             (RawCheckin.quality item))
      else
        badRequest
          "Each check-in entry must include message_id, user_id, and timestamp."
  | _, _, _ =>
      badRequest
        "Each check-in entry must include message_id, user_id, and timestamp."
  end.

Fixpoint mapOutcome {A B} (f : A -> outcome B) (l : list A)
  : outcome (list B) :=
  match l with
  | [] => Returned []
  | x :: r =>
      andThen (f x) (fun y =>
      andThen (mapOutcome f r) (fun ys => Returned (y :: ys)))
  end.

Definition ensureCheckins (checkins : arrayField RawCheckin.t)
  : outcome (list Checkin.t) :=
  andThen (ensureArray checkins "checkins") (mapOutcome ensureCheckin).

(** [new CheckInAgent({ checkins, roster })]: the roster is [[]] when
    the field is [undefined]; a value without a [map] method makes
    [normalizeRoster] throw. *)
Definition newAgent (checkins : list Checkin.t)
           (roster : arrayField Roster.entry) : outcome Agent.t :=
  match roster with
  | Unset => Returned (constructor checkins [])
  | Items l => Returned (constructor checkins l)
  | Falsy | NoArray => Raised None TypeError
  end.

(** What the client receives: the JSON body with status 200, or, from
    the error handler, the status of the error (500 when it has none)
    with the message of the error. *)
Inductive reply (A : Type) : Type :=
| Json (body : A)
| Failure (status : Z) (e : error).
Arguments Json {A} body.
Arguments Failure {A} status e.

(** The [catch] block, [next(error)] and the error handler *)
Definition respond {A} (m : outcome A) : reply A :=
  match m with
  | Returned body => Json body
  | Raised (Some status) e => Failure status e
  | Raised None e => Failure 500 e
  end.

Module QueryBody.
Record t : Type := mk {
  question : questionField;
  checkins : arrayField RawCheckin.t;
  roster : arrayField Roster.entry
}.
End QueryBody.

Section Handlers.

(** The current instant and the strict parser, as for the agent. *)
Variable now : Z.
Variable parseIsoStrict : string -> Dayjs.t.



End Handlers.

Module ReportBody.
Record t : Type := mk {
  user : option User.t;
  timeframe : option Timeframe.t;
  checkins : arrayField RawCheckin.t;
  roster : arrayField Roster.entry
}.
End ReportBody.

(** The body of the reply to a report request: the instant that
    [generated_at] tells, and the dashboard. *)
Definition report (now : Z) (body : ReportBody.t)
  : outcome (Z * Dashboard.t) :=
  match ReportBody.user body with
  | None => badRequest "A user object with an id is required."
  | Some user =>
      if negb (truthy (User.id user)) && negb (truthy (User.user_id user))
      then badRequest "A user object with an id is required."
      else
        match ReportBody.timeframe body with
        | None => badRequest "A timeframe payload is required."
        | Some timeframe =>
            andThen (ensureCheckins (ReportBody.checkins body))
              (fun normalizedCheckins =>
            andThen (newAgent normalizedCheckins (ReportBody.roster body))
              (fun agent =>
            andThen
              (run (generateDashboard agent now
                      (or (User.id user) (User.user_id user))
                      (or (or (User.name user) (User.display_name user))
                          (User.real_name user))
                      (Some timeframe)))
              (fun dashboard => Returned (now, dashboard))))
        end
  end.

Definition generateAgentReport (now : Z) (body : ReportBody.t)
  : reply (Z * Dashboard.t) :=
  respond (report now body).

End Controller.

(** ** Vocabulary of the controllers' properties *)

Module Asked.
Import Js Agent Controller.
Local Open Scope string_scope.
Local Open Scope Z_scope.

(** The element has a non-empty [message_id] and [user_id], and a
    [timestamp]. *)
Definition complete (item : RawCheckin.t) : bool :=
  truthy (RawCheckin.message_id item) && truthy (RawCheckin.user_id item)
  && Spec.given (RawCheckin.timestamp item).

Definition textOf (v : option string) : string :=
  match v with
  | Some s => s
  | None => EmptyString
  end.

(** The record that the agent receives for a complete element. *)
Definition accepted (item : RawCheckin.t) : Checkin.t :=
  Checkin.mk (textOf (RawCheckin.message_id item))
             (textOf (RawCheckin.user_id item))
             (RawCheckin.user_name item)
             (match RawCheckin.timestamp item with
              | Some d => d
              | None => None
              end)
             (RawCheckin.message_content item)
             (RawCheckin.quality item).

(** The [checkins] field is a truthy value that is no array, or an
    array with an incomplete element. *)
Definition badCheckins (checkins : arrayField RawCheckin.t) : bool :=
  match checkins with
  | Unset | Falsy => false
  | NoArray => true
  | Items l => negb (forallb complete l)
  end.



Definition noUser (user : option User.t) : bool :=
  match user with
  | None => true
  | Some u => negb (truthy (User.id u)) && negb (truthy (User.user_id u))
  end.

Definition refusedReport (body : ReportBody.t) : bool :=
  noUser (ReportBody.user body)
  || negb (Spec.given (ReportBody.timeframe body))
  || badCheckins (ReportBody.checkins body).

End Asked.

(** ** [src/services/slackService.js]: [fetchUserProfile] *)

Module Slack.

(** What the transformer reads of a user: [profile.display_name] and
    [real_name]. *)
Module Profile.
Record t : Type := mk {
  display_name : option string;
  real_name : option string
}.
End Profile.

(** The response of [users.info]; [user] is [None] when the response
    has none. *)
Module Info.
Record t : Type := mk {
  ok : bool;
  user : option Profile.t
}.
End Info.

Section Service.

(** The workspace behind the Web API: a call of [users.info] moves it
    and yields a response, or [None] when the promise is rejected. *)
Variable World : Type.
Variable usersInfo : World -> string -> World * option Info.t.

(** [this.client] is set: the service was built with a token. *)
Variable configured : bool.

(** The profile, or [None] when the method throws. *)
Definition fetchUserProfile (w : World) (userId : string)
  : World * option (option Profile.t) :=
  if negb configured then (w, None)
  else
    let (w', response) := usersInfo w userId in
    match response with
    | Some info => if Info.ok info then (w', Some (Info.user info))
                   else (w', None)
    | None => (w', None)
    end.

End Service.

End Slack.

(** ** [src/utils/checkinTransformer.js] *)

Module Transformer.
Import Js.
Local Open Scope string_scope.
Local Open Scope Z_scope.

(** *** [toIsoString] *)

(** [s.split('.')]; [cur] is the piece being read. *)
Fixpoint splitDots (cur : string) (s : string) : list string :=
  match s with
  | EmptyString => [cur]
  | String c r =>
      if code c =? 46 then cur :: splitDots EmptyString r
      else splitDots (cur ++ String c EmptyString) r
  end.

Fixpoint allDigits (s : string) : bool :=
  match s with
  | EmptyString => true
  | String c r => isDigit c && allDigits r
  end.

(** An optional sign, and what follows it. *)
Definition signed (s : string) : Z * string :=
  match s with
  | String c r =>
      if code c =? 45 then (-1, r)
      else if code c =? 43 then (1, r)
      else (1, s)
  | EmptyString => (1, s)
  end.

(** The exponent part that may end a decimal literal: [e] or [E], an
    optional sign and one digit or more; 0 when there is none. *)
Definition exponent (s : string) : option Z :=
  match s with
  | EmptyString => Some 0
  | String c r =>
      if (code c =? 101) || (code c =? 69) then
        let (sign, digits) := signed r in
        if truthy (Some digits) && allDigits digits
        then Some (sign * Handlers.numberFrom 0 digits)
        else None
      else None
  end.

Definition power10 (e : Z) : Q :=
  if 0 <=? e then inject_Z (10 ^ e) else (1 / inject_Z (10 ^ (- e)))%Q.

(** [Number(`${seconds}.${decimals}`)], where neither piece holds a full
    stop: white space around the text is dropped; what remains has to
    be a decimal literal, with a digit before or after the full stop. *)
Definition Number (seconds decimals : string) : num :=
  let (sign, whole) := signed (trimStart seconds) in
  let (fraction, rest) := Handlers.span isDigit (trimEnd decimals) in
  if allDigits whole && (truthy (Some whole) || truthy (Some fraction)) then
    match exponent rest with
    | Some e =>
        Num (fl64
               (inject_Z sign
                * (inject_Z (Handlers.numberFrom 0 whole)
                   + inject_Z (Handlers.numberFrom 0 fraction)
                     / inject_Z (10 ^ Z.of_nat (String.length fraction)))
                * power10 e))
    | None => NaN
    end
  else NaN.

(** [x * 1000] *)
Definition times1000 (x : num) : num :=
  match x with
  | Num q => Num (fl64 (q * 1000))
  | NaN => NaN
  end.

(** [new Date(x)]: no date for [NaN] or beyond 8.64e15 ms; the fraction
    of a millisecond is dropped. *)
Definition newDate (x : num) : Dayjs.t :=
  match x with
  | Num q =>
      if Qle_bool (Qabs q) (inject_Z Handlers.maxTime)
      then Some (Dayjs.absFloor q) else None
  | NaN => None
  end.

(** The year of [toISOString]: four digits from 0 to 9999, otherwise a
    sign and six digits. *)
Definition isoYear (y : Z) : string :=
  if (0 <=? y) && (y <=? 9999) then Dayjs.padStart 4 (Dayjs.decimal y)
  else (if y <? 0 then "-" else "+")
       ++ Dayjs.padStart 6 (Dayjs.decimal (Z.abs y)).

Definition toISOString (ms : Z) : string :=
  let time := Dayjs.TimeWithinDay ms in
  isoYear (Dayjs.year ms) ++ "-"
  ++ Dayjs.padStart 2 (Dayjs.decimal (Dayjs.month ms + 1)) ++ "-"
  ++ Dayjs.padStart 2 (Dayjs.decimal (Dayjs.date ms)) ++ "T"
  ++ Dayjs.padStart 2 (Dayjs.decimal (time / 3600000)) ++ ":"
  ++ Dayjs.padStart 2 (Dayjs.decimal (time / 60000 mod 60)) ++ ":"
  ++ Dayjs.padStart 2 (Dayjs.decimal (time / 1000 mod 60)) ++ "."
  ++ Dayjs.padStart 3 (Dayjs.decimal (time mod 1000)) ++ "Z".

(** The text of the instant, or [None] when [toISOString] throws a
    [RangeError]. *)
Definition toIsoString (timestamp : string) : option string :=
  let parts := splitDots EmptyString timestamp in
  let seconds := hd EmptyString parts in
  let decimals := nth 1 parts "0" in
  let millis := times1000 (Number seconds decimals) in
  option_map toISOString (newDate millis).

(** *** Messages and records *)

(** A message of the channel history; the two names are those of
    [user_profile], absent with it. *)
Module Message.
Record t : Type := mk {
  ts : string;
  user : option string;
  text : option string;
  display_name : option string;
  real_name : option string
}.
End Message.

Module Normalized.
Record t : Type := mk {
  message_id : string;
  user_id : option string;
  user_name : string;
  timestamp : string;
  message_content : option string;
  quality : string
}.
End Normalized.

(** [cache.get(key)] *)
Fixpoint get {V} (m : JsMap.t V) (k : JsMap.key) : option V :=
  match m with
  | [] => None
  | (k', v) :: m' => if JsMap.key_eqb k' k then Some v else get m' k
  end.

Section Resolve.

Variable World : Type.
Variable usersInfo : World -> string -> World * option Slack.Info.t.
Variable configured : bool.

(** The workspace, the cache of names, and the users for whom
    [fetchUserProfile] was called, in the order of the calls. *)
Record state : Type := mkState {
  world : World;
  cache : JsMap.t string;
  fetched : list string
}.

(** [a || b || userId] for a user id that is not empty *)
Definition displayName (profile : option Slack.Profile.t) (userId : string)
  : string :=
  match profile with
  | Some p =>
      match or (or (Slack.Profile.display_name p) (Slack.Profile.real_name p))
               (Some userId) with
      | Some name => name
      | None => userId
      end
  | None => userId
  end.

Definition resolveUserName (st : state) (userId : option string)
  : state * string :=
  match userId with
  | None => (st, "Unknown User")
  | Some u =>
      if negb (truthy userId) then (st, "Unknown User")
      else
        match get (cache st) userId with
        | Some name => (st, name)
        | None =>
            let (w, fetchedProfile) :=
              Slack.fetchUserProfile World usersInfo configured
                                     (world st) u in
            let name :=
              match fetchedProfile with
              | Some profile => displayName profile u
              | None => u
              end in
            (mkState w (JsMap.set (cache st) userId name)
                     (fetched st ++ [u]), name)
        end
  end.

(** One round of the loop: the state after it, and the record, or
    [None] when [toIsoString] throws. *)
Definition normalizeOne (st : state) (message : Message.t)
  : state * option Normalized.t :=
  let cachedProfileName :=
    or (Message.display_name message) (Message.real_name message) in
  let st1 :=
    match cachedProfileName with
    | Some name =>
        if truthy cachedProfileName
        then mkState (world st)
                     (JsMap.set (cache st) (Message.user message) name)
                     (fetched st)
        else st
    | None => st
    end in
  let (st2, userName) := resolveUserName st1 (Message.user message) in
  (st2,
   match toIsoString (Message.ts message) with
   | Some timestamp =>
       Some (Normalized.mk (Message.ts message) (Message.user message)
                           userName timestamp (Message.text message)
                           (Quality.classifyCheckinQuality
                              (Message.text message)))
   | None => None
   end).

Fixpoint normalizeFrom (st : state) (normalized : list Normalized.t)
         (messages : list Message.t)
  : state * option (list Normalized.t) :=
  match messages with
  | [] => (st, Some normalized)
  | message :: rest =>
      let (st', record) := normalizeOne st message in
      match record with
      | Some r => normalizeFrom st' (normalized ++ [r]) rest
      | None => (st', None)
      end
  end.

(** The state at the end, and the records, or [None] when the promise
    is rejected. *)
Definition normalizeCheckins (w : World) (messages : list Message.t)
  : state * option (list Normalized.t) :=
  normalizeFrom (mkState w [] []) [] messages.

End Resolve.

End Transformer.

(** ** Vocabulary of the transformer's properties *)

Module Sent.
Import Js Transformer.
Local Open Scope string_scope.
Local Open Scope Z_scope.

(** The name that a message carries in its [user_profile]. *)
Definition profileName (m : Message.t) : option string :=
  or (Message.display_name m) (Message.real_name m).

Definition sentBy (u : string) (m : Message.t) : bool :=
  JsMap.key_eqb (Message.user m) (Some u).

(** The timestamp of the message has an ISO text. *)
Definition convertible (m : Message.t) : bool :=
  Spec.given (toIsoString (Message.ts m)).

(** The messages that the loop reaches: all of them up to the first one
    whose timestamp has no ISO text, that one included. *)
Fixpoint reached (messages : list Message.t) : list Message.t :=
  match messages with
  | [] => []
  | m :: rest => if convertible m then m :: reached rest else [m]
  end.

(** The first message of user [u] carries no name. *)
Definition firstIsNameless (u : string) (messages : list Message.t) : bool :=
  match find (sentBy u) messages with
  | Some m => negb (truthy (profileName m))
  | None => false
  end.

(** What a record owes to its message. *)
Definition follows (m : Message.t) (r : Normalized.t) : Prop :=
  Normalized.message_id r = Message.ts m /\
  Normalized.user_id r = Message.user m /\
  toIsoString (Message.ts m) = Some (Normalized.timestamp r) /\
  Normalized.message_content r = Message.text m /\
  Normalized.quality r = Quality.classifyCheckinQuality (Message.text m) /\
  truthy (Some (Normalized.user_name r)) = true /\
  (truthy (Message.user m) = false ->
   Normalized.user_name r = "Unknown User") /\
  (truthy (Message.user m) = true -> truthy (profileName m) = true ->
   profileName m = Some (Normalized.user_name r)).

Section Invariant.

Variable World : Type.

(** What the loop keeps true of the state after the messages [done]. *)
Record kept (st : state World) (done : list Message.t) : Prop := {
  fetched_once : NoDup (fetched World st);
  fetched_first :
    forall u, In u (fetched World st)
              <-> truthy (Some u) = true /\ firstIsNameless u done = true;
  cached_users :
    forall u, truthy (Some u) = true ->
              existsb (sentBy u) done = true ->
              get (cache World st) (Some u) <> None;
  cached_sent :
    forall k, get (cache World st) k <> None ->
              exists m, In m done /\ Message.user m = k;
  cached_names :
    forall k name, get (cache World st) k = Some name ->
                   truthy (Some name) = true
}.

End Invariant.

End Sent.

(** * Properties *)

(** ** The quality classifier *)

Module QualityFacts.
Import Js Quality.
Local Open Scope string_scope.
Local Open Scope Z_scope.

Lemma fold_count {A} (p : A -> bool) (l : list A) (a : Z) :
  fold_left (fun score x => if p x then score + 1 else score) l a
  = a + Z.of_nat (List.length (filter p l)).
Proof.
  revert a; induction l as [|x l IH]; intros a; simpl.
  - lia.
  - rewrite IH. destruct (p x); simpl List.length; lia.
Qed.

Lemma filter_map_length {A B} (f : A -> B) (p : B -> bool) (l : list A) :
  List.length (filter p (map f l))
  = List.length (filter (fun x => p (f x)) l).
Proof.
  induction l as [|x l IH]; simpl; [reflexivity|].
  destruct (p (f x)); simpl; congruence.
Qed.

Lemma scoreCompleteness_categories (text : string) :
  scoreCompleteness text = Spec.categoriesPresent text.
Proof.
  unfold scoreCompleteness, Spec.categoriesPresent.
  rewrite fold_count, filter_map_length. reflexivity.
Qed.

Lemma scoreCompleteness_range (text : string) :
  0 <= scoreCompleteness text <= 3.
Proof.
  rewrite scoreCompleteness_categories. unfold Spec.categoriesPresent.
  pose proof (filter_length_le (Spec.present text) KEYWORD_GROUPS) as H.
  simpl List.length in H at 2. lia.
Qed.

Lemma score_empty : (calculateQualityScore (Some EmptyString) == 0)%Q.
Proof. reflexivity. Qed.

Lemma truthy_nonempty (c : ascii) (r : string) :
  truthy (Some (String c r)) = true.
Proof. reflexivity. Qed.

Lemma score_formula (text : option string) :
  (calculateQualityScore text == Spec.score text)%Q.
Proof.
  destruct text as [[|c r]|]; try reflexivity.
  unfold calculateQualityScore, Spec.score.
  rewrite truthy_nonempty. cbv [negb]. cbv zeta.
  rewrite scoreCompleteness_categories. unfold scoreSpecificity.
  rewrite (Z.min_comm _ 3), (Z.min_comm _ 120). ring.
Qed.

Lemma classify_label (text : option string) :
  classifyCheckinQuality text = Spec.label (Spec.score text).
Proof.
  unfold classifyCheckinQuality, Spec.label, STRONG_THRESHOLD, MEDIUM_THRESHOLD.
  rewrite !(score_formula text). reflexivity.
Qed.

Lemma label_monotone (x y : Q) :
  (x <= y)%Q -> Spec.rank (Spec.label x) <= Spec.rank (Spec.label y).
Proof.
  intros Hxy. unfold Spec.label.
  destruct (Qle_bool 80 x) eqn:H1; destruct (Qle_bool 80 y) eqn:H2;
    destruct (Qle_bool 40 x) eqn:H3; destruct (Qle_bool 40 y) eqn:H4;
    try (cbv; discriminate);
    exfalso;
    repeat match goal with
           | H : Qle_bool _ _ = true |- _ => apply Qle_bool_iff in H
           | H : Qle_bool _ _ = false |- _ =>
               apply not_true_iff_false in H; rewrite Qle_bool_iff in H
           end; lra.
Qed.

Lemma inject_Z_le (a b : Z) : a <= b -> (inject_Z a <= inject_Z b)%Q.
Proof. intros H. rewrite <- Zle_Qle. exact H. Qed.

Lemma score_monotone (t1 t2 : string) :
  scoreCompleteness t1 <= scoreCompleteness t2 ->
  scoreSpecificity t1 <= scoreSpecificity t2 ->
  Z.min (countWords t1) 120 <= Z.min (countWords t2) 120 ->
  (calculateQualityScore (Some t1) <= calculateQualityScore (Some t2))%Q.
Proof.
  intros Hc Hs Hw.
  rewrite !score_formula. unfold Spec.score.
  rewrite <- !scoreCompleteness_categories.
  unfold scoreSpecificity in Hs.
  rewrite (Z.min_comm _ 3), (Z.min_comm _ 3 ) in Hs.
  rewrite (Z.min_comm _ 120), (Z.min_comm (countWords t2) 120) in Hw.
  apply inject_Z_le in Hc, Hs, Hw. lra.
Qed.
End QualityFacts.

(** ** Binary64 quotients between 1 and 4 *)

Module FloatFacts.
Import Js.

Lemma roundHalfEven_error (n d : Z) :
  0 < d -> - d <= 2 * (roundHalfEven n d * d - n) <= d.
Proof.
  intros Hd. unfold roundHalfEven.
  pose proof (Z.div_mod n d ltac:(lia)) as E.
  pose proof (Z.mod_pos_bound n d Hd) as B.
  set (q := n / d) in *. set (r := n mod d) in *.
  destruct (Z.ltb_spec (2 * r) d); [nia|].
  destruct (Z.ltb_spec d (2 * r)); [nia|].
  destruct (Z.even q); nia.
Qed.

Lemma roundHalfEven_ge (n d k : Z) :
  0 < d -> k * d <= n -> k <= roundHalfEven n d.
Proof.
  intros Hd Hk. unfold roundHalfEven.
  pose proof (Z.div_mod n d ltac:(lia)) as E.
  pose proof (Z.mod_pos_bound n d Hd) as B.
  set (q := n / d) in *. set (r := n mod d) in *.
  assert (k <= q) by nia.
  destruct (Z.ltb_spec (2 * r) d); [lia|].
  destruct (Z.ltb_spec d (2 * r)); [lia|].
  destruct (Z.even q); lia.
Qed.


(** The binade of a quotient in [1, 4). *)
Lemma binade_1_4 (a b : Z) :
  0 < b -> b <= a -> a < 4 * b ->
  binade a b = if a <? 2 * b then 0 else 1.
Proof.
  intros Hb Hab Ha4. unfold binade.
  assert (Ha : 0 < a) by lia.
  pose proof (Z.log2_spec a Ha) as La.
  pose proof (Z.log2_spec b Hb) as Lb.
  pose proof (Z.log2_nonneg a) as Na.
  pose proof (Z.log2_nonneg b) as Nb.
  set (la := Z.log2 a) in *. set (lb := Z.log2 b) in *.
  assert (lb <= la).
  { destruct (Z.le_gt_cases lb la) as [|G]; [assumption|exfalso].
    assert (2 ^ Z.succ la <= 2 ^ lb) by (apply Z.pow_le_mono_r; lia).
    lia. }
  assert (la <= lb + 2).
  { destruct (Z.le_gt_cases la (lb + 2)) as [|G]; [assumption|exfalso].
    assert (2 ^ (lb + 3) <= 2 ^ la) by (apply Z.pow_le_mono_r; lia).
    replace (lb + 3) with (Z.succ lb + 2) in * by lia.
    rewrite Z.pow_add_r in * by lia. change (2 ^ 2) with 4 in *. lia. }
  assert (E : la = lb \/ la = lb + 1 \/ la = lb + 2) by lia.
  destruct E as [E|[E|E]]; rewrite E in *.
  - replace (lb - lb) with 0 by lia.
    change (0 <=? 0) with true. cbv iota. change (2 ^ 0) with 1.
    rewrite Z.pow_succ_r in * by lia.
    destruct (Z.leb_spec (b * 1) a); destruct (Z.ltb_spec a (2 * b)); lia.
  - replace (lb + 1 - lb) with 1 by lia.
    change (0 <=? 1) with true. cbv iota. change (2 ^ 1) with 2.
    destruct (Z.leb_spec (b * 2) a); destruct (Z.ltb_spec a (2 * b)); lia.
  - replace (lb + 2 - lb) with 2 by lia.
    change (0 <=? 2) with true. cbv iota.
    rewrite Z.pow_add_r in * by lia. change (2 ^ 2) with 4 in *.
    rewrite Z.pow_succ_r in * by lia.
    destruct (Z.leb_spec (b * 4) a); destruct (Z.ltb_spec a (2 * b)); lia.
Qed.

(** The binary64 value of a quotient in [1, 2). *)
Lemma fl64_1_2 (s n : Z) :
  0 < n -> n <= s -> s < 2 * n ->
  fl64 (s # Z.to_pos n)
  = (inject_Z (roundHalfEven (s * two52) n) * (1 # Z.to_pos two52))%Q.
Proof.
  intros Hn H1 H2. unfold fl64. cbn [Qnum Qden].
  rewrite Z2Pos.id by lia. rewrite Z.abs_eq by lia.
  destruct (Z.eqb_spec s 0); [lia|].
  rewrite binade_1_4 by lia.
  destruct (Z.ltb_spec s (2 * n)); [|lia].
  change (52 - 0) with 52. cbn [Z.leb Z.compare].
  replace (Z.sgn s) with 1 by (symmetry; apply Z.sgn_pos; lia).
  rewrite Z.mul_1_l. reflexivity.
Qed.

(** The binary64 value of a quotient in [2, 4). *)
Lemma fl64_2_4 (s n : Z) :
  0 < n -> 2 * n <= s -> s < 4 * n ->
  fl64 (s # Z.to_pos n)
  = (inject_Z (roundHalfEven (s * two51) n) * (1 # Z.to_pos two51))%Q.
Proof.
  intros Hn H1 H2. unfold fl64. cbn [Qnum Qden].
  rewrite Z2Pos.id by lia. rewrite Z.abs_eq by lia.
  destruct (Z.eqb_spec s 0); [lia|].
  rewrite binade_1_4 by lia.
  destruct (Z.ltb_spec s (2 * n)); [lia|].
  change (52 - 1) with 51. cbn [Z.leb Z.compare].
  replace (Z.sgn s) with 1 by (symmetry; apply Z.sgn_pos; lia).
  rewrite Z.mul_1_l. reflexivity.
Qed.





(** [toFixed2] of a positive multiple of [1/d], for [d] a power of
    two. *)
Lemma toFixed2_dyadic (m : Z) (d : positive) :
  0 <= m ->
  (toFixed2 (inject_Z m * (1 # d))
   == inject_Z ((200 * m + Zpos d) / (2 * Zpos d)) / 100)%Q.
Proof.
  intros Hm. unfold toFixed2. rewrite Qred_correct.
  assert (E : (inject_Z m * (1 # d) == m # d)%Q).
  { unfold Qeq. cbn [Qnum Qden Qmult inject_Z]. lia. }
  assert (P : (0 <= inject_Z m * (1 # d))%Q).
  { rewrite E. unfold Qle. cbn [Qnum Qden]. lia. }
  rewrite (Qabs_pos _ P).
  assert (F : Qfloor (inject_Z m * (1 # d) * 100 + (1 # 2))
              = (200 * m + Zpos d) / (2 * Zpos d)).
  { assert (G : (inject_Z m * (1 # d) * 100 + (1 # 2)
                 == (200 * m + Zpos d) # (2 * d))%Q).
    { unfold Qeq. cbn [Qnum Qden Qmult Qplus inject_Z]. lia. }
    rewrite G. unfold Qfloor. reflexivity. }
  rewrite F.
  assert (S1 : Z.sgn (Qnum (inject_Z m * (1 # d)))
               * ((200 * m + Zpos d) / (2 * Zpos d))
               = (200 * m + Zpos d) / (2 * Zpos d)).
  { cbn [Qnum Qmult inject_Z]. rewrite Z.mul_1_r.
    destruct (Z.eq_dec m 0) as [->|Hne].
    - rewrite Z.div_small by lia. reflexivity.
    - rewrite Z.sgn_pos by lia. lia. }
  rewrite S1. reflexivity.
Qed.

Lemma nearest_hundredth (S m k s n : Z) :
  0 < n -> 100 * n < S ->
  - n <= 2 * (m * n - s * S) <= n ->
  2 * S * k <= 200 * m + S < 2 * S * (k + 1) ->
  - n <= 2 * k * n - 200 * s <= n.
Proof.
  intros Hn HS Hm Hk.
  split.
  - destruct (Z.le_gt_cases (- n) (2 * k * n - 200 * s)) as [|G];
      [assumption|exfalso].
    assert (A : (2 * k + 1) * n <= 200 * s - 1) by lia.
    assert (B : (2 * k + 1) * n * S <= (200 * s - 1) * S) by nia.
    assert (C : 200 * m * n < (2 * k + 1) * S * n) by nia.
    nia.
  - destruct (Z.le_gt_cases (2 * k * n - 200 * s) n) as [|G];
      [assumption|exfalso].
    assert (A : 200 * s + 1 <= (2 * k - 1) * n) by lia.
    assert (B : (200 * s + 1) * S <= (2 * k - 1) * n * S) by nia.
    assert (C : (2 * k - 1) * S * n <= 200 * m * n) by nia.
    nia.
Qed.

Lemma floor_div_bounds (a d : Z) :
  0 < d -> d * (a / d) <= a < d * (a / d + 1).
Proof.
  intros Hd. pose proof (Z.div_mod a d ltac:(lia)).
  pose proof (Z.mod_pos_bound a d Hd). lia.
Qed.

Lemma average_rounded (s n : Z) :
  0 < n < 2 ^ 32 -> n <= s <= 3 * n ->
  exists k : Z,
    (toFixed2 (fl64 (s # Z.to_pos n)) == inject_Z k / 100)%Q /\
    - n <= 2 * k * n - 200 * s <= n.
Proof.
  intros Hn Hs. change (2 ^ 32) with 4294967296 in Hn.
  destruct (Z.lt_ge_cases s (2 * n)) as [L|G].
  - rewrite fl64_1_2 by lia.
    set (m := roundHalfEven (s * two52) n).
    assert (Hm0 : 0 <= m)
      by (apply (roundHalfEven_ge (s * two52) n 0); unfold two52; lia).
    exists ((200 * m + two52) / (2 * two52)). split.
    + apply (toFixed2_dyadic m (Z.to_pos two52) Hm0).
    + pose proof (roundHalfEven_error (s * two52) n ltac:(lia)) as E.
      pose proof (floor_div_bounds (200 * m + two52) (2 * two52)
                    ltac:(unfold two52; lia)) as F.
      fold m in E.
      apply (nearest_hundredth two52 m _ s n); unfold two52 in *; lia.
  - rewrite fl64_2_4 by lia.
    set (m := roundHalfEven (s * two51) n).
    assert (Hm0 : 0 <= m)
      by (apply (roundHalfEven_ge (s * two51) n 0); unfold two51; lia).
    exists ((200 * m + two51) / (2 * two51)). split.
    + apply (toFixed2_dyadic m (Z.to_pos two51) Hm0).
    + pose proof (roundHalfEven_error (s * two51) n ltac:(lia)) as E.
      pose proof (floor_div_bounds (200 * m + two51) (2 * two51)
                    ltac:(unfold two51; lia)) as F.
      fold m in E.
      apply (nearest_hundredth two51 m _ s n); unfold two51 in *; lia.
Qed.

End FloatFacts.

(** ** The aggregation engine *)

Module AgentFacts.
Import Js FloatFacts Agent.
Local Open Scope string_scope.
Local Open Scope Z_scope.

Lemma count_cons (l : string) (e : Checkin.t) (r : list Checkin.t) :
  Spec.count l (e :: r)
  = (if JsMap.key_eqb (Checkin.quality e) (Some l) then 1 else 0)
    + Spec.count l r.
Proof.
  unfold Spec.count. cbn [filter].
  destruct (JsMap.key_eqb (Checkin.quality e) (Some l));
    cbn [List.length]; lia.
Qed.

Ltac eval_labels :=
  repeat match goal with
         | |- context [JsMap.key_eqb (Some ?a) (Some ?b)] =>
             let v := eval vm_compute in (JsMap.key_eqb (Some a) (Some b)) in
             change (JsMap.key_eqb (Some a) (Some b)) with v
         | |- context [getProperty QUALITY_TO_SCORE (Some ?a)] =>
             let v := eval vm_compute in
                        (getProperty QUALITY_TO_SCORE (Some a)) in
             change (getProperty QUALITY_TO_SCORE (Some a)) with v
         end;
  cbv iota; cbn [orZero plus].

Lemma counts_total (entries : list Checkin.t) :
  Forall Spec.labelled entries ->
  Spec.count "Strong" entries + Spec.count "Medium" entries
  + Spec.count "Weak" entries = Agent.length entries.
Proof.
  unfold Agent.length.
  induction 1 as [|e r He _ IH]; [reflexivity|].
  rewrite !count_cons. cbn [List.length]. rewrite Nat2Z.inj_succ.
  destruct He as [E|[E|E]]; rewrite E; eval_labels; lia.
Qed.

Lemma count_nonneg (l : string) (entries : list Checkin.t) :
  0 <= Spec.count l entries.
Proof. unfold Spec.count. lia. Qed.

Lemma score_of_labelled (entries : list Checkin.t) (a : Z) :
  Forall Spec.labelled entries ->
  fold_left
    (fun acc item =>
       plus acc (orZero (getProperty QUALITY_TO_SCORE
                                     (Checkin.quality item))))
    entries (Sum a)
  = Sum (a + Spec.weights entries).
Proof.
  intros H. revert a. unfold Spec.weights.
  induction H as [|e r He _ IH]; intros a; cbn [fold_left].
  - f_equal. unfold Spec.count. cbn [filter List.length Z.of_nat]. lia.
  - rewrite !count_cons.
    destruct He as [E|[E|E]]; rewrite E; eval_labels;
      rewrite IH; f_equal; lia.
Qed.




Lemma own_none (label : string) :
  existsb (String.eqb label) ["Strong"; "Medium"; "Weak"] = false ->
  own QUALITY_TO_SCORE label = None.
Proof.
  cbn [existsb own QUALITY_TO_SCORE]. rewrite !orb_false_iff.
  intros (H1 & H2 & H3 & _).
  rewrite (String.eqb_sym "Strong"), H1, (String.eqb_sym "Medium"), H2,
    (String.eqb_sym "Weak"), H3.
  reflexivity.
Qed.

Lemma withQuality_same (c : Checkin.t) :
  Checkin.withQuality c (Checkin.quality c) = c.
Proof. destruct c; reflexivity. Qed.

Lemma normalize_truthy (c : Checkin.t) :
  truthy (Checkin.quality c) = true ->
  Checkin.withQuality c
    (normalizeQuality (Checkin.quality c) (Checkin.message_content c)) = c.
Proof.
  intros H. unfold normalizeQuality. rewrite H. apply withQuality_same.
Qed.




Lemma classified_label (text : option string) :
  In (Quality.classifyCheckinQuality text) ["Strong"; "Medium"; "Weak"].
Proof.
  unfold Quality.classifyCheckinQuality.
  destruct (Qle_bool _ _); [simpl; auto|].
  destruct (Qle_bool _ _); simpl; auto.
Qed.

(** Records that come without a label are all labelled by the
    constructor. *)
Lemma constructor_labels (records : list Checkin.t)
      (roster : list Roster.entry) :
  forallb (fun c => negb (truthy (Checkin.quality c))) records = true ->
  Forall Spec.labelled (checkins (constructor records roster)).
Proof.
  intros H. unfold constructor. cbn [checkins].
  apply Forall_forall. intros c Hc. apply in_map_iff in Hc.
  destruct Hc as (r & <- & Hr).
  rewrite forallb_forall in H. specialize (H r Hr).
  apply negb_true_iff in H.
  unfold Spec.labelled, normalizeQuality. rewrite H.
  destruct r; cbn [Checkin.withQuality Checkin.quality Checkin.message_content].
  match goal with
  | |- context [Quality.classifyCheckinQuality ?t] =>
      pose proof (classified_label t) as L
  end.
  cbn [In] in L. destruct L as [<-|[<-|[<-|[]]]]; auto.
Qed.

End AgentFacts.

(** ** The calendar *)

Module CalendarFacts.
Import Js Dayjs.
Local Open Scope Z_scope.

Lemma YearFromDay_spec (d : Z) :
  DayFromYear (YearFromDay d) <= d < DayFromYear (YearFromDay d + 1).
Proof.
  unfold YearFromDay.
  set (y := 1970 + 400 * d / 146097).
  assert (Hy : 146097 * (y - 1970) <= 400 * d
               < 146097 * (y - 1970) + 146097).
  { unfold y. pose proof (Z.div_mod (400 * d) 146097 ltac:(lia)).
    pose proof (Z.mod_pos_bound (400 * d) 146097 ltac:(lia)). lia. }
  clearbody y.
  destruct (Z.ltb_spec d (DayFromYear y)).
  - replace (y - 1 + 1) with y by lia. split; [|lia].
    unfold DayFromYear in *. Z.div_mod_to_equations. lia.
  - destruct (Z.leb_spec (DayFromYear (y + 1)) d); [|lia].
    split; [lia|]. unfold DayFromYear in *. Z.div_mod_to_equations. lia.
Qed.

Lemma DayFromYear_succ (y : Z) :
  DayFromYear (y + 1) = DayFromYear y + (if InLeapYear y then 366 else 365).
Proof.
  unfold DayFromYear, InLeapYear.
  destruct (Z.eqb_spec (y mod 4) 0); destruct (Z.eqb_spec (y mod 100) 0);
    destruct (Z.eqb_spec (y mod 400) 0); cbn [negb andb orb];
    Z.div_mod_to_equations; lia.
Qed.

Lemma month_range (ms : Z) : 0 <= month ms <= 11.
Proof.
  unfold month, monthOfDayInYear.
  repeat match goal with
         | |- context [if ?b then _ else _] => destruct b
         end; lia.
Qed.

Lemma dayInYear_range (ms : Z) :
  0 <= dayInYear ms < (if InLeapYear (year ms) then 366 else 365).
Proof.
  unfold dayInYear, year.
  pose proof (YearFromDay_spec (Day ms)) as H.
  rewrite DayFromYear_succ in H. lia.
Qed.

(** The month of an instant is the one whose days include it. *)
Lemma month_spec (ms : Z) :
  daysBeforeMonth (InLeapYear (year ms)) (month ms) <= dayInYear ms
  < daysBeforeMonth (InLeapYear (year ms)) (month ms)
    + daysInMonth (year ms) (month ms).
Proof.
  pose proof (dayInYear_range ms) as R. unfold month, monthOfDayInYear.
  set (l := InLeapYear (year ms)) in *.
  set (n := dayInYear ms) in *. unfold daysInMonth. fold l.
  repeat match goal with
         | |- context [if ?a <? ?b then _ else _] =>
             destruct (Z.ltb_spec a b)
         end; destruct l; cbn in *; lia.
Qed.

Lemma MakeDay_first (y m : Z) :
  0 <= m <= 11 ->
  MakeDay y m 1 = DayFromYear y + daysBeforeMonth (InLeapYear y) m.
Proof.
  intros Hm. unfold MakeDay.
  rewrite Z.div_small, Z.mod_small by lia.
  replace (y + 0) with y by lia. lia.
Qed.

Lemma MakeDay_last (y m : Z) :
  0 <= m <= 11 ->
  MakeDay y (m + 1) 0
  = DayFromYear y + daysBeforeMonth (InLeapYear y) m + daysInMonth y m - 1.
Proof.
  intros Hm. unfold MakeDay.
  destruct (Z.eq_dec m 11) as [->|Hne].
  - change ((11 + 1) / 12) with 1. change ((11 + 1) mod 12) with 0.
    rewrite DayFromYear_succ. generalize (DayFromYear y). intros D.
    destruct (InLeapYear y); cbn; lia.
  - rewrite Z.div_small, Z.mod_small by lia.
    replace (y + 0) with y by lia.
    assert (E : m = 0 \/ m = 1 \/ m = 2 \/ m = 3 \/ m = 4 \/ m = 5 \/ m = 6
                \/ m = 7 \/ m = 8 \/ m = 9 \/ m = 10) by lia.
    unfold daysInMonth. generalize (DayFromYear y). intros D.
    destruct (InLeapYear y);
      repeat destruct E as [E|E]; subst m; cbn; lia.
Qed.

Lemma Day_MakeDate (d time : Z) :
  0 <= time < msPerDay -> Day (MakeDate d time) = d.
Proof.
  intros H. unfold Day, MakeDate. unfold msPerDay in *.
  Z.div_mod_to_equations. lia.
Qed.

Lemma startOfMonth_value (ms : Z) :
  startOfMonth (Some ms)
  = Some ((DayFromYear (constructorYear (year ms))
           + daysBeforeMonth (InLeapYear (constructorYear (year ms)))
                             (month ms))
          * msPerDay).
Proof.
  unfold startOfMonth. cbn [option_map].
  rewrite MakeDay_first by apply month_range.
  unfold MakeDate. rewrite Z.add_0_r. reflexivity.
Qed.

Lemma endOfMonth_value (ms : Z) :
  endOfMonth (Some ms)
  = Some ((DayFromYear (constructorYear (year ms))
           + daysBeforeMonth (InLeapYear (constructorYear (year ms)))
                             (month ms)
           + daysInMonth (constructorYear (year ms)) (month ms) - 1)
          * msPerDay
          + 86399999).
Proof.
  unfold endOfMonth, endOfDay. cbn [option_map].
  rewrite MakeDay_last by apply month_range.
  rewrite Day_MakeDate by (unfold msPerDay; lia).
  reflexivity.
Qed.

(** The month window holds the anchor, unless the constructor moved the
    year. *)
Lemma month_window_holds_anchor (ms : Z) :
  constructorYear (year ms) = year ms ->
  valueLe (startOfMonth (Some ms)) (Some ms) = true /\
  valueLe (Some ms) (endOfMonth (Some ms)) = true.
Proof.
  intros Hy.
  rewrite startOfMonth_value, endOfMonth_value, Hy. cbn [valueLe].
  rewrite !Z.leb_le.
  pose proof (month_spec ms) as H. unfold dayInYear, Day in H.
  unfold msPerDay in *. Z.div_mod_to_equations. nia.
Qed.

Lemma daysInMonth_cases (y m : Z) :
  daysInMonth y m = 28 \/ daysInMonth y m = 29 \/ daysInMonth y m = 30
  \/ daysInMonth y m = 31.
Proof.
  unfold daysInMonth.
  repeat match goal with
         | |- context [match ?x with _ => _ end] => destruct x
         end; auto.
Qed.

(** [end.diff(start, 'day') + 1] over a month is its number of days. *)
Lemma month_period_length (ms : Z) :
  Dayjs.succ (diffDays (endOfMonth (Some ms)) (startOfMonth (Some ms)))
  = Num (inject_Z (daysInMonth (constructorYear (year ms)) (month ms) - 1)
         + 1).
Proof.
  rewrite startOfMonth_value, endOfMonth_value. cbn [diffDays Dayjs.succ].
  set (y := constructorYear (year ms)).
  set (a := DayFromYear y + daysBeforeMonth (InLeapYear y) (month ms)).
  replace ((a + daysInMonth y (month ms) - 1) * msPerDay + 86399999
           - a * msPerDay)
    with ((daysInMonth y (month ms) - 1) * msPerDay + 86399999)
    by lia.
  destruct (daysInMonth_cases y (month ms)) as [E|[E|[E|E]]];
    rewrite E; reflexivity.
Qed.
End CalendarFacts.

(** ** Students *)

Module RosterFacts.
Import Js Agent.
Local Open Scope string_scope.
Local Open Scope Z_scope.

Lemma key_eqb_eq (a b : JsMap.key) : JsMap.key_eqb a b = true <-> a = b.
Proof.
  destruct a as [x|], b as [y|]; cbn; try (split; congruence).
  rewrite String.eqb_eq. split; congruence.
Qed.

Lemma key_eqb_refl (a : JsMap.key) : JsMap.key_eqb a a = true.
Proof. apply key_eqb_eq. reflexivity. Qed.

Lemma has_in {V} (m : JsMap.t V) (k : JsMap.key) :
  JsMap.has m k = true <-> In k (map fst m).
Proof.
  unfold JsMap.has. rewrite existsb_exists, in_map_iff. split.
  - intros (e & He & Hk). exists e. apply key_eqb_eq in Hk. auto.
  - intros (e & Hk & He). exists e. split; [assumption|].
    apply key_eqb_eq. assumption.
Qed.

Lemma set_new {V} (m : JsMap.t V) (k : JsMap.key) (v : V) :
  JsMap.has m k = false -> JsMap.set m k v = (m ++ [(k, v)])%list.
Proof.
  induction m as [|[k' v'] m IH]; intros H; [reflexivity|].
  unfold JsMap.has in *. cbn [existsb fst] in H.
  apply orb_false_iff in H. destruct H as [H1 H2].
  cbn [JsMap.set]. rewrite H1, (IH H2). reflexivity.
Qed.

Section FirstWins.
Variable A : Type.
Variable k : A -> JsMap.key.

Local Abbreviation keyed := (JsMap.keyed k).
Local Abbreviation byKey := (JsMap.byKey k).
Local Abbreviation step :=
  (fun (m : JsMap.t A) (x : A) =>
     if negb (JsMap.has m (k x)) then JsMap.set m (k x) x else m).

Lemma keyed_fst (m : JsMap.t A) :
  keyed m -> map fst m = map k (JsMap.values m).
Proof.
  unfold JsMap.values. induction 1 as [|e m He _ IH]; [reflexivity|].
  cbn [map]. rewrite He, IH. reflexivity.
Qed.

Lemma find_none_not_has (m : JsMap.t A) (key : JsMap.key) :
  keyed m ->
  (find (byKey key) (JsMap.values m) = None <-> JsMap.has m key = false).
Proof.
  intros Hm. rewrite <- not_true_iff_false, has_in, (keyed_fst m Hm).
  split.
  - intros Hf Hin. apply in_map_iff in Hin. destruct Hin as (s & Hs & Hi).
    apply (find_none _ _ Hf) in Hi. unfold JsMap.byKey in Hi.
    rewrite Hs, key_eqb_refl in Hi. discriminate.
  - intros Hn. destruct (find (byKey key) (JsMap.values m)) as [s|] eqn:E;
      [|reflexivity].
    exfalso. apply Hn. apply find_some in E. destruct E as [Hi Hk].
    apply key_eqb_eq in Hk. apply in_map_iff. exists s. auto.
Qed.

Lemma first_wins (l : list A) (m : JsMap.t A) :
  keyed m -> NoDup (map fst m) ->
  let r := fold_left step l m in
  keyed r /\ NoDup (map fst r) /\
  forall key,
    find (byKey key) (JsMap.values r)
    = match find (byKey key) (JsMap.values m) with
      | Some s => Some s
      | None => find (byKey key) l
      end.
Proof.
  revert m. induction l as [|x l IH]; intros m Hk Hn; cbn [fold_left].
  - repeat split; try assumption. intros key.
    destruct (find _ _); reflexivity.
  - assert (Hs : keyed (step m x) /\ NoDup (map fst (step m x)) /\
                 forall key,
                   find (byKey key) (JsMap.values (step m x))
                   = match find (byKey key) (JsMap.values m) with
                     | Some s => Some s
                     | None => if byKey key x then Some x else None
                     end).
    { destruct (JsMap.has m (k x)) eqn:H; cbn [negb].
      - repeat split; try assumption. intros key.
        destruct (find (byKey key) (JsMap.values m)) eqn:E;
          [reflexivity|].
        apply (find_none_not_has m key Hk) in E.
        unfold JsMap.byKey. destruct (JsMap.key_eqb (k x) key) eqn:K;
          [|reflexivity].
        apply key_eqb_eq in K. congruence.
      - rewrite (set_new m (k x) x H). repeat split.
        + apply Forall_app. split; [assumption|].
          constructor; [reflexivity|constructor].
        + rewrite map_app. cbn [map fst].
          apply NoDup_app; [assumption|repeat constructor; auto|].
          intros a Ha [<-|[]].
          apply has_in in Ha. congruence.
        + intros key. unfold JsMap.values. rewrite map_app. cbn [map snd].
          fold (JsMap.values m).
          induction (JsMap.values m) as [|y ys IHy]; cbn [app find].
          * destruct (byKey key x); reflexivity.
          * destruct (byKey key y); [reflexivity|exact IHy]. }
    destruct Hs as (Hk' & Hn' & Hf').
    destruct (IH (step m x) Hk' Hn') as (K1 & K2 & K3).
    repeat split; try assumption. intros key. rewrite K3, Hf'.
    cbn [find]. destruct (find (byKey key) (JsMap.values m));
      [reflexivity|]. destruct (byKey key x); reflexivity.
Qed.
End FirstWins.

Lemma find_app_some {A} (p : A -> bool) (l l' : list A) (x : A) :
  find p l = Some x -> find p (l ++ l')%list = Some x.
Proof.
  induction l as [|y l IH]; cbn [find app]; [discriminate|].
  destruct (p y); [trivial|exact IH].
Qed.

Lemma getAllStudents_first_wins (this : Agent.t) :
  NoDup (map Student.id (getAllStudents this)) /\
  forall key,
    find (JsMap.byKey Student.id key) (getAllStudents this)
    = find (JsMap.byKey Student.id key)
           (roster this ++ uniqueUsersFromCheckins (checkins this))%list.
Proof.
  unfold getAllStudents. cbv zeta.
  destruct (first_wins Student.t Student.id
              (roster this ++ uniqueUsersFromCheckins (checkins this))%list
              [] (Forall_nil _) (NoDup_nil _)) as (K & N & F).
  split.
  - rewrite (keyed_fst Student.t Student.id _ K) in N. exact N.
  - intros key. rewrite (F key). reflexivity.
Qed.

End RosterFacts.

(** ** The dashboard generator *)

Module DashboardFacts.
Import Js Agent.
Local Open Scope string_scope.
Local Open Scope Z_scope.

Lemma extractBlockers_from (entries : list Checkin.t) (acc : list Blocker.t) :
  forallb Spec.hasText entries = true ->
  exists blockers,
    fold_left
      (fun acc entry =>
         bind acc (fun blockers =>
           match Checkin.message_content entry with
           | None => Throw TypeError
           | Some text =>
               let lower := toLowerCase text in
               let hasBlocker :=
                 existsb (fun keyword => includes lower keyword)
                         blockerKeywords in
               if hasBlocker then
                 Ok (blockers ++
                     [ Blocker.mk (Checkin.user_id entry)
                                  (Checkin.user_name entry)
                                  (Checkin.timestamp entry)
                                  (Checkin.message_content entry) ])%list
               else Ok blockers
           end))
      entries (Ok acc)
    = Ok blockers.
Proof.
  revert acc. induction entries as [|c cs IH]; intros acc H.
  - exists acc. reflexivity.
  - cbn [forallb] in H. apply andb_true_iff in H. destruct H as [Hc Hcs].
    cbn [fold_left bind]. unfold Spec.hasText, Spec.given in Hc.
    destruct (Checkin.message_content c) as [text|]; [|discriminate].
    cbv zeta.
    destruct (existsb _ blockerKeywords); apply IH; exact Hcs.
Qed.

Lemma extractBlockers_ok (entries : list Checkin.t) :
  forallb Spec.hasText entries = true ->
  exists blockers, extractBlockers entries = Ok blockers.
Proof. apply extractBlockers_from. Qed.

Lemma forallb_filter {A} (p q : A -> bool) (l : list A) :
  forallb p l = true -> forallb p (filter q l) = true.
Proof.
  induction l as [|x l IH]; cbn [forallb filter]; [trivial|].
  intros H. apply andb_true_iff in H. destruct H as [Hx Hl].
  destruct (q x); cbn [forallb]; [rewrite Hx|]; auto.
Qed.

Lemma entries_have_text
  (this : Agent.t) (userId : option string) (start end_ : Dayjs.t)
  (summary : Summary.t) :
  forallb Spec.hasText (checkins this) = true ->
  summarizeRange this userId start end_ = Some summary ->
  forallb Spec.hasText (Summary.entries summary) = true.
Proof.
  intros H. unfold summarizeRange.
  assert (G : forallb Spec.hasText
                (getCheckinsForUser this userId (Some (start, end_))) = true).
  { unfold getCheckinsForUser, getCheckinsByDateRange.
    apply forallb_filter, forallb_filter. exact H. }
  destruct (getCheckinsForUser this userId (Some (start, end_)));
    [discriminate|].
  intros E. injection E as <-. exact G.
Qed.

Lemma summarizeWeek_ok
  (this : Agent.t) (userId : option string) (weekStart : Dayjs.t) :
  forallb Spec.hasText (checkins this) = true ->
  throws (summarizeWeek this userId weekStart) = false.
Proof.
  intros H. unfold summarizeWeek. cbv zeta.
  destruct (summarizeRange _ _ _ _) as [summary|] eqn:E; [|reflexivity].
  destruct (extractBlockers_ok (Summary.entries summary)
              (entries_have_text _ _ _ _ _ H E)) as [b ->].
  reflexivity.
Qed.

Lemma summarizeMonth_ok
  (this : Agent.t) (userId : option string) (month : Dayjs.t) :
  forallb Spec.hasText (checkins this) = true ->
  throws (summarizeMonth this userId month) = false.
Proof.
  intros H. unfold summarizeMonth. cbv zeta.
  destruct (summarizeRange _ _ _ _) as [summary|] eqn:E; [|reflexivity].
  destruct (extractBlockers_ok (Summary.entries summary)
              (entries_have_text _ _ _ _ _ H E)) as [b ->].
  reflexivity.
Qed.

Lemma throws_bind_ok {A B} (m : result A) (f : A -> B) :
  throws (bind m (fun a => Ok (f a))) = throws m.
Proof. destruct m; reflexivity. Qed.

End DashboardFacts.

(** ** The query interpreter *)

Module InterpreterFacts.
Import Js Agent.
Local Open Scope string_scope.
Local Open Scope Z_scope.

Lemma find_by_name_named (normalizedName : string)
      (users : list Student.t) :
  forallb (fun u => Spec.given (Student.name u)) users = true ->
  throws (find_by_name normalizedName users) = false.
Proof.
  induction users as [|u us IH]; [reflexivity|].
  cbn [forallb find_by_name]. intros H. apply andb_true_iff in H.
  destruct H as [Hu Hus]. unfold Spec.given in Hu.
  destruct (Student.name u) as [n|]; [|discriminate].
  destruct (String.eqb _ _); [reflexivity|apply IH; exact Hus].
Qed.

(** With a name for every student, the quality question is answered
    without a throw, whatever the question. *)
Lemma answerQualityQuestion_named
      (now : Z) (parseIsoStrict : string -> Dayjs.t) (Payload : Type)
      (this : Agent.t) (question : string) :
  forallb (fun u => Spec.given (Student.name u)) (getAllStudents this)
  = true ->
  throws (answerQualityQuestion now parseIsoStrict Payload this question)
  = false.
Proof.
  intros H. unfold answerQualityQuestion. cbv zeta.
  destruct (matchName question) as [name1|]; [|reflexivity].
  unfold getUserByName. cbv zeta.
  pose proof (find_by_name_named
                (toLowerCase
                   (trim (match or (Some (trim name1)) (Some EmptyString) with
                          | Some n => n
                          | None => EmptyString
                          end)))
                (getAllStudents this) H) as T.
  destruct (find_by_name _ _) as [[user|]|]; cbn [bind];
    [|reflexivity|discriminate].
  destruct (match matchDate question with
            | Some token => parseDateToken now parseIsoStrict token None
            | None => Some (Dayjs.today now)
            end) as [date|]; [|reflexivity].
  destruct (summarizeDaily this (Student.id user) date); reflexivity.
Qed.

End InterpreterFacts.

(** * The claims of the specification *)

Import Js Agent QualityFacts FloatFacts AgentFacts CalendarFacts RosterFacts
  DashboardFacts.
Local Open Scope string_scope.
Local Open Scope Z_scope.

(** C1 as stated fails: with no entry of the user in February 2024,
    [summarizeMonth] returns [null], not a summary with a consistency
    object. *)
Lemma empty_month_reports_no_consistency :
  let agent := constructor [Samples.great] [Roster.Text "U1"] in
  getCheckinsForUser agent (Some "U1")
    (Some (Dayjs.startOfMonth (Some Samples.feb15),
           Dayjs.endOfMonth (Some Samples.feb15))) = [] /\
  summarizeMonth agent (Some "U1") (Some Samples.feb15) = Ok None.
Proof. split; reflexivity. Qed.

(** C1, amended.  When the user has no entry in the calendar month of a
    valid anchor, [summarizeMonth] returns [null]; the consistency
    computation over that month, [calculateConsistency], still yields an
    object, with [days_checked_in] 0, [percentage] 0 and [period_length]
    the number of days of the month that the window spans.  That month
    holds the anchor, for every anchor outside the years 0 to 99, which
    the [Date] constructor moves by 1900 years. *)
Theorem empty_month_summary_is_null
  (this : Agent.t) (userId : option string) (ms : Z) :
  let start := Dayjs.startOfMonth (Some ms) in
  let end_ := Dayjs.endOfMonth (Some ms) in
  getCheckinsForUser this userId (Some (start, end_)) = [] ->
  summarizeMonth this userId (Some ms) = Ok None /\
  (exists days : Q,
      calculateConsistency this userId start end_
      = Consistency.mk 0 (Num days) (Num 0) /\
      (days == inject_Z (Dayjs.daysInMonth
                           (Dayjs.constructorYear (Dayjs.year ms))
                           (Dayjs.month ms)))%Q)
  /\ 0 <= Dayjs.month ms <= 11
  /\ (Dayjs.constructorYear (Dayjs.year ms) = Dayjs.year ms ->
      Dayjs.valueLe start (Some ms) = true /\
      Dayjs.valueLe (Some ms) end_ = true).
Proof.
  intros start end_ He.
  split.
  { unfold summarizeMonth, summarizeRange. fold start end_. rewrite He.
    reflexivity. }
  split.
  { unfold calculateConsistency. rewrite He. unfold start, end_.
    rewrite month_period_length. eexists. split; [reflexivity|].
    change 1%Q with (inject_Z 1). rewrite <- inject_Z_plus.
    match goal with
    | |- (inject_Z (?d - 1 + 1) == _)%Q => replace (d - 1 + 1) with d by lia
    end.
    reflexivity. }
  split; [apply month_range|].
  apply month_window_holds_anchor.
Qed.

Lemma empty_month_summary_is_null_witness :
  summarizeMonth (constructor [Samples.great] [Roster.Text "U1"])
                 (Some "U1") (Some Samples.feb15) = Ok None /\
  Consistency.period_length
    (calculateConsistency (constructor [Samples.great] [Roster.Text "U1"])
       (Some "U1") (Dayjs.startOfMonth (Some Samples.feb15))
       (Dayjs.endOfMonth (Some Samples.feb15))) = Num 29.
Proof.
  split.
  - apply (empty_month_summary_is_null
             (constructor [Samples.great] [Roster.Text "U1"])
             (Some "U1") Samples.feb15).
    reflexivity.
  - reflexivity.
Defined.




(** C4 as stated fails twice.  A type written in upper case is accepted:
    the generator returns a dashboard where the claim has it fail.  And a
    weekly report over a record that carries no text throws, in a case
    where the claim has it return. *)
Lemma dashboard_failures_differ :
  let agent := constructor [Samples.great; Samples.silent] [] in
  let upper := Timeframe.mk (Some "DAILY") (Some (Some Samples.feb15))
                            None None in
  let week := Timeframe.mk (Some "weekly") None (Some (Some Samples.feb15))
                           None in
  (throws (generateDashboard agent Samples.feb15 (Some "U2") (Some "Gus")
                             (Some upper)) = false /\
   Spec.dashboardFails (Some "U2") (Some upper) = true) /\
  (generateDashboard agent Samples.feb15 (Some "U3") (Some "Sil")
                     (Some week) = Throw TypeError /\
   Spec.dashboardFails (Some "U3") (Some week) = false).
Proof. repeat split; reflexivity. Qed.

(** C4, amended.  When every check-in record carries a text,
    [generateDashboard] throws if and only if the user id is missing, or
    the timeframe has no type, or the type, whatever the case of its
    letters, is daily with neither a date nor a start value, or is none
    of daily, weekly and monthly; in every other case it returns a
    dashboard. *)
Theorem generateDashboard_fails_iff
  (this : Agent.t) (now : Z) (userId userName : option string)
  (timeframe : option Timeframe.t) :
  forallb Spec.hasText (checkins this) = true ->
  throws (generateDashboard this now userId userName timeframe)
  = Spec.dashboardFailsIgnoringCase userId timeframe.
Proof.
  intros H. unfold generateDashboard, Spec.dashboardFailsIgnoringCase,
    Spec.failsWhen.
  destruct (truthy userId); cbn [negb orb]; [|reflexivity].
  destruct timeframe as [tf|]; [|reflexivity].
  destruct (Timeframe.type tf) as [type|]; [|reflexivity].
  destruct (truthy (Some type)); cbn [negb orb]; [|reflexivity].
  destruct (String.eqb (toLowerCase type) "daily") eqn:D.
  { cbn [andb orb negb]. unfold orDate, Spec.given.
    destruct (Timeframe.date tf); [reflexivity|].
    destruct (Timeframe.start tf); reflexivity. }
  cbn [andb orb negb].
  destruct (String.eqb (toLowerCase type) "weekly") eqn:W.
  { cbn [orb negb]. rewrite throws_bind_ok. apply summarizeWeek_ok, H. }
  destruct (String.eqb (toLowerCase type) "monthly") eqn:M.
  { cbn [orb negb]. rewrite throws_bind_ok. apply summarizeMonth_ok, H. }
  reflexivity.
Qed.

Lemma generateDashboard_fails_iff_witness :
  throws (generateDashboard (constructor [Samples.great] [])
            Samples.feb15 (Some "U2") (Some "Gus")
            (Some (Timeframe.mk (Some "Monthly") None None None))) = false /\
  throws (generateDashboard (constructor [Samples.great] [])
            Samples.feb15 (Some "U2") (Some "Gus")
            (Some (Timeframe.mk (Some "daily") None None None))) = true.
Proof.
  split.
  - apply (generateDashboard_fails_iff (constructor [Samples.great] [])
             Samples.feb15 (Some "U2") (Some "Gus")
             (Some (Timeframe.mk (Some "Monthly") None None None))).
    reflexivity.
  - reflexivity.
Defined.

(** C5.  The interpreter throws on a question about a student when the
    roster holds an object that gives a [user_id] and no name: the entry
    is kept with an undefined name, and [getUserByName] calls
    [toLowerCase] on it.  This holds whatever the current instant, the
    date parser and the other five handlers are. *)
Theorem nameless_roster_entry_throws
  (now : Z) (parseIsoStrict : string -> Dayjs.t) (Payload : Type)
  (answerYesterday : Agent.t -> result Payload)
  (answerMissingRecent : Agent.t -> string -> result Payload)
  (answerProgressThisWeek : Agent.t -> result Payload)
  (answerDateRangeListing : Agent.t -> string -> result Payload)
  (answerBlockersThisWeek : Agent.t -> result Payload) :
  answerQuestion now parseIsoStrict Payload answerYesterday
    answerMissingRecent answerProgressThisWeek answerDateRangeListing
    answerBlockersThisWeek
    (constructor [] [Samples.nameless])
    "What is the quality of Jane's check-in on Monday?"
  = Throw TypeError.
Proof. reflexivity. Qed.

(** C6. A student reported missing for a window has no check-in in that
    window: the ids of the missing students and the user ids of the
    window's check-ins are disjoint. *)
Theorem missing_users_have_no_checkin
  (this : Agent.t) (start end_ : Dayjs.t)
  (student : Student.t) (checkin : Checkin.t) :
  In student (findMissingCheckins this start end_) ->
  In checkin (getCheckinsByDateRange this start end_) ->
  Student.id student <> Some (Checkin.user_id checkin).
Proof.
  unfold findMissingCheckins. cbv zeta. intros Hs Hc Heq.
  apply filter_In in Hs. destruct Hs as [_ Hs].
  apply negb_true_iff in Hs. rewrite Heq in Hs. cbn [setHas] in Hs.
  assert (E : existsb (String.eqb (Checkin.user_id checkin))
                (map Checkin.user_id
                     (getCheckinsByDateRange this start end_)) = true).
  { apply existsb_exists. exists (Checkin.user_id checkin).
    split; [apply in_map; exact Hc|apply String.eqb_refl]. }
  congruence.
Qed.

Lemma missing_users_have_no_checkin_witness :
  findMissingCheckins (constructor [Samples.great] [Roster.Text "U1"])
                      (Some 0) (Some Samples.feb15)
  = [Student.mk (Some "U1") (Some "U1")] /\
  (Some "U1" = Some (Checkin.user_id Samples.great) -> False).
Proof.
  split; [reflexivity|].
  apply (missing_users_have_no_checkin
           (constructor [Samples.great] [Roster.Text "U1"])
           (Some 0) (Some Samples.feb15)
           (Student.mk (Some "U1") (Some "U1")) Samples.great).
  - left. reflexivity.
  - left. reflexivity.
Defined.




(** C8. The combined student list holds no two entries with the same id,
    and for the id of a roster entry the entry kept is the first roster
    entry with that id, never a user inferred from the check-ins. *)
Theorem students_distinct_roster_first (this : Agent.t) :
  NoDup (map Student.id (getAllStudents this)) /\
  Forall
    (fun entry =>
       exists kept,
         find (fun s => JsMap.key_eqb (Student.id s) (Student.id entry))
              (getAllStudents this) = Some kept /\
         find (fun s => JsMap.key_eqb (Student.id s) (Student.id entry))
              (roster this) = Some kept /\
         In kept (roster this) /\
         Student.id kept = Student.id entry)
    (roster this).
Proof.
  destruct (getAllStudents_first_wins this) as [N F].
  split; [exact N|].
  apply Forall_forall. intros entry Hin.
  destruct (find (fun s => JsMap.key_eqb (Student.id s) (Student.id entry))
                 (roster this)) as [kept|] eqn:E.
  - exists kept. pose proof (find_some _ _ E) as [Hk Hid].
    apply key_eqb_eq in Hid. repeat split; try assumption.
    change (find (JsMap.byKey Student.id (Student.id entry))
                 (getAllStudents this) = Some kept).
    rewrite F. apply find_app_some. exact E.
  - exfalso. apply (find_none _ _ E) in Hin.
    rewrite key_eqb_refl in Hin. discriminate.
Qed.

(** C9. Of two texts, the one whose number of categories, capped count
    of numeric and bullet signals (cap 3) and capped word count (cap 120)
    are all at least the other's has a score and a label at least the
    other's, in the order Weak < Medium < Strong. *)
Theorem label_monotone_in_components (t1 t2 : string) :
  Quality.scoreCompleteness t1 <= Quality.scoreCompleteness t2 ->
  Quality.scoreSpecificity t1 <= Quality.scoreSpecificity t2 ->
  Z.min (Quality.countWords t1) 120 <= Z.min (Quality.countWords t2) 120 ->
  (Quality.calculateQualityScore (Some t1)
   <= Quality.calculateQualityScore (Some t2))%Q /\
  Spec.rank (Quality.classifyCheckinQuality (Some t1))
  <= Spec.rank (Quality.classifyCheckinQuality (Some t2)).
Proof.
  intros Hc Hs Hw.
  pose proof (score_monotone t1 t2 Hc Hs Hw) as H.
  split; [exact H|].
  rewrite !classify_label. apply label_monotone.
  rewrite <- !score_formula. exact H.
Qed.

Lemma label_monotone_in_components_witness :
  Quality.classifyCheckinQuality (Some Samples.sample_weak) = "Weak" /\
  Quality.classifyCheckinQuality (Some Samples.sample_medium) = "Medium" /\
  Spec.rank (Quality.classifyCheckinQuality (Some Samples.sample_weak))
  <= Spec.rank (Quality.classifyCheckinQuality (Some Samples.sample_medium)).
Proof.
  split; [reflexivity|]. split; [reflexivity|].
  apply (label_monotone_in_components
           Samples.sample_weak Samples.sample_medium);
    vm_compute; discriminate.
Defined.

(** C10 as stated fails twice.  A label that names a property inherited
    from [Object.prototype] passes through, but the record does not weigh
    0: the sum becomes a text and the average is [NaN].  And an empty
    label does not pass through: the classifier's label replaces it. *)
Lemma inherited_label_does_not_weigh_zero :
  let agent := constructor [Samples.odd_label] [] in
  (checkins agent = [Samples.odd_label] /\
   orZero (getProperty QUALITY_TO_SCORE (Checkin.quality Samples.odd_label))
   = Inherited /\
   option_map Summary.average_quality_score
     (summarizeRange agent (Some "U1") (Some 0) (Some Samples.feb15))
   = Some NaN) /\
  map Checkin.quality (checkins (constructor [Samples.blank_label] []))
  = [Some "Weak"].
Proof. repeat split; reflexivity. Qed.

(** C10, amended.  A record whose pre-set label is not empty, is none of
    Strong, Medium and Weak, and is not the name of a property inherited
    from [Object.prototype], keeps its label in the agent and adds 0 to
    the sum of weights; a window that holds only this record has the
    average 0, below 1, and the label Weak. *)
Theorem unknown_label_weighs_zero
  (c : Checkin.t) (label : string) (ts s e : Z) :
  Checkin.quality c = Some label ->
  truthy (Some label) = true ->
  existsb (String.eqb label) ["Strong"; "Medium"; "Weak"] = false ->
  existsb (String.eqb label) objectPrototype = false ->
  Checkin.timestamp c = Some ts ->
  s <= ts <= e ->
  (forall records roster,
      In c records -> In c (checkins (constructor records roster))) /\
  (forall acc,
      plus acc (orZero (getProperty QUALITY_TO_SCORE (Checkin.quality c)))
      = acc) /\
  (forall roster,
      exists summary,
        summarizeRange (constructor [c] roster) (Some (Checkin.user_id c))
                       (Some s) (Some e) = Some summary /\
        Summary.entries summary = [c] /\
        Summary.total_checkins summary = 1 /\
        Summary.average_quality_score summary = Num 0 /\
        Summary.quality summary = "Weak").
Proof.
  intros Hq Ht Hk Hp Hts Hw.
  assert (Hn : Checkin.withQuality c
                 (normalizeQuality (Checkin.quality c)
                                   (Checkin.message_content c)) = c).
  { apply normalize_truthy. rewrite Hq. exact Ht. }
  assert (Hg : orZero (getProperty QUALITY_TO_SCORE (Checkin.quality c))
               = Number 0).
  { rewrite Hq. unfold getProperty. rewrite (own_none label Hk), Hp.
    reflexivity. }
  split; [|split].
  - intros records roster Hin. unfold constructor. cbn [checkins].
    rewrite <- Hn at 1.
    exact (in_map
             (fun checkin =>
                Checkin.withQuality checkin
                  (normalizeQuality (Checkin.quality checkin)
                                    (Checkin.message_content checkin)))
             records c Hin).
  - intros acc. rewrite Hg. destruct acc as [z|]; cbn [plus];
      [f_equal; lia|reflexivity].
  - intros roster. unfold summarizeRange, getCheckinsForUser,
      getCheckinsByDateRange, constructor.
    cbn [checkins map filter]. rewrite Hn.
    unfold Dayjs.isSameOrAfter, Dayjs.isSameOrBefore, Dayjs.valueLe.
    rewrite Hts.
    destruct (Z.leb_spec s ts); [|lia]. destruct (Z.leb_spec ts e); [|lia].
    cbn [andb filter isUser]. rewrite String.eqb_refl.
    cbn [fold_left]. rewrite Hg. eexists. split; [reflexivity|].
    repeat split; reflexivity.
Qed.

Lemma unknown_label_weighs_zero_witness :
  exists summary,
    summarizeRange (constructor [Samples.great] [])
                   (Some "U2") (Some 0) (Some Samples.feb15)
    = Some summary /\
    Summary.average_quality_score summary = Num 0.
Proof.
  destruct (unknown_label_weighs_zero Samples.great "Great"
              Samples.feb15 0 Samples.feb15)
    as (_ & _ & H); try reflexivity.
  - unfold Samples.feb15. lia.
  - destruct (H []) as (summary & H1 & _ & _ & H2 & _).
    exists summary. split; assumption.
Defined.

(** * Lemmas on the rest of the sources *)

(** ** Lists *)

Module ListFacts.

Lemma filter_filter {A} (p q : A -> bool) (l : list A) :
  filter q (filter p l) = filter (fun x => p x && q x) l.
Proof.
  induction l as [|x l IH]; [reflexivity|]. cbn [filter].
  destruct (p x); cbn [filter andb]; [destruct (q x)|]; rewrite IH;
    reflexivity.
Qed.

Lemma fold_left_map {A B C} (f : C -> B -> C) (g : A -> B) (l : list A)
      (c : C) :
  fold_left f (map g l) c = fold_left (fun acc x => f acc (g x)) l c.
Proof.
  revert c. induction l as [|x l IH]; intros c; [reflexivity|].
  cbn [map fold_left]. apply IH.
Qed.

End ListFacts.

(** ** Windows of whole days *)

Module WindowFacts.
Import Js Dayjs Agent CalendarFacts ListFacts.
Local Open Scope Z_scope.

Lemma addDays_value (n ms : Z) :
  addDays n (Some ms) = Some (ms + n * msPerDay).
Proof.
  unfold addDays. cbn [option_map]. f_equal.
  unfold MakeDay.
  pose proof (month_range ms) as Hm.
  rewrite Z.div_small, Z.mod_small by lia.
  replace (year ms + 0) with (year ms) by lia.
  unfold date, dayInYear, MakeDate, TimeWithinDay, Day.
  pose proof (Z.div_mod ms msPerDay ltac:(unfold msPerDay; lia)). lia.
Qed.

Lemma startOfDay_value (ms : Z) :
  startOfDay (Some ms) = Some (Day ms * msPerDay).
Proof.
  unfold startOfDay, MakeDate, MakeTime. cbn [option_map]. f_equal. lia.
Qed.

Lemma endOfDay_value (ms : Z) :
  endOfDay (Some ms) = Some (Day ms * msPerDay + 86399999).
Proof. reflexivity. Qed.

Lemma Day_shift (d r : Z) :
  0 <= r < msPerDay -> Day (d * msPerDay + r) = d.
Proof. apply Day_MakeDate. Qed.

(** An instant lies between the first millisecond of day [a] and the
    last one of day [b] when its day number lies between [a] and [b]. *)
Lemma in_days (a b ts : Z) :
  (a * msPerDay <=? ts) && (ts <=? b * msPerDay + 86399999)
  = (a <=? Day ts) && (Day ts <? b + 1).
Proof.
  unfold Day, msPerDay.
  destruct (Z.leb_spec (a * 86400000) ts);
    destruct (Z.leb_spec ts (b * 86400000 + 86399999));
    destruct (Z.leb_spec a (ts / 86400000));
    destruct (Z.ltb_spec (ts / 86400000) (b + 1));
    try reflexivity; exfalso; Z.div_mod_to_equations; lia.
Qed.

Lemma range_of_days (this : Agent.t) (a b : Z) :
  getCheckinsByDateRange this (Some (a * msPerDay))
                         (Some (b * msPerDay + 86399999))
  = filter (Notions.withinDays a (b + 1 - a)) (checkins this).
Proof.
  unfold getCheckinsByDateRange. apply filter_ext. intros c.
  unfold isSameOrAfter, isSameOrBefore, valueLe, Notions.withinDays.
  destruct (Checkin.timestamp c) as [ts|]; [|reflexivity].
  rewrite in_days. replace (a + (b + 1 - a)) with (b + 1) by lia.
  reflexivity.
Qed.

Lemma user_in_days (this : Agent.t) (userId : option string) (a b : Z) :
  getCheckinsForUser this userId
    (Some (Some (a * msPerDay), Some (b * msPerDay + 86399999)))
  = filter (fun c => Notions.withinDays a (b + 1 - a) c && isUser userId c)
           (checkins this).
Proof.
  unfold getCheckinsForUser. rewrite range_of_days. apply filter_filter.
Qed.

Lemma day_window (this : Agent.t) (userId : option string) (date : Dayjs.t) :
  getCheckinsForUser this userId (Some (startOfDay date, endOfDay date))
  = filter (fun c => Notions.sameDay date c && isUser userId c)
           (checkins this).
Proof.
  destruct date as [d|].
  - rewrite startOfDay_value, endOfDay_value, user_in_days.
    apply filter_ext. intros c. unfold Notions.sameDay.
    replace (Day d + 1 - Day d) with 1 by lia. reflexivity.
  - unfold getCheckinsForUser, getCheckinsByDateRange. cbn [startOfDay option_map].
    rewrite filter_filter.
    induction (checkins this) as [|c cs IH]; [reflexivity|].
    cbn [filter]. unfold isSameOrAfter at 1. unfold valueLe at 1.
    destruct (Checkin.timestamp c); cbn [andb Notions.sameDay]; exact IH.
Qed.


End WindowFacts.

(** ** Blockers *)

Module BlockerFacts.
Import Js Agent ListFacts.
Local Open Scope string_scope.
Local Open Scope Z_scope.

Lemma extractBlockers_step (entries : list Checkin.t) (acc : list Blocker.t) :
  fold_left
    (fun acc entry =>
       bind acc (fun blockers =>
         match Checkin.message_content entry with
         | None => Throw TypeError
         | Some text =>
             let lower := toLowerCase text in
             let hasBlocker :=
               existsb (fun keyword => includes lower keyword)
                       blockerKeywords in
             if hasBlocker then
               Ok (blockers ++
                   [ Blocker.mk (Checkin.user_id entry)
                                (Checkin.user_name entry)
                                (Checkin.timestamp entry)
                                (Checkin.message_content entry) ])%list
             else Ok blockers
         end))
    entries (Ok acc)
  = if forallb Spec.hasText entries
    then Ok (acc ++ map Notions.blockerOf
                        (filter Notions.mentionsBlocker entries))%list
    else Throw TypeError.
Proof.
  revert acc. induction entries as [|c cs IH]; intros acc.
  - cbn. rewrite app_nil_r. reflexivity.
  - cbn [fold_left bind forallb filter].
    unfold Spec.hasText at 1, Spec.given, Notions.mentionsBlocker at 1.
    destruct (Checkin.message_content c) as [text|] eqn:E.
    + cbv zeta. cbn [andb].
      destruct (existsb _ blockerKeywords).
      * rewrite IH. destruct (forallb Spec.hasText cs); [|reflexivity].
        cbn [map]. rewrite <- app_assoc. unfold Notions.blockerOf at 2.
        rewrite E. reflexivity.
      * apply IH.
    + cbn [andb]. clear IH.
      induction cs as [|d ds IHd]; [reflexivity|exact IHd].
Qed.

Lemma extractBlockers_value (entries : list Checkin.t) :
  extractBlockers entries
  = if forallb Spec.hasText entries
    then Ok (map Notions.blockerOf (filter Notions.mentionsBlocker entries))
    else Throw TypeError.
Proof. apply (extractBlockers_step entries []). Qed.

End BlockerFacts.

(** ** The earliest entry *)

Module SortFacts.
Import Js Agent Notions.
Local Open Scope Z_scope.

Lemma insert_head (x : Checkin.t) (sorted : list Checkin.t) :
  hd_error (insertByTimestamp x sorted)
  = Some (match sorted with
          | [] => x
          | y :: _ => earlier y x
          end).
Proof.
  destruct sorted as [|y r]; [reflexivity|]. cbn [insertByTimestamp].
  unfold earlier. destruct (notAfter y x); reflexivity.
Qed.

Lemma sort_head_from (l : list Checkin.t) (y : Checkin.t)
      (r : list Checkin.t) :
  hd_error (fold_left (fun sorted x => insertByTimestamp x sorted) l (y :: r))
  = Some (fold_left earlier l y).
Proof.
  revert y r. induction l as [|x l IH]; intros y r; [reflexivity|].
  cbn [fold_left].
  pose proof (insert_head x (y :: r)) as H.
  destruct (insertByTimestamp x (y :: r)) as [|z r'] eqn:E;
    [discriminate|].
  cbn [hd_error] in H. injection H as ->. apply IH.
Qed.

Lemma sort_head (l : list Checkin.t) :
  hd_error (sortByTimestamp l)
  = match l with
    | [] => None
    | x :: r => Some (fold_left earlier r x)
    end.
Proof.
  destruct l as [|x r]; [reflexivity|].
  unfold sortByTimestamp. cbn [fold_left insertByTimestamp].
  apply sort_head_from.
Qed.

(** Among stamped records, the fold keeps the first of the earliest. *)
Lemma earliest_first (r : list Checkin.t) (x : Checkin.t) :
  forallb stamped (x :: r) = true ->
  exists before after,
    (x :: r = before ++ fold_left earlier r x :: after)%list /\
    forallb (Notions.laterThan (fold_left earlier r x)) before = true /\
    forallb (Notions.notBefore (fold_left earlier r x)) after = true.
Proof.
  induction r as [|y r IH] using rev_ind; intros H.
  - exists [], []. repeat split; reflexivity.
  - assert (H' : forallb stamped (x :: r) = true /\ stamped y = true).
    { change (x :: r ++ [y])%list with ((x :: r) ++ [y])%list in H.
      rewrite forallb_app in H. apply andb_true_iff in H.
      destruct H as [H1 H2]. cbn in H2. rewrite andb_true_r in H2. auto. }
    destruct H' as [Hr Hy]. destruct (IH Hr) as (before & after & E & B & A).
    rewrite fold_left_app. cbn [fold_left].
    set (best := fold_left earlier r x) in *.
    assert (Hb : stamped best = true).
    { rewrite forallb_forall in Hr. apply Hr. rewrite E.
      apply in_or_app. right. left. reflexivity. }
    unfold stamped, Spec.given in Hy, Hb.
    unfold earlier, notAfter.
    destruct (Checkin.timestamp best) as [tb|] eqn:Eb; [|discriminate].
    destruct (Checkin.timestamp y) as [ty|] eqn:Ey; [|discriminate].
    destruct (Z.leb_spec tb ty) as [Hle|Hlt].
    + exists before, (after ++ [y])%list. repeat split.
      * change (x :: r ++ [y])%list with ((x :: r) ++ [y])%list.
        rewrite E, <- app_assoc. reflexivity.
      * exact B.
      * rewrite forallb_app, A. cbn. unfold Notions.notBefore.
        rewrite Eb, Ey. destruct (Z.leb_spec tb ty); [reflexivity|lia].
    + exists (before ++ best :: after)%list, []. repeat split.
      * change (x :: r ++ [y])%list with ((x :: r) ++ [y])%list.
        rewrite E. reflexivity.
      * rewrite forallb_app. cbn [forallb].
        assert (L : forall c, Notions.laterThan best c = true \/
                              Notions.notBefore best c = true ->
                              Notions.laterThan y c = true).
        { intros c. unfold Notions.laterThan, Notions.notBefore.
          rewrite Eb, Ey. destruct (Checkin.timestamp c) as [tc|].
          - rewrite !Z.ltb_lt, Z.leb_le. lia.
          - intros [K|K]; discriminate. }
        rewrite !andb_true_iff. repeat split.
        -- apply forallb_forall. intros c Hc. apply L. left.
           rewrite forallb_forall in B. auto.
        -- unfold Notions.laterThan. rewrite Ey, Eb. apply Z.ltb_lt. lia.
        -- apply forallb_forall. intros c Hc. apply L. right.
           rewrite forallb_forall in A. auto.
Qed.

End SortFacts.

(** ** The month window and the consistency over it *)

Module MonthFacts.
Import Js Dayjs Agent CalendarFacts ListFacts WindowFacts.
Local Open Scope Z_scope.

Lemma DayFromYear_monotone (a b : Z) :
  a <= b -> DayFromYear a <= DayFromYear b.
Proof. intros H. unfold DayFromYear. Z.div_mod_to_equations. lia. Qed.

Lemma YearFromDay_unique (y d : Z) :
  DayFromYear y <= d < DayFromYear (y + 1) -> YearFromDay d = y.
Proof.
  intros H. pose proof (YearFromDay_spec d) as S.
  destruct (Z.lt_trichotomy (YearFromDay d) y) as [L|[E|G]]; [|exact E|].
  - pose proof (DayFromYear_monotone (YearFromDay d + 1) y ltac:(lia)). lia.
  - pose proof (DayFromYear_monotone (y + 1) (YearFromDay d) ltac:(lia)). lia.
Qed.

Lemma month_unique (l : bool) (y m n : Z) :
  0 <= m <= 11 -> InLeapYear y = l ->
  daysBeforeMonth l m <= n < daysBeforeMonth l m + daysInMonth y m ->
  monthOfDayInYear l n = m.
Proof.
  intros Hm Hl. unfold daysInMonth. rewrite Hl.
  assert (E : m = 0 \/ m = 1 \/ m = 2 \/ m = 3 \/ m = 4 \/ m = 5 \/ m = 6
              \/ m = 7 \/ m = 8 \/ m = 9 \/ m = 10 \/ m = 11) by lia.
  unfold monthOfDayInYear.
  repeat destruct E as [E|E]; subst m; destruct l; cbn; intros H;
    repeat match goal with
           | |- context [if ?a <? ?b then _ else _] =>
               destruct (Z.ltb_spec a b); try lia
           end.
Qed.

Lemma days_before_end (y m : Z) :
  0 <= m <= 11 ->
  0 <= daysBeforeMonth (InLeapYear y) m /\
  daysBeforeMonth (InLeapYear y) m + daysInMonth y m
  <= (if InLeapYear y then 366 else 365).
Proof.
  intros Hm.
  assert (E : m = 0 \/ m = 1 \/ m = 2 \/ m = 3 \/ m = 4 \/ m = 5 \/ m = 6
              \/ m = 7 \/ m = 8 \/ m = 9 \/ m = 10 \/ m = 11) by lia.
  unfold daysInMonth.
  repeat destruct E as [E|E]; subst m; destruct (InLeapYear y); cbn; lia.
Qed.

(** The days of month [m] of year [y] are the days whose year is [y] and
    whose month is [m]. *)
Lemma in_month_days (y m : Z) (c : Checkin.t) :
  0 <= m <= 11 ->
  Notions.withinDays (DayFromYear y + daysBeforeMonth (InLeapYear y) m)
                     (daysInMonth y m) c
  = Notions.inMonth y m c.
Proof.
  intros Hm. unfold Notions.withinDays, Notions.inMonth.
  destruct (Checkin.timestamp c) as [ts|]; [|reflexivity].
  pose proof (days_before_end y m Hm) as [B0 B1].
  pose proof (DayFromYear_succ y) as Sy.
  destruct (Z.eqb_spec (year ts) y) as [Ey|Ny]; cbn [andb].
  - pose proof (month_spec ts) as Ms. unfold dayInYear in Ms. rewrite Ey in Ms.
    destruct (Z.eqb_spec (month ts) m) as [Em|Nm].
    + rewrite Em in Ms. apply andb_true_iff. rewrite Z.leb_le, Z.ltb_lt. lia.
    + apply andb_false_iff.
      destruct (Z.leb_spec (DayFromYear y + daysBeforeMonth (InLeapYear y) m)
                           (Day ts)); [|left; reflexivity].
      right. apply Z.ltb_ge.
      destruct (Z.le_gt_cases
                  (DayFromYear y + daysBeforeMonth (InLeapYear y) m
                   + daysInMonth y m) (Day ts)) as [G|L]; [exact G|].
      exfalso. apply Nm. unfold month. rewrite Ey.
      apply (month_unique (InLeapYear y) y); [assumption|reflexivity|].
      unfold dayInYear. rewrite Ey. lia.
  - apply andb_false_iff.
    destruct (Z.leb_spec (DayFromYear y + daysBeforeMonth (InLeapYear y) m)
                         (Day ts)); [|left; reflexivity].
    right. apply Z.ltb_ge.
    destruct (Z.le_gt_cases
                (DayFromYear y + daysBeforeMonth (InLeapYear y) m
                 + daysInMonth y m) (Day ts)) as [G|L]; [exact G|].
    exfalso. apply Ny. unfold year. apply YearFromDay_unique.
    destruct (InLeapYear y); lia.
Qed.

Lemma month_window (this : Agent.t) (userId : option string) (anchor : Z) :
  getCheckinsForUser this userId
    (Some (startOfMonth (Some anchor), endOfMonth (Some anchor)))
  = filter (fun c => Notions.inMonth (constructorYear (year anchor))
                                     (month anchor) c
                     && isUser userId c)
           (checkins this).
Proof.
  rewrite startOfMonth_value, endOfMonth_value.
  set (y := constructorYear (year anchor)). set (m := month anchor).
  set (a := DayFromYear y + daysBeforeMonth (InLeapYear y) m).
  replace (a + daysInMonth y m - 1) with (a + (daysInMonth y m - 1)) by lia.
  rewrite user_in_days. apply filter_ext. intros c.
  replace (a + (daysInMonth y m - 1) + 1 - a) with (daysInMonth y m) by lia.
  unfold a. rewrite in_month_days by apply month_range. reflexivity.
Qed.

(** *** Distinct days *)

Lemma nodup_map_length {A B} (da : forall x y : A, {x = y} + {x <> y})
      (db : forall x y : B, {x = y} + {x <> y}) (g : A -> B) (l : list A) :
  (List.length (nodup db (map g l)) <= List.length (nodup da l))%nat.
Proof.
  rewrite <- (length_map g (nodup da l)).
  apply NoDup_incl_length; [apply NoDup_nodup|].
  intros b Hb. apply nodup_In in Hb. apply in_map_iff in Hb.
  destruct Hb as (a & <- & Ha). apply in_map. apply nodup_In. exact Ha.
Qed.

Lemma nodup_length_le {A} (da : forall x y : A, {x = y} + {x <> y})
      (l : list A) :
  (List.length (nodup da l) <= List.length l)%nat.
Proof.
  apply NoDup_incl_length; [apply NoDup_nodup|].
  intros a Ha. apply nodup_In in Ha. exact Ha.
Qed.

Lemma nodup_nonempty {A} (da : forall x y : A, {x = y} + {x <> y})
      (x : A) (l : list A) :
  (1 <= List.length (nodup da (x :: l)))%nat.
Proof.
  destruct (nodup da (x :: l)) as [|y r] eqn:E; [|cbn; lia].
  exfalso. assert (H : In x (nodup da (x :: l)))
    by (apply nodup_In; left; reflexivity).
  rewrite E in H. exact H.
Qed.

(** Distinct integers of an interval of [n] integers are at most [n]. *)
Lemma distinct_in_interval (a n : Z) (l : list Z) :
  0 <= n -> NoDup l -> Forall (fun d => a <= d < a + n) l ->
  Z.of_nat (List.length l) <= n.
Proof.
  intros Hn Hd Hr.
  assert (I : incl l (map (fun i => a + Z.of_nat i) (seq 0 (Z.to_nat n)))).
  { intros d Hin. rewrite Forall_forall in Hr. specialize (Hr d Hin).
    apply in_map_iff. exists (Z.to_nat (d - a)). split; [lia|].
    apply in_seq. lia. }
  pose proof (NoDup_incl_length Hd I) as L.
  rewrite length_map, length_seq in L. lia.
Qed.

(** The text of the day depends on the day number only. *)
Lemma formatIsoDate_of_day (ms : Z) :
  formatIsoDate (Some ms) = formatIsoDate (Some (Day ms * msPerDay)).
Proof.
  assert (E : Day (Day ms * msPerDay) = Day ms).
  { replace (Day ms * msPerDay) with (Day ms * msPerDay + 0) by lia.
    apply Day_shift. unfold msPerDay. lia. }
  unfold formatIsoDate, date, month, dayInYear, year. rewrite !E.
  reflexivity.
Qed.

Lemma distinct_days_in_window (a n : Z) (entries : list Checkin.t) :
  0 <= n ->
  forallb (Notions.withinDays a n) entries = true ->
  distinct (map (fun entry => formatIsoDate (Checkin.timestamp entry)) entries)
  <= n.
Proof.
  intros Hn H.
  set (dayOf := fun c : Checkin.t =>
                  match Checkin.timestamp c with
                  | Some ts => Day ts
                  | None => a
                  end).
  assert (E : map (fun entry => formatIsoDate (Checkin.timestamp entry)) entries
              = map (fun d => formatIsoDate (Some (d * msPerDay)))
                    (map dayOf entries)).
  { rewrite map_map. apply map_ext_in. intros c Hc.
    rewrite forallb_forall in H. specialize (H c Hc).
    unfold Notions.withinDays in H. unfold dayOf.
    destruct (Checkin.timestamp c) as [ts|]; [|discriminate].
    apply formatIsoDate_of_day. }
  unfold distinct, Agent.length. rewrite E.
  pose proof (nodup_map_length Z.eq_dec string_dec
                (fun d => formatIsoDate (Some (d * msPerDay)))
                (map dayOf entries)) as L.
  pose proof (distinct_in_interval a n (nodup Z.eq_dec (map dayOf entries))
                Hn (NoDup_nodup _ _)) as D.
  assert (R : Forall (fun d => a <= d < a + n)
                     (nodup Z.eq_dec (map dayOf entries))).
  { apply Forall_forall. intros d Hd. apply nodup_In in Hd.
    apply in_map_iff in Hd. destruct Hd as (c & <- & Hc).
    rewrite forallb_forall in H. specialize (H c Hc).
    unfold Notions.withinDays in H. unfold dayOf.
    destruct (Checkin.timestamp c) as [ts|]; [|discriminate].
    apply andb_true_iff in H. rewrite Z.leb_le, Z.ltb_lt in H. exact H. }
  specialize (D R). lia.
Qed.

(** The percentages of a month, case by case. *)
Lemma percent_of_month_cases :
  forallb
    (fun n =>
       forallb
         (fun d =>
            match percent d (Num (inject_Z (n - 1) + 1)) with
            | Num p => negb (Qle_bool p 0) && Qle_bool p 100
            | NaN => false
            end)
         (map Z.of_nat (seq 1 (Z.to_nat n))))
    [28; 29; 30; 31] = true.
Proof. vm_compute. reflexivity. Qed.

Lemma percent_of_month (y m d : Z) :
  1 <= d <= daysInMonth y m ->
  exists p, percent d (Num (inject_Z (daysInMonth y m - 1) + 1)) = Num p /\
            (0 < p <= 100)%Q.
Proof.
  intros Hd. pose proof percent_of_month_cases as C.
  rewrite forallb_forall in C.
  assert (Hn : In (daysInMonth y m) [28; 29; 30; 31]).
  { destruct (daysInMonth_cases y m) as [E|[E|[E|E]]]; rewrite E; cbn; auto. }
  specialize (C _ Hn). rewrite forallb_forall in C.
  assert (Hin : In d (map Z.of_nat (seq 1 (Z.to_nat (daysInMonth y m))))).
  { apply in_map_iff. exists (Z.to_nat d). split; [lia|]. apply in_seq. lia. }
  specialize (C d Hin).
  destruct (percent d (Num (inject_Z (daysInMonth y m - 1) + 1))) as [p|];
    [|discriminate].
  exists p. split; [reflexivity|].
  apply andb_true_iff in C. destruct C as [C1 C2].
  apply Qle_bool_iff in C2. apply negb_true_iff in C1.
  apply not_true_iff_false in C1. rewrite Qle_bool_iff in C1. lra.
Qed.

End MonthFacts.

(** ** Students and the roster *)

Module StudentFacts.
Import Js Agent RosterFacts ListFacts.
Local Open Scope string_scope.
Local Open Scope Z_scope.

Lemma unique_users_fold (cs : list Checkin.t) :
  uniqueUsersFromCheckins cs
  = JsMap.values
      (fold_left
         (fun (m : JsMap.t Student.t) (x : Student.t) =>
            if negb (JsMap.has m (Student.id x))
            then JsMap.set m (Student.id x) x else m)
         (map Notions.studentOf cs) []).
Proof.
  unfold uniqueUsersFromCheckins. rewrite fold_left_map. reflexivity.
Qed.

Lemma unique_users_first_wins (cs : list Checkin.t) :
  NoDup (map Student.id (uniqueUsersFromCheckins cs)) /\
  forall key,
    find (JsMap.byKey Student.id key) (uniqueUsersFromCheckins cs)
    = find (JsMap.byKey Student.id key) (map Notions.studentOf cs).
Proof.
  rewrite unique_users_fold.
  destruct (first_wins Student.t Student.id (map Notions.studentOf cs)
              [] (Forall_nil _) (NoDup_nil _)) as (K & N & F).
  split.
  - rewrite (keyed_fst Student.t Student.id _ K) in N. exact N.
  - intros key. rewrite (F key). reflexivity.
Qed.

Lemma find_exists {A} (p : A -> bool) (l : list A) (x : A) :
  In x l -> p x = true -> exists y, find p l = Some y.
Proof.
  intros Hin Hp. destruct (find p l) as [y|] eqn:E; [exists y; reflexivity|].
  apply (find_none _ _ E) in Hin. congruence.
Qed.

(** In a list without two equal keys, the search for the key of a member
    finds that member. *)
Lemma find_own_key {A} (k : A -> JsMap.key) (l : list A) (s : A) :
  NoDup (map k l) -> In s l -> find (JsMap.byKey k (k s)) l = Some s.
Proof.
  induction l as [|x l IH]; intros N Hin; [destruct Hin|].
  cbn [map] in N. inversion N as [|? ? Hx Hl]; subst.
  cbn [find]. unfold JsMap.byKey at 1.
  destruct Hin as [->|Hin]; [rewrite key_eqb_refl; reflexivity|].
  destruct (JsMap.key_eqb (k x) (k s)) eqn:E; [|apply IH; assumption].
  apply key_eqb_eq in E. exfalso. apply Hx. rewrite E.
  apply in_map. exact Hin.
Qed.

Lemma student_origin (this : Agent.t) (s : Student.t) :
  In s (getAllStudents this) ->
  In s (roster this) \/
  exists c, In c (checkins this) /\ s = Notions.studentOf c.
Proof.
  intros Hin. destruct (getAllStudents_first_wins this) as [N F].
  pose proof (find_own_key Student.id _ s N Hin) as E.
  rewrite F in E. apply find_some in E. destruct E as [E _].
  apply in_app_or in E. destruct E as [E|E]; [left; exact E|right].
  destruct (unique_users_first_wins (checkins this)) as [N' F'].
  pose proof (find_own_key Student.id _ s N' E) as E'.
  rewrite F' in E'. apply find_some in E'. destruct E' as [E' _].
  apply in_map_iff in E'. destruct E' as (c & <- & Hc).
  exists c. split; [exact Hc|reflexivity].
Qed.

Lemma student_for_key (this : Agent.t) (key : JsMap.key) (x : Student.t) :
  In x (roster this ++ uniqueUsersFromCheckins (checkins this))%list ->
  Student.id x = key ->
  exists s, In s (getAllStudents this) /\ Student.id s = key.
Proof.
  intros Hin Hk. destruct (getAllStudents_first_wins this) as [_ F].
  assert (P : JsMap.byKey Student.id key x = true)
    by (unfold JsMap.byKey; rewrite Hk; apply key_eqb_refl).
  destruct (find_exists _ _ x Hin P) as [s E].
  rewrite <- F in E. apply find_some in E. destruct E as [E1 E2].
  exists s. split; [exact E1|]. apply key_eqb_eq. exact E2.
Qed.

Lemma checkin_user_is_student (this : Agent.t) (c : Checkin.t) :
  In c (checkins this) ->
  exists s, In s (getAllStudents this) /\
            Student.id s = Some (Checkin.user_id c).
Proof.
  intros Hc. destruct (unique_users_first_wins (checkins this)) as [_ F'].
  assert (P : JsMap.byKey Student.id (Some (Checkin.user_id c))
                (Notions.studentOf c) = true)
    by (unfold JsMap.byKey; apply key_eqb_refl).
  destruct (find_exists _ _ _ (in_map Notions.studentOf _ c Hc) P) as [u E].
  rewrite <- F' in E. apply find_some in E. destruct E as [E1 E2].
  apply key_eqb_eq in E2.
  apply (student_for_key this _ u); [|exact E2].
  apply in_or_app. right. exact E1.
Qed.

Lemma or_given (a b : option string) :
  Spec.given (or a b) = truthy a || Spec.given b.
Proof.
  unfold or. destruct (truthy a) eqn:E; [|reflexivity].
  destruct a; [reflexivity|discriminate].
Qed.

Lemma or_truthy (a b : option string) :
  truthy (or a b) = truthy a || truthy b.
Proof. unfold or. destruct (truthy a) eqn:E; [exact E|reflexivity]. Qed.

Lemma filterBoolean_in {A} (l : list (option A)) (a : A) :
  In a (filterBoolean l) <-> In (Some a) l.
Proof.
  induction l as [|[x|] l IH]; cbn [filterBoolean In].
  - tauto.
  - rewrite IH. split; intros [H|H]; auto; left; congruence.
  - rewrite IH. split; [auto|]. intros [H|H]; [discriminate|exact H].
Qed.

Lemma roster_named (roster : list Roster.entry) (s : Student.t) :
  forallb Notions.nameable roster = true ->
  In s (normalizeRoster roster) -> Spec.given (Student.name s) = true.
Proof.
  intros H Hin. unfold normalizeRoster in Hin.
  apply filterBoolean_in in Hin. apply in_map_iff in Hin.
  destruct Hin as (e & He & Hin).
  rewrite forallb_forall in H. specialize (H e Hin).
  destruct e as [t|o|]; cbn [normalizeRosterEntry] in He;
    [injection He as <-; reflexivity| |discriminate].
  injection He as <-. cbn [Student.name].
  rewrite or_given, !or_truthy. exact H.
Qed.

Lemma students_named (records : list Checkin.t)
      (roster : list Roster.entry) :
  forallb Notions.nameable roster = true ->
  forallb (fun u => Spec.given (Student.name u))
          (getAllStudents (constructor records roster)) = true.
Proof.
  intros H. apply forallb_forall. intros s Hs.
  apply student_origin in Hs. destruct Hs as [Hs|(c & _ & ->)].
  - apply (roster_named roster); assumption.
  - unfold Notions.studentOf. cbn [Student.name]. rewrite or_given.
    apply orb_true_r.
Qed.

Lemma named_roster_answers
      (now : Z) (parseIsoStrict : string -> Dayjs.t) (Payload : Type)
      (records : list Checkin.t) (roster : list Roster.entry)
      (question : string) :
  forallb Notions.nameable roster = true ->
  throws (answerQualityQuestion now parseIsoStrict Payload
            (constructor records roster) question) = false.
Proof.
  intros H. apply InterpreterFacts.answerQualityQuestion_named.
  apply students_named. exact H.
Qed.

End StudentFacts.

(** ** The ISO week *)

Module WeekFacts.
Import Js Dayjs Agent CalendarFacts WindowFacts.
Local Open Scope string_scope.
Local Open Scope Z_scope.

Lemma isoWeekday_range (ms : Z) : 1 <= isoWeekday ms <= 7.
Proof.
  unfold isoWeekday, day.
  pose proof (Z.mod_pos_bound (Day ms + 4) 7 ltac:(lia)).
  destruct (Z.eqb_spec ((Day ms + 4) mod 7) 0); lia.
Qed.

Lemma isoWeekday_of_day (ms : Z) :
  isoWeekday ms = (Day ms + 3) mod 7 + 1.
Proof.
  unfold isoWeekday, day.
  destruct (Z.eqb_spec ((Day ms + 4) mod 7) 0); Z.div_mod_to_equations; lia.
Qed.

(** The day number of the Monday of the ISO week of [ms]. *)
Lemma startOfIsoWeek_value (ms : Z) :
  startOfIsoWeek (Some ms)
  = Some ((Day ms - (Day ms + 3) mod 7) * msPerDay).
Proof.
  unfold startOfIsoWeek. rewrite addDays_value, startOfDay_value.
  f_equal. f_equal. rewrite isoWeekday_of_day.
  unfold Day, msPerDay. Z.div_mod_to_equations. lia.
Qed.

Lemma monday_spec (ms : Z) :
  let monday := (Day ms - (Day ms + 3) mod 7) * msPerDay in
  isoWeekday monday = 1 /\ TimeWithinDay monday = 0 /\
  monday <= ms < monday + 7 * msPerDay.
Proof.
  cbv zeta. set (M := Day ms - (Day ms + 3) mod 7).
  assert (E : Day (M * msPerDay) = M).
  { replace (M * msPerDay) with (M * msPerDay + 0) by lia.
    apply Day_shift. unfold msPerDay. lia. }
  repeat split.
  - rewrite isoWeekday_of_day, E. unfold M. Z.div_mod_to_equations. lia.
  - unfold TimeWithinDay. apply Z_mod_mult.
  - unfold M, Day, msPerDay. Z.div_mod_to_equations. lia.
  - unfold M, Day, msPerDay. Z.div_mod_to_equations. lia.
Qed.

Lemma indexOf_range (l : list string) (x : string) (i j : Z) :
  indexOf l x i = Some j -> i <= j < i + Z.of_nat (List.length l).
Proof.
  revert i. induction l as [|y l IH]; intros i; cbn [indexOf];
    [discriminate|].
  destruct (String.eqb y x).
  - intros H. injection H as <-. cbn [List.length]. lia.
  - intros H. apply IH in H. cbn [List.length]. lia.
Qed.

End WeekFacts.

(** ** Words, bullets and numbers *)

Module TokenFacts.
Import Js Quality Tokens.
Local Open Scope string_scope.
Local Open Scope Z_scope.

Local Abbreviation nonEmpty := (fun w : string => truthy (Some w)).

Lemma nonEmpty_app (cur : string) (c : ascii) :
  nonEmpty (cur ++ String c EmptyString) = true.
Proof. destruct cur; reflexivity. Qed.

Lemma split_count (s cur : string) (inSep : bool) :
  (inSep = true -> cur = EmptyString) ->
  Z.of_nat (List.length (filter nonEmpty (splitSpaces cur inSep s)))
  = (if nonEmpty cur then 1 else 0) + runsFrom (nonEmpty cur) s.
Proof.
  revert cur inSep. induction s as [|c r IH]; intros cur inSep H.
  - cbn [splitSpaces filter runsFrom]. destruct (nonEmpty cur); reflexivity.
  - cbn [splitSpaces runsFrom]. destruct (isWhiteSpace c).
    + destruct inSep.
      * rewrite (H eq_refl). rewrite (IH EmptyString true (fun _ => eq_refl)).
        reflexivity.
      * cbn [filter].
        pose proof (IH EmptyString true (fun _ => eq_refl)) as E.
        change (truthy (Some EmptyString)) with false in E. cbv iota in E.
        destruct (nonEmpty cur); cbn [List.length];
          try rewrite Nat2Z.inj_succ; rewrite E; lia.
    + rewrite (IH (cur ++ String c EmptyString) false)
        by (intros K; discriminate).
      rewrite nonEmpty_app. destruct (nonEmpty cur); lia.
Qed.

Lemma runs_trimStart (s : string) :
  runsFrom false (trimStart s) = runsFrom false s.
Proof.
  induction s as [|c r IH]; [reflexivity|]. cbn [trimStart].
  destruct (isWhiteSpace c) eqn:E; [|reflexivity].
  cbn [runsFrom]. rewrite E. exact IH.
Qed.

Lemma runs_trimEnd (s : string) (b : bool) :
  runsFrom b (trimEnd s) = runsFrom b s.
Proof.
  revert b. induction s as [|c r IH]; intros b; [reflexivity|].
  cbn [trimEnd]. destruct (trimEnd r) as [|d r'] eqn:E.
  - cbn [runsFrom]. destruct (isWhiteSpace c) eqn:W.
    + rewrite <- IH. reflexivity.
    + cbn [runsFrom]. rewrite W, <- IH. reflexivity.
  - cbn [runsFrom]. destruct (isWhiteSpace c); rewrite <- IH; reflexivity.
Qed.

Lemma countWords_runs (text : string) : countWords text = wordRuns text.
Proof.
  unfold countWords, split_spaces, trim, wordRuns.
  rewrite (split_count _ EmptyString false) by (intros K; discriminate).
  change (truthy (Some EmptyString)) with false. cbv iota.
  rewrite runs_trimEnd, runs_trimStart. lia.
Qed.

Lemma runsFrom_nonneg (s : string) (b : bool) : 0 <= runsFrom b s.
Proof.
  revert b. induction s as [|c r IH]; intros b; cbn [runsFrom]; [lia|].
  destruct (isWhiteSpace c); [apply IH|].
  pose proof (IH true). destruct b; lia.
Qed.

(** *** Bullets *)

Lemma bullets_count (s : string) :
  (forall prev, matchCount reBullet 0 prev s
                = stars s + dashesAfterBreak s) /\
  (forall prev, match s with
                | String d _ => code d = 45
                | EmptyString => False
                end ->
                matchCount reBullet 1 prev s = stars s + dashesAfterBreak s).
Proof.
  induction s as [|c r [IH0 IH1]].
  - split; [reflexivity|]. intros _ [].
  - split.
    + intros prev. cbn [matchCount stars dashesAfterBreak].
      unfold reBullet at 1. fold (isBreak c).
      destruct (isBreak c) eqn:B.
      * assert (S : (code c =? 42) = false).
        { unfold isBreak in B. apply orb_true_iff in B.
          rewrite !Z.eqb_eq in B. apply Z.eqb_neq. lia. }
        rewrite S. cbn [andb].
        destruct r as [|d r'].
        -- cbn. reflexivity.
        -- destruct (Z.eqb_spec (code d) 45) as [D|D].
           ++ cbn [Nat.pred]. rewrite IH1 by exact D. lia.
           ++ rewrite IH0. lia.
      * cbn [andb]. destruct (code c =? 42); rewrite IH0; lia.
    + intros prev D. cbn [matchCount stars dashesAfterBreak].
      rewrite IH0. unfold isBreak. rewrite D.
      change (45 =? 42) with false. change (45 =? 10) with false.
      change (45 =? 13) with false. cbn [orb andb]. lia.
Qed.

Lemma bulletIndicators_count (text : string) :
  bulletIndicators text = stars text + dashesAfterBreak text.
Proof. apply (proj1 (bullets_count text)). Qed.

Lemma stars_nonneg (s : string) : 0 <= stars s.
Proof.
  induction s as [|c r IH]; cbn [stars]; [lia|].
  destruct (code c =? 42); lia.
Qed.

Lemma dashes_nonneg (s : string) : 0 <= dashesAfterBreak s.
Proof.
  induction s as [|c r IH]; cbn [dashesAfterBreak]; [lia|].
  destruct (_ && _); lia.
Qed.

End TokenFacts.

(** ** Number tokens *)

Module NumberFacts.
Import Js Quality Tokens.
Local Open Scope string_scope.
Local Open Scope Z_scope.

Lemma digit_is_word (c : ascii) : isDigit c = true -> isWordChar c = true.
Proof.
  intros H. unfold isWordChar. rewrite H.
  rewrite orb_true_r. reflexivity.
Qed.

Lemma get_in_run (s : string) (i : nat) :
  (i < digitRun s)%nat -> isWord (String.get i s) = true.
Proof.
  revert i. induction s as [|c r IH]; intros i H; cbn [digitRun] in H;
    [lia|].
  destruct (isDigit c) eqn:D; [|lia].
  destruct i as [|i]; cbn [String.get isWord].
  - apply digit_is_word. exact D.
  - apply IH. lia.
Qed.

Lemma giveBack_inside (s : string) (k : nat) :
  (k < digitRun s)%nat -> giveBack k s = None.
Proof.
  induction k as [|k IH]; intros H; [reflexivity|].
  cbn [giveBack]. unfold wordBoundary.
  rewrite (get_in_run s k), (get_in_run s (S k)) by lia.
  cbn [xorb]. apply IH. lia.
Qed.

Lemma giveBack_run (s : string) :
  giveBack (digitRun s) s
  = match digitRun s with
    | O => None
    | S _ => if isWord (String.get (digitRun s) s) then None
             else Some (digitRun s)
    end.
Proof.
  destruct (digitRun s) as [|n] eqn:E; [reflexivity|].
  cbn [giveBack]. unfold wordBoundary.
  rewrite (get_in_run s n) by lia. cbn [xorb].
  destruct (isWord (String.get (S n) s)); cbn [negb]; [|reflexivity].
  apply giveBack_inside. lia.
Qed.

(** A run of digits that a word character follows closes no token. *)
Lemma run_before_word (r : string) :
  isWord (String.get (digitRun r) r) = true ->
  digitTokensFrom (Some true) r = digitTokensFrom (Some false) r.
Proof.
  induction r as [|d r IH]; cbn [digitRun].
  - cbn. discriminate.
  - destruct (isDigit d) eqn:D.
    + cbn [String.get]. intros H. cbn [digitTokensFrom].
      rewrite (digit_is_word d D), D. cbn [andb]. apply IH. exact H.
    + cbn [String.get isWord]. intros H. cbn [digitTokensFrom].
      rewrite H, D. reflexivity.
Qed.

Lemma numbers_count (s : string) :
  (forall prev, isWord prev = false ->
     matchCount reNumber 0 prev s = digitTokensFrom None s) /\
  (forall prev, isWord prev = true ->
     matchCount reNumber 0 prev s = digitTokensFrom (Some false) s) /\
  (forall prev, isWord (String.get (digitRun s) s) = false ->
     matchCount reNumber (digitRun s) prev s
     = digitTokensFrom (Some true) s - 1).
Proof.
  induction s as [|c r (IHA & IHB & IHC)].
  - repeat split; intros; reflexivity.
  - split; [|split].
    + intros prev P. cbn [matchCount digitTokensFrom].
      unfold reNumber at 1, wordBoundary. cbn [head String.get].
      rewrite P. cbn [isWord xorb].
      destruct (isWordChar c) eqn:Wc.
      * rewrite giveBack_run. cbn [digitRun].
        destruct (isDigit c) eqn:D.
        -- cbn [String.get].
           destruct (isWord (String.get (digitRun r) r)) eqn:N.
           ++ rewrite (IHB (Some c)) by exact Wc.
              symmetry. apply run_before_word. exact N.
           ++ cbn [Nat.pred]. rewrite (IHC (Some c) eq_refl). lia.
        -- apply IHB. exact Wc.
      * cbn [closes]. rewrite (IHA (Some c)) by exact Wc. lia.
    + intros prev P. cbn [matchCount digitTokensFrom].
      unfold reNumber at 1, wordBoundary. cbn [head String.get].
      rewrite P. cbn [isWord xorb].
      destruct (isWordChar c) eqn:Wc; cbn [negb andb].
      * apply IHB. exact Wc.
      * rewrite giveBack_run. cbn [digitRun].
        destruct (isDigit c) eqn:D;
          [rewrite (digit_is_word c D) in Wc; discriminate|].
        cbn [closes]. rewrite (IHA (Some c)) by exact Wc. lia.
    + intros prev. cbn [digitRun].
      destruct (isDigit c) eqn:D.
      * cbn [String.get matchCount digitTokensFrom]. intros N.
        rewrite (digit_is_word c D), D. cbn [andb].
        apply IHC. exact N.
      * cbn [String.get isWord]. intros N.
        cbn [matchCount digitTokensFrom].
        unfold reNumber at 1, wordBoundary. cbn [head String.get].
        cbn [isWord]. rewrite N. rewrite giveBack_run. cbn [digitRun]. rewrite D.
        cbn [closes].
        assert (E : (if xorb (isWord prev) false then @None nat else None)
                    = None) by (destruct (xorb _ _); reflexivity).
        rewrite E. rewrite (IHA (Some c)) by exact N. lia.
Qed.

Lemma numbers_tokens (text : string) : numbers text = digitTokens text.
Proof. apply (proj1 (numbers_count text)). reflexivity. Qed.

Lemma digitTokens_nonneg (s : string) (state : option bool) :
  0 <= digitTokensFrom state s.
Proof.
  revert state. induction s as [|c r IH]; intros state;
    cbn [digitTokensFrom].
  - destruct state as [[|]|]; cbn; lia.
  - destruct (isWordChar c); [apply IH|].
    pose proof (IH None). destruct state as [[|]|]; cbn [closes]; lia.
Qed.

End NumberFacts.

(** ** Letter case *)

Module CaseFacts.
Import Js Quality Tokens TokenFacts NumberFacts.
Local Open Scope string_scope.
Local Open Scope Z_scope.
















End CaseFacts.

(** ** Bounds of the score *)

Module ScoreFacts.
Import Js Quality Tokens TokenFacts NumberFacts QualityFacts.
Local Open Scope string_scope.
Local Open Scope Z_scope.

Lemma countWords_nonneg (text : string) : 0 <= countWords text.
Proof. unfold countWords. lia. Qed.

Lemma scoreSpecificity_range (text : string) : 0 <= scoreSpecificity text <= 3.
Proof.
  unfold scoreSpecificity. rewrite numbers_tokens, bulletIndicators_count.
  pose proof (digitTokens_nonneg text None).
  pose proof (stars_nonneg text). pose proof (dashes_nonneg text).
  unfold digitTokens. lia.
Qed.

(** Four times the score is an integer. *)
Lemma score_as_quarters (text : string) :
  truthy (Some text) = true ->
  (calculateQualityScore (Some text)
   == inject_Z (60 * scoreCompleteness text + 40 * scoreSpecificity text
                + Z.min (countWords text) 120) / 4)%Q.
Proof.
  intros T. unfold calculateQualityScore. rewrite T.
  cbn [negb]. cbv zeta.
  rewrite !inject_Z_plus, !inject_Z_mult. field.
Qed.

Lemma quarters_le (a : Z) (b : Q) (n : Z) :
  (b == inject_Z n / 4)%Q -> Qle_bool (inject_Z a) b = (4 * a <=? n).
Proof.
  intros E.
  destruct (Z.leb_spec (4 * a) n) as [L|G].
  - apply Qle_bool_iff. rewrite E.
    unfold Qdiv. change (/ 4)%Q with (1 # 4)%Q.
    apply inject_Z_le in L. rewrite inject_Z_mult in L.
    change (inject_Z 4) with 4%Q in L. lra.
  - apply not_true_iff_false. rewrite Qle_bool_iff, E.
    unfold Qdiv. change (/ 4)%Q with (1 # 4)%Q.
    assert (L : n + 1 <= 4 * a) by lia.
    apply inject_Z_le in L. rewrite inject_Z_plus, inject_Z_mult in L.
    change (inject_Z 4) with 4%Q in L. change (inject_Z 1) with 1%Q in L.
    lra.
Qed.

(** The label, from the three components as integers. *)
Lemma classify_by_components (text : string) :
  truthy (Some text) = true ->
  classifyCheckinQuality (Some text)
  = let total := 60 * scoreCompleteness text + 40 * scoreSpecificity text
                 + Z.min (countWords text) 120 in
    if 320 <=? total then "Strong"
    else if 160 <=? total then "Medium" else "Weak".
Proof.
  intros T. unfold classifyCheckinQuality. cbv zeta.
  pose proof (score_as_quarters text T) as E.
  change STRONG_THRESHOLD with (inject_Z 80).
  change MEDIUM_THRESHOLD with (inject_Z 40).
  rewrite (quarters_le 80 _ _ E), (quarters_le 40 _ _ E). reflexivity.
Qed.

End ScoreFacts.

(** ** Tables built in the order of first occurrence *)

Module TableFacts.
Import Js Agent Handlers Told.
Local Open Scope string_scope.
Local Open Scope Z_scope.

Lemma firstOccurrences_spec (l seen : list string) :
  NoDup (firstOccurrences seen l) /\
  forall x, In x (firstOccurrences seen l) <-> In x l /\ ~ In x seen.
Proof.
  revert seen. induction l as [|y r IH]; intros seen; cbn [firstOccurrences].
  - split; [constructor|]. intros x. cbn. tauto.
  - destruct (existsb (String.eqb y) seen) eqn:E.
    + destruct (IH seen) as [N I]. split; [exact N|].
      intros x. rewrite I. cbn [In]. split; [tauto|].
      intros [[<-|H] S]; [|tauto].
      exfalso. apply S. apply existsb_exists in E.
      destruct E as (z & Hz & Ez). apply String.eqb_eq in Ez. subst z.
      exact Hz.
    + destruct (IH (y :: seen)) as [N I].
      assert (Hy : ~ In y seen).
      { intros H. apply not_true_iff_false in E. apply E.
        apply existsb_exists. exists y. split; [exact H|].
        apply String.eqb_refl. }
      split.
      * constructor; [|exact N]. rewrite I. cbn [In]. tauto.
      * intros x. cbn [In]. rewrite I. cbn [In]. split.
        -- intros [<-|[H S]]; [tauto|]. tauto.
        -- intros [[<-|H] S]; [tauto|].
           destruct (string_dec y x) as [->|Ne]; [tauto|]. tauto.
Qed.

Lemma firstOccurrences_snoc (l seen : list string) (x : string) :
  firstOccurrences seen (l ++ [x])
  = (firstOccurrences seen l
     ++ if existsb (String.eqb x) (seen ++ l) then [] else [x])%list.
Proof.
  revert seen. induction l as [|y r IH]; intros seen.
  - cbn [app firstOccurrences]. rewrite app_nil_r.
    destruct (existsb (String.eqb x) seen); reflexivity.
  - cbn [app firstOccurrences].
    assert (P : forall s, existsb (String.eqb x) (s ++ y :: r)
                          = existsb (String.eqb x) ((y :: s) ++ r)).
    { intros s. rewrite !existsb_app. cbn [existsb].
      destruct (String.eqb x y), (existsb (String.eqb x) s),
        (existsb (String.eqb x) r); reflexivity. }
    destruct (existsb (String.eqb y) seen) eqn:E.
    + rewrite IH. f_equal.
      rewrite (P seen). cbn [app existsb]. rewrite !existsb_app.
      destruct (String.eqb_spec x y) as [->|Ne]; [|reflexivity].
      rewrite E. reflexivity.
    + rewrite IH. cbn [app]. f_equal. f_equal. rewrite (P seen).
      reflexivity.
Qed.

Section Keyed.

Variable E V : Type.
Variable key : E -> string.
Variable init : E -> V.
Variable upd : V -> E -> V.

(** The value filed under name [k] after the entries [l]. *)
Variable val : string -> list E -> V.

Hypothesis val_snoc :
  forall k l e,
    val k (l ++ [e])
    = if String.eqb k (key e)
      then if existsb (String.eqb k) (map key l) then upd (val k l) e
           else init e
      else val k l.

Local Abbreviation update :=
  (fix update (m : list (string * V)) (e : E) : list (string * V) :=
     match m with
     | [] => [(key e, init e)]
     | (k, v) :: m' =>
         if String.eqb k (key e) then (k, upd v e) :: m'
         else (k, v) :: update m' e
     end).

Lemma update_table (names : list string) (l : list E) (e : E) :
  NoDup names ->
  (forall k, In k names -> existsb (String.eqb k) (map key l) = true) ->
  update (map (fun k => (k, val k l)) names) e
  = (map (fun k => (k, val k (l ++ [e]))) names
     ++ if existsb (String.eqb (key e)) names then []
        else [(key e, init e)])%list.
Proof.
  induction names as [|n ns IH]; intros N H; [reflexivity|].
  inversion N as [|? ? Hn Hns]; subst.
  cbn [map existsb app]. rewrite (val_snoc n l e).
  rewrite (H n (or_introl eq_refl)).
  destruct (String.eqb_spec n (key e)) as [Ek|Nk].
  - rewrite String.eqb_sym. rewrite <- Ek, String.eqb_refl. cbn [orb].
    rewrite app_nil_r. f_equal.
    apply map_ext_in. intros k Hk. rewrite (val_snoc k l e).
    destruct (String.eqb_spec k (key e)) as [Ek'|]; [|reflexivity].
    exfalso. apply Hn. congruence.
  - rewrite String.eqb_sym.
    destruct (String.eqb_spec n (key e)) as [|_]; [contradiction|].
    cbn [orb]. rewrite IH; [reflexivity|assumption|].
    intros k Hk. apply H. right. exact Hk.
Qed.

Lemma fold_table (l : list E) :
  fold_left update l []
  = map (fun k => (k, val k l)) (firstOccurrences [] (map key l)).
Proof.
  induction l as [|e l IH] using rev_ind; [reflexivity|].
  rewrite fold_left_app. cbn [fold_left]. rewrite IH.
  destruct (firstOccurrences_spec (map key l) []) as [N I].
  rewrite update_table.
  - rewrite map_app. cbn [map]. rewrite firstOccurrences_snoc.
    cbn [app]. rewrite map_app. f_equal.
    assert (Q : existsb (String.eqb (key e))
                        (firstOccurrences [] (map key l))
                = existsb (String.eqb (key e)) (map key l)).
    { apply eq_true_iff_eq. rewrite !existsb_exists. split.
      - intros (x & Hx & Ex). exists x. split; [|exact Ex].
        apply I in Hx. apply Hx.
      - intros (x & Hx & Ex). exists x. split; [|exact Ex].
        apply I. split; [exact Hx|]. intros []. }
    rewrite Q.
    destruct (existsb (String.eqb (key e)) (map key l)) eqn:X;
      [reflexivity|].
    cbn [map]. rewrite val_snoc, String.eqb_refl, X. reflexivity.
  - exact N.
  - intros k Hk. apply I in Hk. destruct Hk as [Hk _].
    apply existsb_exists. exists k. split; [exact Hk|apply String.eqb_refl].
Qed.

End Keyed.

End TableFacts.

(** ** The handlers *)

Module HandlerFacts.
Import Js Agent Handlers Told TableFacts ListFacts WindowFacts WeekFacts
  CalendarFacts.
Local Open Scope string_scope.
Local Open Scope Z_scope.

(** *** The map of [answerYesterday] *)

Local Abbreviation lift :=
  (fun e : string * option string => (Some (fst e), snd e)).

Local Abbreviation record :=
  (fun (m : JsMap.t (option string)) (entry : Checkin.t) =>
     JsMap.set m (Some (Checkin.user_id entry)) (Checkin.user_name entry)).

Local Abbreviation note :=
  (fix update (m : list (string * option string)) (e : Checkin.t)
     : list (string * option string) :=
     match m with
     | [] => [(Checkin.user_id e, Checkin.user_name e)]
     | (k, v) :: m' =>
         if String.eqb k (Checkin.user_id e)
         then (k, (fun _ e => Checkin.user_name e) v e) :: m'
         else (k, v) :: update m' e
     end).

Lemma record_lift (t : list (string * option string)) (e : Checkin.t) :
  record (map lift t) e = map lift (note t e).
Proof.
  induction t as [|[k v] t IH]; [reflexivity|].
  cbn [map JsMap.set fst snd JsMap.key_eqb].
  destruct (String.eqb k (Checkin.user_id e)); [reflexivity|].
  cbn [map fst snd]. f_equal. exact IH.
Qed.

Lemma record_fold (l : list Checkin.t) (t : list (string * option string)) :
  fold_left record l (map lift t) = map lift (fold_left note l t).
Proof.
  revert t. induction l as [|e l IH]; intros t; [reflexivity|].
  cbn [fold_left]. rewrite record_lift. apply IH.
Qed.

Lemma lastNameOf_snoc (k : string) (l : list Checkin.t) (e : Checkin.t) :
  lastNameOf (l ++ [e]) k
  = if String.eqb k (Checkin.user_id e)
    then if existsb (String.eqb k) (map Checkin.user_id l)
         then Checkin.user_name e else Checkin.user_name e
    else lastNameOf l k.
Proof.
  unfold lastNameOf. rewrite fold_left_app. cbn [fold_left].
  rewrite String.eqb_sym.
  destruct (String.eqb k (Checkin.user_id e)); [|reflexivity].
  destruct (existsb _ _); reflexivity.
Qed.

Lemma names_by_user (entries : list Checkin.t) :
  JsMap.values (fold_left record entries [])
  = map (lastNameOf entries) (usersOf entries).
Proof.
  change (@nil (JsMap.key * option string)) with (map lift []).
  rewrite record_fold.
  rewrite (fold_table Checkin.t (option string) Checkin.user_id
             Checkin.user_name (fun _ e => Checkin.user_name e)
             (fun k l => lastNameOf l k) lastNameOf_snoc entries).
  unfold JsMap.values, usersOf. rewrite !map_map. reflexivity.
Qed.

(** *** Missing students *)

Lemma rosterProvided_cases (this : Agent.t) :
  rosterProvided this = match roster this with
                        | [] => false
                        | _ :: _ => true
                        end.
Proof.
  unfold rosterProvided, Agent.length.
  destruct (roster this); [reflexivity|].
  cbn [List.length]. apply Z.ltb_lt. lia.
Qed.

Lemma rosterNote_told (this : Agent.t) :
  rosterNote this = noteWithoutRoster this.
Proof.
  unfold rosterNote, noteWithoutRoster. rewrite rosterProvided_cases.
  destruct (roster this); reflexivity.
Qed.

Lemma missing_in_days (this : Agent.t) (a b : Z) :
  missingNames this
    (findMissingCheckins this (Some (a * Dayjs.msPerDay))
                         (Some (b * Dayjs.msPerDay + 86399999)))
  = absentees this (ofDays this a (b + 1 - a)).
Proof.
  unfold missingNames, absentees, findMissingCheckins. cbv zeta.
  rewrite rosterProvided_cases, range_of_days.
  destruct (roster this); reflexivity.
Qed.

Lemma missing_in_empty_window (this : Agent.t) (start end_ : Dayjs.t) :
  getCheckinsByDateRange this start end_ = [] ->
  missingNames this (findMissingCheckins this start end_)
  = absentees this [].
Proof.
  intros H. unfold missingNames, absentees, findMissingCheckins. cbv zeta.
  rewrite rosterProvided_cases, H. destruct (roster this); reflexivity.
Qed.

Lemma nothing_since_invalid (this : Agent.t) (end_ : Dayjs.t) :
  getCheckinsByDateRange this None end_ = [].
Proof.
  unfold getCheckinsByDateRange.
  induction (checkins this) as [|c cs IH]; [reflexivity|].
  cbn [filter]. unfold Dayjs.isSameOrAfter at 1, Dayjs.valueLe at 1.
  destruct (Checkin.timestamp c); cbn [andb]; exact IH.
Qed.

(** *** The week of [now] *)

Lemma this_week_start (now : Z) :
  Dayjs.startOfIsoWeek (Some now) = Some (mondayOf now * Dayjs.msPerDay).
Proof. apply startOfIsoWeek_value. Qed.

Lemma this_week_end (now : Z) :
  Dayjs.endOfDay (Dayjs.addDays 6 (Dayjs.startOfIsoWeek (Some now)))
  = Some ((mondayOf now + 6) * Dayjs.msPerDay + 86399999).
Proof.
  rewrite this_week_start, addDays_value, endOfDay_value.
  replace (mondayOf now * Dayjs.msPerDay + 6 * Dayjs.msPerDay)
    with ((mondayOf now + 6) * Dayjs.msPerDay + 0) by lia.
  rewrite Day_shift by (unfold Dayjs.msPerDay; lia). reflexivity.
Qed.

(** *** The ranking *)

Lemma insert_permutation (x : Ranking.t) (l : list Ranking.t) :
  Permutation (x :: l) (insertByAverage x l).
Proof.
  induction l as [|y r IH]; [apply Permutation_refl|].
  cbn [insertByAverage]. destruct (Qle_bool _ _); [|apply Permutation_refl].
  apply perm_trans with (y :: x :: r); [apply perm_swap|].
  apply perm_skip. exact IH.
Qed.

Lemma insert_descending (x : Ranking.t) (l : list Ranking.t) :
  descending l -> descending (insertByAverage x l).
Proof.
  unfold descending.
  induction l as [|y r IH]; intros S.
  - cbn. constructor; constructor.
  - apply StronglySorted_inv in S. destruct S as [Sr Fy].
    cbn [insertByAverage].
    destruct (Qle_bool (Ranking.average_quality_score x)
                       (Ranking.average_quality_score y)) eqn:C.
    + constructor; [apply IH; exact Sr|].
      apply (Permutation_Forall (insert_permutation x r)).
      constructor; [apply Qle_bool_iff; exact C|exact Fy].
    + assert (L : (Ranking.average_quality_score y
                   <= Ranking.average_quality_score x)%Q).
      { apply not_true_iff_false in C. rewrite Qle_bool_iff in C.
        apply Qlt_le_weak, Qnot_le_lt. exact C. }
      constructor; [constructor; assumption|].
      constructor; [exact L|].
      apply Forall_forall. intros z Hz. rewrite Forall_forall in Fy.
      apply Qle_trans with (Ranking.average_quality_score y);
        [apply Fy; exact Hz|exact L].
Qed.

Lemma sort_from (l acc : list Ranking.t) :
  descending acc ->
  descending (fold_left (fun sorted x => insertByAverage x sorted) l acc) /\
  Permutation (fold_left (fun sorted x => insertByAverage x sorted) l acc)
              (acc ++ l).
Proof.
  revert acc. induction l as [|x l IH]; intros acc S; cbn [fold_left].
  - rewrite app_nil_r. split; [exact S|apply Permutation_refl].
  - destruct (IH (insertByAverage x acc) (insert_descending x acc S))
      as [D P].
    split; [exact D|].
    apply perm_trans with (insertByAverage x acc ++ l)%list; [exact P|].
    apply perm_trans with ((x :: acc) ++ l)%list.
    + apply Permutation_app_tail, Permutation_sym, insert_permutation.
    + cbn [app]. apply Permutation_middle.
Qed.

Lemma sortByAverage_spec (l : list Ranking.t) :
  descending (sortByAverage l) /\ Permutation (sortByAverage l) l.
Proof.
  destruct (sort_from l [] (SSorted_nil _)) as [D P].
  split; assumption.
Qed.

Lemma ranking_checkins (this : Agent.t) (start end_ : Dayjs.t)
      (student : Student.t) :
  Ranking.checkins (rankingOf this start end_ student)
  = Agent.length
      (getCheckinsForUser this (Student.id student) (Some (start, end_))).
Proof.
  unfold rankingOf, summarizeRange. cbv zeta. cbn [Ranking.checkins].
  destruct (getCheckinsForUser this (Student.id student)
              (Some (start, end_))); reflexivity.
Qed.

(** *** The grouping of [answerDateRangeListing] *)

Local Abbreviation file :=
  (fix update (m : Groups) (e : Checkin.t) : Groups :=
     match m with
     | [] => [(groupName e, [itemOf e])]
     | (k, v) :: m' =>
         if String.eqb k (groupName e)
         then (k, (fun v e => (v ++ [itemOf e])%list) v e) :: m'
         else (k, v) :: update m' e
     end).

Lemma groupEntry_files (g : Groups) (e : Checkin.t) :
  groupEntry g e
  = match lookup g (groupName e) with
    | Some _ => Ok (file g e)
    | None => if inheritedName e then Throw TypeError else Ok (file g e)
    end.
Proof.
  unfold groupEntry. cbv zeta. fold (groupName e). fold (itemOf e).
  fold (inheritedName e).
  assert (P : forall g,
             match lookup g (groupName e) with
             | Some _ => push g (groupName e) (itemOf e) = file g e
             | None => (g ++ [(groupName e, [itemOf e])])%list = file g e
             end).
  { clear g. induction g as [|[k v] g IH]; [reflexivity|].
    cbn [lookup push app].
    destruct (String.eqb k (groupName e)); [reflexivity|].
    destruct (lookup g (groupName e)); rewrite IH; reflexivity. }
  specialize (P g).
  destruct (lookup g (groupName e)); [rewrite P; reflexivity|].
  destruct (inheritedName e); [reflexivity|rewrite P; reflexivity].
Qed.

Lemma lookup_none (g : Groups) (k : string) :
  ~ In k (map fst g) -> lookup g k = None.
Proof.
  induction g as [|[k' v] g IH]; intros H; [reflexivity|].
  cbn [lookup]. cbn [map fst In] in H.
  destruct (String.eqb_spec k' k) as [E|_]; [tauto|].
  apply IH. tauto.
Qed.

Lemma file_names (g : Groups) (e : Checkin.t) (k : string) :
  In k (map fst (file g e)) -> In k (map fst g) \/ k = groupName e.
Proof.
  induction g as [|[k' v] g IH]; cbn [map fst In].
  - intros [<-|[]]. right. reflexivity.
  - destruct (String.eqb k' (groupName e)); cbn [map fst In].
    + tauto.
    + intros [H|H]; [tauto|]. apply IH in H. tauto.
Qed.

Lemma thrown_stays (entries : list Checkin.t) :
  fold_left (fun grouped entry => bind grouped (fun g => groupEntry g entry))
            entries (Throw TypeError)
  = Throw TypeError.
Proof. induction entries as [|e l IH]; [reflexivity|exact IH]. Qed.

Lemma group_fold (entries : list Checkin.t) (g : Groups) :
  (forall k, In k (map fst g) ->
             existsb (String.eqb k) objectPrototype = false) ->
  fold_left (fun grouped entry => bind grouped (fun g => groupEntry g entry))
            entries (Ok g)
  = if existsb inheritedName entries then Throw TypeError
    else Ok (fold_left file entries g).
Proof.
  revert g. induction entries as [|e l IH]; intros g H; [reflexivity|].
  cbn [fold_left bind existsb]. rewrite groupEntry_files.
  destruct (inheritedName e) eqn:I; cbn [orb].
  - rewrite lookup_none; [apply thrown_stays|].
    intros K. apply H in K. unfold inheritedName in I. congruence.
  - assert (E : match lookup g (groupName e) with
                | Some _ => Ok (file g e)
                | None => Ok (file g e)
                end = Ok (file g e))
      by (destruct (lookup g (groupName e)); reflexivity).
    rewrite E. apply IH. intros k Hk.
    apply file_names in Hk. destruct Hk as [Hk| ->]; [apply H; exact Hk|].
    exact I.
Qed.

Lemma items_snoc (k : string) (l : list Checkin.t) (e : Checkin.t) :
  map itemOf (filter (fun entry => String.eqb (groupName entry) k)
                     (l ++ [e]))
  = if String.eqb k (groupName e)
    then if existsb (String.eqb k) (map groupName l)
         then (map itemOf
                   (filter (fun entry => String.eqb (groupName entry) k) l)
               ++ [itemOf e])%list
         else [itemOf e]
    else map itemOf
             (filter (fun entry => String.eqb (groupName entry) k) l).
Proof.
  rewrite filter_app, map_app. cbn [filter]. rewrite (String.eqb_sym k).
  destruct (String.eqb (groupName e) k); cbn [map];
    [|apply app_nil_r].
  destruct (existsb (String.eqb k) (map groupName l)) eqn:X; [reflexivity|].
  assert (N : filter (fun entry => String.eqb (groupName entry) k) l = []).
  { induction l as [|x l IH]; [reflexivity|].
    cbn [map existsb] in X. apply orb_false_iff in X. destruct X as [X1 X2].
    cbn [filter]. rewrite String.eqb_sym, X1. apply IH. exact X2. }
  rewrite N. reflexivity.
Qed.

Lemma grouping (entries : list Checkin.t) :
  fold_left (fun grouped entry => bind grouped (fun g => groupEntry g entry))
            entries (Ok [])
  = if existsb inheritedName entries then Throw TypeError
    else Ok (groupsOf entries).
Proof.
  rewrite group_fold by (intros k []).
  destruct (existsb inheritedName entries); [reflexivity|]. f_equal.
  apply (fold_table Checkin.t (list Item.t) groupName
           (fun e => [itemOf e]) (fun v e => (v ++ [itemOf e])%list)
           (fun k l =>
              map itemOf
                  (filter (fun entry => String.eqb (groupName entry) k) l))
           items_snoc entries).
Qed.

Lemma listing_value
      (now : Z) (parseIsoStrict : string -> Dayjs.t) (this : Agent.t)
      (question startToken endToken : string) (start end_ : Dayjs.t) :
  matchBetween question = Some (startToken, endToken) ->
  parseDateToken now parseIsoStrict startToken None = Some start ->
  parseDateToken now parseIsoStrict endToken (Some start) = Some end_ ->
  answerDateRangeListing now parseIsoStrict this question
  = if existsb inheritedName
         (getCheckinsByDateRange this (Dayjs.startOfDay start)
                                 (Dayjs.endOfDay end_))
    then Throw TypeError
    else Ok (Payload.listing question
               (Dayjs.formatIsoDate start) (Dayjs.formatIsoDate end_)
               (groupsOf (getCheckinsByDateRange this
                            (Dayjs.startOfDay start)
                            (Dayjs.endOfDay end_)))).
Proof.
  intros Hm Hs He. unfold answerDateRangeListing.
  rewrite Hm, Hs, He. cbv zeta. rewrite grouping.
  destruct (existsb inheritedName _); reflexivity.
Qed.

End HandlerFacts.

(** ** The interpreter as a whole *)

Module AnswerFacts.
Import Js Agent Handlers Told StudentFacts BlockerFacts HandlerFacts
  DashboardFacts.
Local Open Scope string_scope.
Local Open Scope Z_scope.

Lemma answer_does_not_throw
      (now : Z) (parseIsoStrict : string -> Dayjs.t)
      (records : list Checkin.t) (roster : list Roster.entry)
      (question : string) :
  forallb Notions.nameable roster = true ->
  forallb Spec.hasText records = true ->
  forallb (fun c => negb (inheritedName c)) records = true ->
  throws (answer now parseIsoStrict (constructor records roster) question)
  = false.
Proof.
  intros Hn Ht Hi. set (this := constructor records roster).
  assert (Tx : forallb Spec.hasText (checkins this) = true).
  { unfold this, constructor. cbn [checkins]. rewrite forallb_forall in *.
    intros c Hc. apply in_map_iff in Hc. destruct Hc as (r & <- & Hr).
    specialize (Ht r Hr). destruct r. exact Ht. }
  assert (In_ : forall start end_,
             existsb inheritedName
                     (getCheckinsByDateRange this start end_) = false).
  { intros start end_. apply not_true_iff_false. intros K.
    apply existsb_exists in K. destruct K as (c & Hc & K).
    unfold getCheckinsByDateRange in Hc. apply filter_In in Hc.
    destruct Hc as [Hc _]. unfold this, constructor in Hc.
    cbn [checkins] in Hc.
    apply in_map_iff in Hc. destruct Hc as (r & <- & Hr).
    rewrite forallb_forall in Hi. specialize (Hi r Hr).
    apply negb_true_iff in Hi. destruct r.
    unfold inheritedName, groupName in *.
    cbn [Checkin.withQuality Checkin.user_name] in *. congruence. }
  unfold answer, answerQuestion. cbv zeta.
  repeat match goal with
         | |- context [if ?b then _ else _] => destruct b
         end; try reflexivity.
  - apply named_roster_answers. exact Hn.
  - unfold report, answerDateRangeListing.
    destruct (matchBetween question) as [[a b]|]; [|reflexivity].
    destruct (parseDateToken now parseIsoStrict a None) as [start|];
      [|reflexivity].
    destruct (parseDateToken now parseIsoStrict b (Some start)) as [end_|];
      [|reflexivity].
    cbv zeta. rewrite grouping, In_. reflexivity.
  - unfold report, answerBlockersThisWeek. cbv zeta.
    rewrite extractBlockers_value. unfold getCheckinsByDateRange.
    rewrite (forallb_filter Spec.hasText _ (checkins this) Tx).
    reflexivity.
Qed.

End AnswerFacts.

(** ** The controllers *)

Module ControllerFacts.
Import Js Agent Controller Asked.
Local Open Scope string_scope.
Local Open Scope Z_scope.

Lemma ensureCheckin_value (item : RawCheckin.t) :
  ensureCheckin item
  = if complete item then Returned (accepted item)
    else badRequest
           "Each check-in entry must include message_id, user_id, and timestamp.".
Proof.
  unfold ensureCheckin, complete, accepted.
  destruct item as [m u n t c q]. cbn [RawCheckin.message_id
    RawCheckin.user_id RawCheckin.timestamp RawCheckin.user_name
    RawCheckin.message_content RawCheckin.quality].
  destruct m as [m|], u as [u|], t as [t|]; cbn [truthy Spec.given andb textOf];
    try reflexivity;
    try (destruct (negb (String.eqb m EmptyString)); reflexivity).
  - destruct (negb (String.eqb m EmptyString)),
      (negb (String.eqb u EmptyString)); reflexivity.
  - destruct (negb (String.eqb m EmptyString)),
      (negb (String.eqb u EmptyString)); reflexivity.
Qed.

Lemma mapOutcome_value (l : list RawCheckin.t) :
  mapOutcome ensureCheckin l
  = if forallb complete l then Returned (map accepted l)
    else badRequest
           "Each check-in entry must include message_id, user_id, and timestamp.".
Proof.
  induction l as [|x l IH]; [reflexivity|].
  cbn [mapOutcome forallb map]. rewrite ensureCheckin_value.
  destruct (complete x); cbn [andThen andb]; [|reflexivity].
  rewrite IH. destruct (forallb complete l); reflexivity.
Qed.

(** The records that reach the agent. *)
Lemma ensureCheckins_value (checkins : arrayField RawCheckin.t) :
  ensureCheckins checkins
  = if badCheckins checkins then
      badRequest
        (match checkins with
         | NoArray => "checkins must be an array."
         | _ => "Each check-in entry must include message_id, user_id, and timestamp."
         end)
    else Returned (match checkins with
                   | Items l => map accepted l
                   | _ => []
                   end).
Proof.
  unfold ensureCheckins, ensureArray, badCheckins.
  destruct checkins as [| | |l]; try reflexivity.
  cbn [andThen]. rewrite mapOutcome_value.
  destruct (forallb complete l); reflexivity.
Qed.

End ControllerFacts.

(** ** The transformer *)

Module TransformerFacts.
Import Js Transformer Sent RosterFacts.
Local Open Scope string_scope.
Local Open Scope Z_scope.

Lemma get_has {V} (m : JsMap.t V) (k : JsMap.key) :
  JsMap.has m k = match get m k with Some _ => true | None => false end.
Proof.
  induction m as [|[k' v] m IH]; [reflexivity|].
  unfold JsMap.has in *. cbn [existsb fst get].
  destruct (JsMap.key_eqb k' k); [reflexivity|exact IH].
Qed.

Lemma get_set {V} (m : JsMap.t V) (k k' : JsMap.key) (v : V) :
  get (JsMap.set m k v) k'
  = if JsMap.key_eqb k k' then Some v else get m k'.
Proof.
  induction m as [|[k0 v0] m IH]; cbn [JsMap.set get].
  - reflexivity.
  - destruct (JsMap.key_eqb k0 k) eqn:E0.
    + apply key_eqb_eq in E0. subst k0. cbn [get].
      destruct (JsMap.key_eqb k k'); reflexivity.
    + cbn [get]. rewrite IH.
      destruct (JsMap.key_eqb k0 k') eqn:E1; [|reflexivity].
      apply key_eqb_eq in E1. subst k0.
      destruct (JsMap.key_eqb k k') eqn:E2; [|reflexivity].
      apply key_eqb_eq in E2. subst k'. rewrite key_eqb_refl in E0.
      discriminate.
Qed.

Section Run.

Variable World : Type.
Variable usersInfo : World -> string -> World * option Slack.Info.t.
Variable configured : bool.

Local Abbreviation state := (state World).
Local Abbreviation normalizeOne := (normalizeOne World usersInfo configured).
Local Abbreviation normalizeFrom :=
  (normalizeFrom World usersInfo configured).
Local Abbreviation resolveUserName :=
  (resolveUserName World usersInfo configured).

Local Abbreviation kept := (kept World).

Lemma kept_start (w : World) : kept (mkState World w [] []) [].
Proof.
  constructor; cbn.
  - constructor.
  - intros u. unfold firstIsNameless. cbn. split; [intros []|].
    intros [_ H]. discriminate.
  - intros u _ H. discriminate.
  - intros k H. congruence.
  - intros k name H. discriminate.
Qed.

Lemma displayName_truthy (p : option Slack.Profile.t) (u : string) :
  truthy (Some u) = true -> truthy (Some (displayName p u)) = true.
Proof.
  intros H. unfold displayName. destruct p as [p|]; [|exact H].
  pose proof (StudentFacts.or_truthy
                (or (Slack.Profile.display_name p) (Slack.Profile.real_name p))
                (Some u)) as T.
  rewrite H, orb_true_r in T.
  destruct (or (or _ _) (Some u)) as [name|]; [exact T|exact H].
Qed.

Lemma find_snoc {A} (p : A -> bool) (l : list A) (x : A) :
  find p (l ++ [x])
  = match find p l with
    | Some y => Some y
    | None => if p x then Some x else None
    end.
Proof.
  induction l as [|y l IH]; cbn [app find]; [reflexivity|].
  destruct (p y); [reflexivity|exact IH].
Qed.

Lemma find_none_existsb {A} (p : A -> bool) (l : list A) :
  find p l = None <-> existsb p l = false.
Proof.
  induction l as [|y l IH]; cbn [find existsb]; [tauto|].
  destruct (p y); cbn [orb]; [split; discriminate|exact IH].
Qed.

Lemma firstIsNameless_snoc (u : string) (done : list Message.t)
      (m : Message.t) :
  firstIsNameless u (done ++ [m])
  = if existsb (sentBy u) done then firstIsNameless u done
    else sentBy u m && negb (truthy (profileName m)).
Proof.
  unfold firstIsNameless. rewrite find_snoc.
  destruct (find (sentBy u) done) as [y|] eqn:F.
  - assert (E : existsb (sentBy u) done = true).
    { apply not_false_iff_true. intros K.
      apply find_none_existsb in K. congruence. }
    rewrite E. reflexivity.
  - apply find_none_existsb in F. rewrite F.
    destruct (sentBy u m); reflexivity.
Qed.

(** One round keeps it. *)
Lemma kept_step (st : state) (done : list Message.t) (m : Message.t) :
  kept st done -> kept (fst (normalizeOne st m)) (done ++ [m]).
Proof.
  intros [K1 K2 K3 K4 K5].
  unfold Transformer.normalizeOne. cbv zeta. fold (profileName m).
  set (st1 := match profileName m with
              | Some name =>
                  if truthy (profileName m)
                  then mkState World (world World st)
                         (JsMap.set (cache World st) (Message.user m) name)
                         (fetched World st)
                  else st
              | None => st
              end).
  assert (F1 : fetched World st1 = fetched World st).
  { unfold st1. destruct (profileName m); [|reflexivity].
    destruct (truthy _); reflexivity. }
  assert (C1 : forall k,
             get (cache World st1) k
             = if truthy (profileName m) && JsMap.key_eqb (Message.user m) k
               then profileName m else get (cache World st) k).
  { intros k. unfold st1. destruct (profileName m) as [name|] eqn:P.
    - destruct (truthy (Some name)) eqn:T; cbn [andb]; [|reflexivity].
      cbn [cache]. rewrite get_set.
      destruct (JsMap.key_eqb (Message.user m) k); reflexivity.
    - reflexivity. }
  assert (N1 : forall k name,
             get (cache World st1) k = Some name ->
             truthy (Some name) = true).
  { intros k name. rewrite C1.
    destruct (truthy (profileName m) && JsMap.key_eqb (Message.user m) k)
      eqn:E.
    - intros H. apply andb_true_iff in E. destruct E as [E _].
      rewrite H in E. exact E.
    - apply K5. }
  assert (S1 : forall k, get (cache World st1) k <> None ->
                         exists x, In x (done ++ [m]) /\ Message.user x = k).
  { intros k. rewrite C1.
    destruct (truthy (profileName m) && JsMap.key_eqb (Message.user m) k)
      eqn:E.
    - intros _. apply andb_true_iff in E. destruct E as [_ E].
      apply key_eqb_eq in E. exists m. split; [|exact E].
      apply in_or_app. right. left. reflexivity.
    - intros H. destruct (K4 k H) as (x & Hx & Ex). exists x.
      split; [apply in_or_app; left; exact Hx|exact Ex]. }
  assert (X : forall u, existsb (sentBy u) (done ++ [m])
                        = existsb (sentBy u) done || sentBy u m).
  { intros u. rewrite existsb_app. cbn [existsb]. rewrite orb_false_r.
    reflexivity. }
  assert (Old : forall u, truthy (Some u) = true ->
                          existsb (sentBy u) done = false ->
                          get (cache World st) (Some u) = None).
  { intros u Tu E. destruct (get (cache World st) (Some u)) eqn:G;
      [|reflexivity].
    destruct (K4 (Some u)) as (x & Hx & Ex); [congruence|].
    exfalso. apply not_true_iff_false in E. apply E.
    apply existsb_exists. exists x. split; [exact Hx|].
    unfold sentBy. rewrite Ex. apply key_eqb_refl. }
  unfold Transformer.resolveUserName.
  destruct (Message.user m) as [u|] eqn:U.
  2:{ cbn [fst]. constructor.
      - rewrite F1. exact K1.
      - intros v. rewrite F1, K2, firstIsNameless_snoc.
        assert (Sv : sentBy v m = false) by (unfold sentBy; rewrite U;
                                             reflexivity).
        rewrite Sv. cbn [andb].
        destruct (existsb (sentBy v) done) eqn:E; [tauto|].
        unfold firstIsNameless.
        apply find_none_existsb in E. rewrite E. tauto.
      - intros v Tv. rewrite X.
        assert (Sv : sentBy v m = false) by (unfold sentBy; rewrite U;
                                             reflexivity).
        rewrite Sv, orb_false_r. intros E. rewrite C1.
        cbn [JsMap.key_eqb]. rewrite andb_false_r. apply K3; assumption.
      - exact S1.
      - exact N1. }
  destruct (truthy (Some u)) eqn:Tu; cbn [negb].
  2:{ cbn [fst]. constructor.
      - rewrite F1. exact K1.
      - intros v. rewrite F1, K2, firstIsNameless_snoc.
        destruct (existsb (sentBy v) done) eqn:E; [tauto|].
        unfold firstIsNameless at 1.
        apply find_none_existsb in E. rewrite E.
        split; [intros [_ H]; discriminate|].
        intros [Tv H]. apply andb_true_iff in H. destruct H as [H _].
        unfold sentBy in H. rewrite U in H. apply key_eqb_eq in H.
        congruence.
      - intros v Tv. rewrite X. intros E. rewrite C1.
        assert (Sv : JsMap.key_eqb (Some u) (Some v) = false).
        { apply not_true_iff_false. intros H. apply key_eqb_eq in H.
          congruence. }
        rewrite Sv, andb_false_r. apply K3; [exact Tv|].
        unfold sentBy in E. rewrite U, Sv, orb_false_r in E. exact E.
      - exact S1.
      - exact N1. }
  destruct (get (cache World st1) (Some u)) as [name|] eqn:G.
  - cbn [fst]. constructor.
    + rewrite F1. exact K1.
    + intros v. rewrite F1, K2, firstIsNameless_snoc.
      destruct (existsb (sentBy v) done) eqn:E; [tauto|].
      unfold firstIsNameless at 1.
      pose proof E as E'. apply find_none_existsb in E'. rewrite E'.
      split; [intros [_ H]; discriminate|].
      intros [Tv H]. apply andb_true_iff in H. destruct H as [H1 H2].
      unfold sentBy in H1. rewrite U in H1. apply key_eqb_eq in H1.
      injection H1 as <-. exfalso.
      rewrite C1 in G. apply negb_true_iff in H2. rewrite H2 in G.
      cbn [andb] in G. rewrite (Old u Tu E) in G. discriminate.
    + intros v Tv. rewrite X. intros E.
      destruct (existsb (sentBy v) done) eqn:D.
      * rewrite C1.
        destruct (truthy (profileName m) && JsMap.key_eqb (Some u) (Some v))
          eqn:B.
        -- apply andb_true_iff in B. destruct B as [B _].
           destruct (profileName m); [discriminate|discriminate].
        -- apply K3; assumption.
      * cbn [orb] in E. unfold sentBy in E. rewrite U in E.
        apply key_eqb_eq in E. injection E as <-. congruence.
    + exact S1.
    + exact N1.
  - destruct (Slack.fetchUserProfile World usersInfo configured
                (world World st1) u) as [w fetchedProfile].
    cbn [fst].
    assert (Nu : existsb (sentBy u) done = false).
    { destruct (existsb (sentBy u) done) eqn:D; [|reflexivity].
      exfalso. apply (K3 u Tu D). rewrite C1 in G.
      destruct (truthy (profileName m) && JsMap.key_eqb (Some u) (Some u))
        eqn:B; [|exact G].
      apply andb_true_iff in B. destruct B as [B _].
      rewrite G in B. discriminate. }
    assert (Pm : truthy (profileName m) = false).
    { rewrite C1, key_eqb_refl, andb_true_r in G.
      destruct (truthy (profileName m)) eqn:P; [|reflexivity].
      rewrite G in P. discriminate. }
    constructor; cbn [fetched cache].
    + rewrite F1. apply NoDup_app; [exact K1|repeat constructor; auto|].
      intros v Hv [<-|[]]. apply K2 in Hv. destruct Hv as [_ Hv].
      unfold firstIsNameless in Hv.
      apply find_none_existsb in Nu. rewrite Nu in Hv. discriminate.
    + intros v. rewrite F1, in_app_iff, K2, firstIsNameless_snoc.
      cbn [In]. rewrite Pm. cbn [negb]. rewrite andb_true_r.
      destruct (existsb (sentBy v) done) eqn:E.
      * split; [intros [H|[<-|[]]]; [exact H|congruence]|tauto].
      * unfold firstIsNameless.
        pose proof E as E'. apply find_none_existsb in E'. rewrite E'.
        unfold sentBy. rewrite U. split.
        -- intros [[_ H]|[<-|[]]]; [discriminate|].
           split; [exact Tu|apply key_eqb_refl].
        -- intros [_ H]. apply key_eqb_eq in H. injection H as <-.
           right. left. reflexivity.
    + intros v Tv. rewrite X. intros E. rewrite get_set.
      destruct (JsMap.key_eqb (Some u) (Some v)) eqn:B; [discriminate|].
      rewrite C1. rewrite B, andb_false_r. apply K3; [exact Tv|].
      unfold sentBy in E. rewrite U, B, orb_false_r in E. exact E.
    + intros k. rewrite get_set.
      destruct (JsMap.key_eqb (Some u) k) eqn:B.
      * intros _. apply key_eqb_eq in B. exists m.
        split; [apply in_or_app; right; left; reflexivity|].
        rewrite U. exact B.
      * apply S1.
    + intros k name. rewrite get_set.
      destruct (JsMap.key_eqb (Some u) k) eqn:B; [|apply N1].
      intros H. injection H as <-.
      destruct fetchedProfile as [p|]; [|exact Tu].
      apply displayName_truthy. exact Tu.
Qed.

Lemma normalizeOne_record (st : state) (done : list Message.t)
      (m : Message.t) :
  kept st done ->
  match snd (normalizeOne st m) with
  | Some r => convertible m = true /\ follows m r
  | None => convertible m = false
  end.
Proof.
  intros [K1 K2 K3 K4 K5].
  unfold Transformer.normalizeOne. cbv zeta. fold (profileName m).
  set (st1 := match profileName m with
              | Some name =>
                  if truthy (profileName m)
                  then mkState World (world World st)
                         (JsMap.set (cache World st) (Message.user m) name)
                         (fetched World st)
                  else st
              | None => st
              end).
  assert (C1 : forall k,
             get (cache World st1) k
             = if truthy (profileName m) && JsMap.key_eqb (Message.user m) k
               then profileName m else get (cache World st) k).
  { intros k. unfold st1. destruct (profileName m) as [name|] eqn:P.
    - destruct (truthy (Some name)) eqn:T; cbn [andb]; [|reflexivity].
      cbn [cache]. rewrite get_set.
      destruct (JsMap.key_eqb (Message.user m) k); reflexivity.
    - reflexivity. }
  assert (N : truthy (Some (snd (resolveUserName st1 (Message.user m))))
              = true /\
              (truthy (Message.user m) = false ->
               snd (resolveUserName st1 (Message.user m)) = "Unknown User")
              /\
              (truthy (Message.user m) = true ->
               truthy (profileName m) = true ->
               profileName m
               = Some (snd (resolveUserName st1 (Message.user m))))).
  { unfold Transformer.resolveUserName.
    destruct (Message.user m) as [u|] eqn:U;
      [|cbn [snd]; repeat split; try reflexivity; discriminate].
    destruct (truthy (Some u)) eqn:Tu; cbn [negb];
      [|cbn [snd]; repeat split; try reflexivity; discriminate].
    rewrite C1, key_eqb_refl, andb_true_r.
    destruct (truthy (profileName m)) eqn:P.
    - destruct (profileName m) as [name|]; [|discriminate].
      cbn [snd]. repeat split; [exact P|discriminate].
    - destruct (get (cache World st) (Some u)) as [name|] eqn:G.
      + cbn [snd]. repeat split; [apply (K5 _ _ G)|discriminate|discriminate].
      + destruct (Slack.fetchUserProfile World usersInfo configured
                    (world World st1) u) as [w [p|]]; cbn [snd];
          repeat split; try discriminate;
          [apply displayName_truthy; exact Tu|exact Tu]. }
  destruct (resolveUserName st1 (Message.user m)) as [st2 userName].
  cbn [snd] in *. unfold convertible.
  destruct (toIsoString (Message.ts m)) as [timestamp|] eqn:T;
    [|reflexivity].
  split; [reflexivity|]. unfold follows.
  cbn [Normalized.message_id Normalized.user_id Normalized.timestamp
       Normalized.message_content Normalized.quality Normalized.user_name].
  destruct N as (N1 & N2 & N3). repeat split; assumption || exact T.
Qed.

Lemma normalizeFrom_spec (messages : list Message.t) (st : state)
      (acc : list Normalized.t) (done : list Message.t) :
  kept st done ->
  kept (fst (normalizeFrom st acc messages)) (done ++ reached messages) /\
  match snd (normalizeFrom st acc messages) with
  | Some records =>
      forallb convertible messages = true /\
      exists new, records = (acc ++ new)%list /\ Forall2 follows messages new
  | None => forallb convertible messages = false
  end.
Proof.
  revert st acc done. induction messages as [|m rest IH];
    intros st acc done K.
  - cbn. rewrite app_nil_r. split; [exact K|]. split; [reflexivity|].
    exists []. rewrite app_nil_r. split; [reflexivity|constructor].
  - cbn [Transformer.normalizeFrom reached forallb].
    pose proof (kept_step st done m K) as K'.
    pose proof (normalizeOne_record st done m K) as R.
    destruct (normalizeOne st m) as [st' [r|]]; cbn [fst snd] in *.
    + destruct R as [Cm Fm]. rewrite Cm. cbn [andb].
      destruct (IH st' (acc ++ [r])%list (done ++ [m])%list K') as [I1 I2].
      rewrite <- app_assoc in I1. cbn [app] in I1. split; [exact I1|].
      destruct (snd (normalizeFrom st' (acc ++ [r])%list rest))
        as [records|]; [|exact I2].
      destruct I2 as (I2 & new & E & F). split; [exact I2|].
      exists (r :: new). rewrite E, <- app_assoc. split; [reflexivity|].
      constructor; assumption.
    + rewrite R. cbn [andb]. split; [exact K'|reflexivity].
Qed.

End Run.

End TransformerFacts.

(** ** Binary64 values in any binade *)

Module BinadeFacts.
Import Js FloatFacts.
Local Open Scope Z_scope.

Lemma binade_spec (a b e : Z) :
  0 < b -> 0 <= e -> b * 2 ^ e <= a < b * 2 ^ (e + 1) -> binade a b = e.
Proof.
  intros Hb He H. unfold binade.
  assert (P : 0 < 2 ^ e) by (apply Z.pow_pos_nonneg; lia).
  assert (Ha : 0 < a) by nia.
  pose proof (Z.log2_spec a Ha) as La.
  pose proof (Z.log2_spec b Hb) as Lb.
  pose proof (Z.log2_nonneg a) as Na.
  pose proof (Z.log2_nonneg b) as Nb.
  set (la := Z.log2 a) in *. set (lb := Z.log2 b) in *.
  rewrite Z.pow_succ_r in La, Lb by lia.
  rewrite Z.pow_add_r in H by lia. change (2 ^ 1) with 2 in H.
  assert (L1 : lb + e <= la).
  { destruct (Z.le_gt_cases (lb + e) la) as [|G]; [assumption|exfalso].
    assert (2 ^ (la + 1) <= 2 ^ (lb + e)) by (apply Z.pow_le_mono_r; lia).
    rewrite !Z.pow_add_r in * by lia. change (2 ^ 1) with 2 in *. nia. }
  assert (L2 : la <= lb + e + 1).
  { destruct (Z.le_gt_cases la (lb + e + 1)) as [|G]; [assumption|exfalso].
    assert (2 ^ (lb + e + 2) <= 2 ^ la) by (apply Z.pow_le_mono_r; lia).
    rewrite !Z.pow_add_r in * by lia. change (2 ^ 2) with 4 in *. nia. }
  assert (E : la - lb = e \/ la - lb = e + 1) by lia.
  destruct E as [E|E]; rewrite E.
  - destruct (Z.leb_spec 0 e); [|lia].
    destruct (Z.leb_spec (b * 2 ^ e) a); lia.
  - destruct (Z.leb_spec 0 (e + 1)); [|lia].
    rewrite Z.pow_add_r by lia. change (2 ^ 1) with 2.
    destruct (Z.leb_spec (b * (2 ^ e * 2)) a); lia.
Qed.

(** The binary64 value of a positive rational of binade [e], with
    [s = 52 - e] between 0 and 52: a multiple of [2^-s] at most half of
    [2^-s] away. *)
Lemma fl64_in_binade (q : Q) (e : Z) :
  0 <= e <= 52 ->
  (inject_Z (2 ^ e) <= q)%Q -> (q < inject_Z (2 ^ (e + 1)))%Q ->
  exists m : Z,
    (fl64 q == inject_Z m / inject_Z (2 ^ (52 - e)))%Q /\
    m = roundHalfEven (Qnum q * 2 ^ (52 - e)) (Zpos (Qden q)) /\
    - Zpos (Qden q)
    <= 2 * (m * Zpos (Qden q) - Qnum q * 2 ^ (52 - e))
    <= Zpos (Qden q).
Proof.
  intros He Hlo Hhi. destruct q as [a b].
  unfold Qle, Qlt in Hlo, Hhi. cbn [Qnum Qden inject_Z] in *.
  rewrite Z.mul_1_r in Hlo, Hhi.
  assert (P : 0 < 2 ^ e) by (apply Z.pow_pos_nonneg; lia).
  assert (Ha : 0 < a) by nia.
  exists (roundHalfEven (a * 2 ^ (52 - e)) (Zpos b)).
  split; [|split; [reflexivity|apply roundHalfEven_error; lia]].
  unfold fl64. cbn [Qnum Qden]. rewrite Z.abs_eq by lia.
  destruct (Z.eqb_spec a 0); [lia|].
  rewrite (binade_spec a (Zpos b) e) by lia.
  destruct (Z.leb_spec 0 (52 - e)); [|lia].
  rewrite Z.sgn_pos by lia. rewrite Z.mul_1_l.
  set (m := roundHalfEven (a * 2 ^ (52 - e)) (Zpos b)).
  rewrite Qpower_opp. unfold Qdiv. apply Qmult_comp; [reflexivity|].
  apply Qinv_comp. symmetry.
  rewrite (Zpower_Qpower 2 (52 - e)) by lia. reflexivity.
Qed.

(** The integer nearest to a quotient that is less than a half away
    from an integer. *)
Lemma roundHalfEven_unique (n d k : Z) :
  0 < d -> - d < 2 * (k * d - n) < d -> roundHalfEven n d = k.
Proof.
  intros Hd H. pose proof (roundHalfEven_error n d Hd) as E.
  set (m := roundHalfEven n d) in *. nia.
Qed.

End BinadeFacts.

(** ** [toIsoString] on the timestamps of Slack *)

Module TimestampFacts.
Import Js Transformer FloatFacts BinadeFacts.
Local Open Scope string_scope.
Local Open Scope Z_scope.

Lemma fl64_near (q : Q) (e : Z) :
  0 <= e <= 52 ->
  (inject_Z (2 ^ e) <= q)%Q -> (q < inject_Z (2 ^ (e + 1)))%Q ->
  exists m : Z,
    (fl64 q == inject_Z m * (1 # Z.to_pos (2 ^ (52 - e))))%Q /\
    (q - (1 # Z.to_pos (2 ^ (53 - e))) <= fl64 q)%Q /\
    (fl64 q <= q + (1 # Z.to_pos (2 ^ (53 - e))))%Q.
Proof.
  intros He Hlo Hhi.
  destruct (fl64_in_binade q e He Hlo Hhi) as (m & E & _ & B).
  assert (P : 0 < 2 ^ (52 - e)) by (apply Z.pow_pos_nonneg; lia).
  assert (E' : (fl64 q == m # Z.to_pos (2 ^ (52 - e)))%Q).
  { rewrite E. rewrite <- (Z2Pos.id (2 ^ (52 - e)) P) at 1.
    symmetry. apply Qmake_Qdiv. }
  assert (D : 2 ^ (53 - e) = 2 * 2 ^ (52 - e)).
  { replace (53 - e) with (Z.succ (52 - e)) by lia.
    apply Z.pow_succ_r. lia. }
  exists m. split.
  { rewrite E'. unfold Qeq. cbn [Qnum Qden inject_Z Qmult].
    rewrite Pos.mul_1_l. lia. }
  destruct q as [a b]. cbn [Qnum Qden] in B.
  set (S := 2 ^ (52 - e)) in *.
  split; rewrite E', D; unfold Qle, Qminus, Qplus, Qopp;
    cbn [Qnum Qden]; rewrite ?Pos2Z.inj_mul, ?Z2Pos.id by lia; nia.
Qed.

(** *** The text of a timestamp *)

Lemma digit_no_dot (c : ascii) : isDigit c = true -> (code c =? 46) = false.
Proof.
  unfold isDigit, between. intros H. apply andb_true_iff in H.
  rewrite !Z.leb_le in H. apply Z.eqb_neq. lia.
Qed.

Lemma digit_no_space (c : ascii) : isDigit c = true -> isWhiteSpace c = false.
Proof.
  unfold isDigit, isWhiteSpace, between. intros H.
  apply andb_true_iff in H. rewrite !Z.leb_le in H.
  destruct (Z.leb_spec 9 (code c)); destruct (Z.leb_spec (code c) 13);
    destruct (Z.eqb_spec (code c) 32); destruct (Z.eqb_spec (code c) 160);
    try reflexivity; lia.
Qed.

Lemma append_snoc (a : string) (c : ascii) (r : string) :
  (a ++ String c EmptyString) ++ r = a ++ String c r.
Proof. induction a as [|x a IH]; cbn; [reflexivity|rewrite IH; reflexivity]. Qed.

Lemma append_empty (a : string) : a ++ EmptyString = a.
Proof. induction a as [|x a IH]; cbn; [reflexivity|rewrite IH; reflexivity]. Qed.

Lemma splitDots_digits (d cur : string) :
  allDigits d = true -> splitDots cur d = [cur ++ d].
Proof.
  revert cur. induction d as [|c r IH]; intros cur H.
  - cbn. rewrite append_empty. reflexivity.
  - cbn [allDigits] in H. apply andb_true_iff in H. destruct H as [Hc Hr].
    cbn [splitDots]. rewrite (digit_no_dot c Hc), IH by exact Hr.
    rewrite append_snoc. reflexivity.
Qed.

Lemma splitDots_timestamp (s d cur : string) :
  allDigits s = true -> allDigits d = true ->
  splitDots cur (s ++ "." ++ d) = [cur ++ s; d].
Proof.
  revert cur. induction s as [|c r IH]; intros cur Hs Hd.
  - cbn [append splitDots]. change (code "." =? 46) with true. cbv iota.
    rewrite append_empty, splitDots_digits by exact Hd. reflexivity.
  - cbn [allDigits] in Hs. apply andb_true_iff in Hs.
    destruct Hs as [Hc Hr].
    cbn [append splitDots]. rewrite (digit_no_dot c Hc).
    change (r ++ String "." d) with (r ++ "." ++ d).
    rewrite IH by assumption. rewrite append_snoc. reflexivity.
Qed.

Lemma trimStart_digits (s : string) :
  allDigits s = true -> trimStart s = s.
Proof.
  destruct s as [|c r]; [reflexivity|]. cbn [allDigits trimStart].
  intros H. apply andb_true_iff in H. destruct H as [Hc _].
  rewrite (digit_no_space c Hc). reflexivity.
Qed.

Lemma trimEnd_digits (s : string) : allDigits s = true -> trimEnd s = s.
Proof.
  induction s as [|c r IH]; [reflexivity|]. cbn [allDigits trimEnd].
  intros H. apply andb_true_iff in H. destruct H as [Hc Hr].
  rewrite (IH Hr). destruct r; [|reflexivity].
  rewrite (digit_no_space c Hc). reflexivity.
Qed.

Lemma span_digits (s : string) :
  allDigits s = true -> Handlers.span isDigit s = (s, EmptyString).
Proof.
  induction s as [|c r IH]; [reflexivity|]. cbn [allDigits Handlers.span].
  intros H. apply andb_true_iff in H. destruct H as [Hc Hr].
  rewrite Hc, (IH Hr). reflexivity.
Qed.

Lemma signed_digits (s : string) :
  allDigits s = true -> signed s = (1, s).
Proof.
  destruct s as [|c r]; [reflexivity|]. cbn [allDigits signed].
  intros H. apply andb_true_iff in H. destruct H as [Hc _].
  unfold isDigit, between in Hc. apply andb_true_iff in Hc.
  rewrite !Z.leb_le in Hc.
  destruct (Z.eqb_spec (code c) 45); [lia|].
  destruct (Z.eqb_spec (code c) 43); [lia|]. reflexivity.
Qed.

Lemma numberFrom_bounds (digits : string) (acc : Z) :
  allDigits digits = true -> 0 <= acc ->
  acc * 10 ^ Z.of_nat (String.length digits)
  <= Handlers.numberFrom acc digits
  < (acc + 1) * 10 ^ Z.of_nat (String.length digits).
Proof.
  revert acc. induction digits as [|c r IH]; intros acc H Ha.
  - cbn. lia.
  - cbn [allDigits] in H. apply andb_true_iff in H. destruct H as [Hc Hr].
    unfold isDigit, between in Hc. apply andb_true_iff in Hc.
    rewrite !Z.leb_le in Hc.
    cbn [Handlers.numberFrom String.length].
    rewrite Nat2Z.inj_succ, Z.pow_succ_r by lia.
    specialize (IH (10 * acc + (code c - 48)) Hr ltac:(lia)).
    assert (P : 0 < 10 ^ Z.of_nat (String.length r))
      by (apply Z.pow_pos_nonneg; lia).
    nia.
Qed.

(** The number that [toIsoString] reads in a run of digits, a full stop
    and six digits. *)
Lemma Number_timestamp (s d : string) :
  allDigits s = true -> allDigits d = true ->
  truthy (Some s) = true -> String.length d = 6%nat ->
  Number s d
  = Num (fl64 (inject_Z 1
               * (inject_Z (Handlers.numberFrom 0 s)
                  + inject_Z (Handlers.numberFrom 0 d) / inject_Z 1000000)
               * inject_Z 1)).
Proof.
  intros Hs Hd Ts Ld. unfold Number.
  rewrite (trimStart_digits s Hs), (signed_digits s Hs),
    (trimEnd_digits d Hd), (span_digits d Hd), Hs, Ts, Ld.
  reflexivity.
Qed.

Lemma Qfloor_between (x : Q) (k : Z) :
  (inject_Z k <= x)%Q -> (x < inject_Z (k + 1))%Q -> Qfloor x = k.
Proof.
  intros L U.
  pose proof (Qfloor_le x) as F1. pose proof (Qlt_floor x) as F2.
  assert (A : (inject_Z k < inject_Z (Qfloor x + 1))%Q)
    by (eapply Qle_lt_trans; eassumption).
  assert (B : (inject_Z (Qfloor x) < inject_Z (k + 1))%Q)
    by (eapply Qle_lt_trans; eassumption).
  rewrite <- Zlt_Qlt in A, B. lia.
Qed.

(** The conversion is exact to the millisecond from 2004 to 2038. *)
Lemma millis_of_timestamp (s d : Z) :
  1099511628 <= s <= 2147483647 -> 0 <= d < 1000000 ->
  newDate
    (times1000
       (Num (fl64 (inject_Z 1
                   * (inject_Z s + inject_Z d / inject_Z 1000000)
                   * inject_Z 1))))
  = Some (s * 1000 + d / 1000).
Proof.
  intros Hs Hd.
  set (q := (inject_Z 1 * (inject_Z s + inject_Z d / inject_Z 1000000)
             * inject_Z 1)%Q).
  assert (Eq : (q == inject_Z s + inject_Z d * (1 # 1000000))%Q).
  { unfold q. change (inject_Z 1) with 1%Q.
    change (inject_Z 1000000) with 1000000%Q. field. }
  assert (Bs : (1099511628 <= inject_Z s <= 2147483647)%Q).
  { split.
    - change 1099511628%Q with (inject_Z 1099511628).
      rewrite <- Zle_Qle. lia.
    - change 2147483647%Q with (inject_Z 2147483647).
      rewrite <- Zle_Qle. lia. }
  assert (Bd : (0 <= inject_Z d <= 999999)%Q).
  { split.
    - change 0%Q with (inject_Z 0). rewrite <- Zle_Qle. lia.
    - change 999999%Q with (inject_Z 999999). rewrite <- Zle_Qle. lia. }
  destruct (fl64_near q 30 ltac:(lia)) as (m1 & _ & L1 & U1).
  { change (inject_Z (2 ^ 30)) with 1073741824%Q. rewrite Eq. lra. }
  { change (inject_Z (2 ^ (30 + 1))) with 2147483648%Q. rewrite Eq. lra. }
  change (Z.to_pos (2 ^ (53 - 30))) with 8388608%positive in L1, U1.
  cbn [times1000]. set (x1 := fl64 q) in *.
  set (p := (x1 * 1000)%Q).
  destruct (fl64_near p 40 ltac:(lia)) as (m2 & E2 & L2 & U2).
  { change (inject_Z (2 ^ 40)) with 1099511627776%Q. unfold p.
    rewrite Eq in L1. lra. }
  { change (inject_Z (2 ^ (40 + 1))) with 2199023255552%Q. unfold p.
    rewrite Eq in U1. lra. }
  change (Z.to_pos (2 ^ (53 - 40))) with 8192%positive in L2, U2.
  change (Z.to_pos (2 ^ (52 - 40))) with 4096%positive in E2.
  set (x2 := fl64 p) in *.
  set (F := s * 1000 + d / 1000).
  pose proof (Z.div_mod d 1000 ltac:(lia)) as Dm.
  pose proof (Z.mod_pos_bound d 1000 ltac:(lia)) as Dr.
  set (r := d mod 1000) in *.
  assert (Ed : (inject_Z d == 1000 * inject_Z (d / 1000) + inject_Z r)%Q).
  { rewrite Dm at 1. rewrite inject_Z_plus, inject_Z_mult. reflexivity. }
  assert (EF : (inject_Z F == 1000 * inject_Z s + inject_Z (d / 1000))%Q).
  { unfold F. rewrite inject_Z_plus, inject_Z_mult. ring. }
  assert (Br : (0 <= inject_Z r <= 999)%Q).
  { split.
    - change 0%Q with (inject_Z 0). rewrite <- Zle_Qle. lia.
    - change 999%Q with (inject_Z 999). rewrite <- Zle_Qle. lia. }
  (* the exact number of milliseconds is F + r / 1000 *)
  assert (X : (1000 * q == inject_Z F + inject_Z r * (1 # 1000))%Q).
  { rewrite Eq, EF, Ed. field. }
  assert (Lo : (inject_Z F - (1 # 4096) < x2)%Q).
  { unfold p in L2. lra. }
  assert (Hi : (x2 < inject_Z (F + 1))%Q).
  { rewrite inject_Z_plus. change (inject_Z 1) with 1%Q.
    unfold p in U2. lra. }
  assert (Ge : (inject_Z F <= x2)%Q).
  { rewrite E2 in Lo |- *.
    assert (Z1 : 4096 * F < m2 + 1).
    { rewrite Zlt_Qlt, inject_Z_plus, inject_Z_mult.
      change (inject_Z 4096) with 4096%Q. change (inject_Z 1) with 1%Q.
      lra. }
    assert (Z2 : 4096 * F <= m2) by lia.
    rewrite Zle_Qle, inject_Z_mult in Z2.
    change (inject_Z 4096) with 4096%Q in Z2. lra. }
  unfold newDate.
  assert (Pos : (0 <= x2)%Q).
  { apply Qle_trans with (inject_Z F); [|exact Ge].
    change 0%Q with (inject_Z 0). rewrite <- Zle_Qle. unfold F.
    pose proof (Z.div_pos d 1000 ltac:(lia) ltac:(lia)). lia. }
  assert (A : Qle_bool (Qabs x2) (inject_Z Handlers.maxTime) = true).
  { apply Qle_bool_iff. rewrite Qabs_pos by exact Pos.
    apply Qlt_le_weak. apply Qlt_le_trans with (inject_Z (F + 1));
      [exact Hi|].
    rewrite <- Zle_Qle. unfold F, Handlers.maxTime.
    pose proof (Z.div_lt_upper_bound d 1000 1000 ltac:(lia) ltac:(lia)).
    lia. }
  rewrite A. f_equal. unfold Dayjs.absFloor.
  assert (B : Qle_bool 0 x2 = true) by (apply Qle_bool_iff; exact Pos).
  rewrite B. apply Qfloor_between; assumption.
Qed.

Lemma timestamp_millis (seconds micros : string) :
  allDigits seconds = true -> allDigits micros = true ->
  String.length micros = 6%nat ->
  1099511628 <= Handlers.numberFrom 0 seconds <= 2147483647 ->
  toIsoString (seconds ++ "." ++ micros)
  = Some (toISOString (Handlers.numberFrom 0 seconds * 1000
                       + Handlers.numberFrom 0 micros / 1000)).
Proof.
  intros Hs Hd Ld Bs. unfold toIsoString. cbv zeta.
  rewrite (splitDots_timestamp seconds micros EmptyString Hs Hd).
  cbn [hd nth append].
  assert (Ts : truthy (Some seconds) = true).
  { destruct seconds; [cbn in Bs; lia|reflexivity]. }
  rewrite (Number_timestamp seconds micros Hs Hd Ts Ld).
  pose proof (numberFrom_bounds micros 0 Hd ltac:(lia)) as Bd.
  rewrite Ld in Bd. change (10 ^ Z.of_nat 6) with 1000000 in Bd.
  rewrite millis_of_timestamp by lia. reflexivity.
Qed.

End TimestampFacts.

(** * Further properties of the sources *)

Import ListFacts WindowFacts BlockerFacts SortFacts.

(** X1.  [extractBlockers] returns, in the order of its input, one
    blocker for every entry whose text holds a blocker keyword (whatever
    the case of the letters), with the user id, user name, timestamp and
    text of that entry; when an entry has no text it throws a
    [TypeError], whether or not an entry mentions a blocker. *)
Theorem extractBlockers_selects_in_order (entries : list Checkin.t) :
  extractBlockers entries
  = if forallb Spec.hasText entries
    then Ok (map Notions.blockerOf (filter Notions.mentionsBlocker entries))
    else Throw TypeError.
Proof. apply extractBlockers_value. Qed.

(** X2.  [summarizeDaily] looks at the check-ins of the user that are
    stamped on the calendar day of [date]: it returns [null] when there
    are none (and for an invalid date), and otherwise reports the
    earliest of them, the first received among those stamped at the
    same instant. *)
Theorem summarizeDaily_reports_earliest
        (this : Agent.t) (userId : option string) (date : Dayjs.t) :
  let entries :=
    filter (fun c => Notions.sameDay date c && isUser userId c)
           (checkins this) in
  match summarizeDaily this userId date with
  | None => entries = []
  | Some daily =>
      exists before first after,
        entries = (before ++ first :: after)%list /\
        forallb (Notions.laterThan first) before = true /\
        forallb (Notions.notBefore first) after = true /\
        daily = Daily.mk (Dayjs.formatIsoDate (Dayjs.startOfDay date))
                         (Checkin.message_content first)
                         (Checkin.quality first)
                         (Checkin.timestamp first)
  end.
Proof.
  intros entries. unfold summarizeDaily. cbv zeta.
  rewrite day_window. fold entries.
  pose proof (sort_head entries) as H.
  destruct entries as [|x r] eqn:E.
  - reflexivity.
  - destruct (sortByTimestamp (x :: r)) as [|entry rest]; [discriminate|].
    cbn [hd_error] in H. injection H as H. rewrite H.
    assert (S : forallb Notions.stamped (x :: r) = true).
    { rewrite <- E. apply forallb_forall. intros c Hc.
      apply filter_In in Hc. destruct Hc as [_ Hc].
      apply andb_true_iff in Hc. destruct Hc as [Hc _].
      unfold Notions.sameDay, Notions.withinDays in Hc.
      unfold Notions.stamped, Spec.given.
      destruct date; [|discriminate].
      destruct (Checkin.timestamp c); [reflexivity|discriminate]. }
    destruct (earliest_first r x S) as (before & after & D & B & A).
    exists before, (fold_left Notions.earlier r x), after.
    repeat split; assumption.
Qed.


Import MonthFacts.


(** X5.  In a monthly report the consistency counts at least one day
    and at most as many days as the month has, never more days than
    check-ins; the period length is the number of days of the month, and
    the percentage is a number above 0 and at most 100. *)
Theorem monthly_consistency_bounds
        (this : Agent.t) (userId : option string) (anchor : Z)
        (report : Month.t) :
  summarizeMonth this userId (Some anchor) = Ok (Some report) ->
  let consistency := Month.consistency report in
  let days :=
    Dayjs.daysInMonth (Dayjs.constructorYear (Dayjs.year anchor))
                      (Dayjs.month anchor) in
  1 <= Consistency.days_checked_in consistency <= days /\
  Consistency.days_checked_in consistency
  <= Summary.total_checkins (Month.summary report) /\
  (exists n, Consistency.period_length consistency = Num n /\
             (n == inject_Z days)%Q) /\
  (exists p, Consistency.percentage consistency = Num p /\
             (0 < p <= 100)%Q).
Proof.
  unfold summarizeMonth, summarizeRange, calculateConsistency. cbv zeta.
  rewrite month_period_length.
  set (y := Dayjs.constructorYear (Dayjs.year anchor)).
  set (m := Dayjs.month anchor).
  pose proof (month_window this userId anchor) as W. fold y m in W.
  assert (D : forallb (Notions.withinDays
                         (Dayjs.DayFromYear y
                          + Dayjs.daysBeforeMonth (Dayjs.InLeapYear y) m)
                         (Dayjs.daysInMonth y m))
                (getCheckinsForUser this userId
                   (Some (Dayjs.startOfMonth (Some anchor),
                          Dayjs.endOfMonth (Some anchor)))) = true).
  { rewrite W. apply forallb_forall. intros c Hc. apply filter_In in Hc.
    destruct Hc as [_ Hc]. apply andb_true_iff in Hc.
    rewrite in_month_days by apply month_range. apply Hc. }
  destruct (getCheckinsForUser this userId
              (Some (Dayjs.startOfMonth (Some anchor),
                     Dayjs.endOfMonth (Some anchor)))) as [|x r] eqn:E;
    [discriminate|].
  cbn [Summary.entries].
  destruct (extractBlockers (x :: r)) as [blockers|]; [|discriminate].
  cbn [bind]. intros H.
  apply (f_equal (fun r => match r with
                           | Ok (Some m) => m
                           | _ => report
                           end)) in H.
  cbv beta iota in H. subst report.
  cbn [Month.consistency Month.summary Consistency.days_checked_in
       Consistency.period_length Consistency.percentage
       Summary.total_checkins].
  set (k := distinct _).
  assert (Dn : 0 <= Dayjs.daysInMonth y m)
    by (destruct (daysInMonth_cases y m) as [K|[K|[K|K]]]; rewrite K; lia).
  assert (K1 : 1 <= k).
  { unfold k, distinct, Agent.length. cbn [map].
    pose proof (nodup_nonempty string_dec
                  (Dayjs.formatIsoDate (Checkin.timestamp x))
                  (map (fun entry =>
                          Dayjs.formatIsoDate (Checkin.timestamp entry)) r)).
    lia. }
  assert (K2 : k <= Dayjs.daysInMonth y m)
    by (apply (distinct_days_in_window _ _ (x :: r) Dn D)).
  assert (K3 : k <= Agent.length (x :: r)).
  { unfold k, distinct, Agent.length.
    pose proof (nodup_length_le string_dec
                  (map (fun entry =>
                          Dayjs.formatIsoDate (Checkin.timestamp entry))
                       (x :: r))) as L.
    rewrite length_map in L. lia. }
  repeat split; try assumption.
  - eexists. split; [reflexivity|].
    change 1%Q with (inject_Z 1).
    rewrite <- inject_Z_plus. replace (Dayjs.daysInMonth y m - 1 + 1)
      with (Dayjs.daysInMonth y m) by lia. reflexivity.
  - apply percent_of_month. lia.
Qed.

Lemma monthly_consistency_bounds_witness :
  exists report,
    summarizeMonth
      (constructor [Samples.strong_entry; Samples.weak_entry] [])
      (Some "U4") (Some Samples.feb15) = Ok (Some report) /\
    Consistency.days_checked_in (Month.consistency report) = 1 /\
    (exists p, Consistency.percentage (Month.consistency report) = Num p /\
               (0 < p <= 100)%Q).
Proof.
  assert (E : exists report,
             summarizeMonth
               (constructor [Samples.strong_entry; Samples.weak_entry] [])
               (Some "U4") (Some Samples.feb15) = Ok (Some report) /\
             Consistency.days_checked_in (Month.consistency report) = 1).
  { eexists. split; [vm_compute; reflexivity|reflexivity]. }
  destruct E as (report & E & D). exists report.
  split; [exact E|]. split; [exact D|].
  apply (monthly_consistency_bounds _ _ _ _ E).
Defined.

Import StudentFacts.

(** X6.  The student list leaves nobody out and invents nobody: every
    user id of a check-in and every id of a roster entry is the id of a
    student, and every student is a roster entry or stands for a
    check-in, with that check-in's user id as id and its user name (its
    user id when the name is missing or empty) as name. *)
Theorem students_cover_roster_and_checkins (this : Agent.t) :
  (forall c, In c (checkins this) ->
     exists s, In s (getAllStudents this) /\
               Student.id s = Some (Checkin.user_id c)) /\
  (forall r, In r (roster this) ->
     exists s, In s (getAllStudents this) /\ Student.id s = Student.id r) /\
  (forall s, In s (getAllStudents this) ->
     In s (roster this) \/
     exists c, In c (checkins this) /\
               s = Student.mk (Some (Checkin.user_id c))
                              (or (Checkin.user_name c)
                                  (Some (Checkin.user_id c)))).
Proof.
  split; [exact (checkin_user_is_student this)|]. split.
  - intros r Hr. apply (student_for_key this _ r); [|reflexivity].
    apply in_or_app. left. exact Hr.
  - exact (student_origin this).
Qed.

(** X7.  [findMissingCheckins] splits the students in two: a student is
    reported missing exactly when no check-in of the window carries the
    student's id, and the missing students come in the order of the
    student list. *)
Theorem students_missing_or_checked_in
        (this : Agent.t) (start end_ : Dayjs.t) :
  let window := getCheckinsByDateRange this start end_ in
  let checkedIn (s : Student.t) :=
    existsb (fun c => JsMap.key_eqb (Student.id s)
                                    (Some (Checkin.user_id c))) window in
  findMissingCheckins this start end_
  = filter (fun s => negb (checkedIn s)) (getAllStudents this) /\
  forall s, In s (getAllStudents this) ->
    (In s (findMissingCheckins this start end_) <->
     forall c, In c window -> Student.id s <> Some (Checkin.user_id c)).
Proof.
  intros window checkedIn.
  assert (E : forall s,
             setHas (map Checkin.user_id window) (Student.id s)
             = checkedIn s).
  { intros s. unfold checkedIn, setHas.
    destruct (Student.id s) as [i|].
    - induction window as [|c w IH]; [reflexivity|].
      cbn [map existsb JsMap.key_eqb]. rewrite IH. reflexivity.
    - induction window as [|c w IH]; [reflexivity|].
      cbn [existsb JsMap.key_eqb orb]. exact IH. }
  assert (F : findMissingCheckins this start end_
              = filter (fun s => negb (checkedIn s)) (getAllStudents this)).
  { unfold findMissingCheckins. cbv zeta. apply filter_ext.
    intros s. fold window. rewrite E. reflexivity. }
  split; [exact F|]. intros s Hs. rewrite F, filter_In. split.
  - intros [_ H] c Hc Heq. apply negb_true_iff in H.
    assert (T : checkedIn s = true).
    { apply existsb_exists. exists c. split; [exact Hc|].
      apply key_eqb_eq. exact Heq. }
    congruence.
  - intros H. split; [exact Hs|]. apply negb_true_iff.
    destruct (checkedIn s) eqn:T; [|reflexivity].
    apply existsb_exists in T. destruct T as (c & Hc & K).
    apply key_eqb_eq in K. exfalso. exact (H c Hc K).
Qed.

(** X8.  The quality question is answered without a throw when every
    object of the roster has a non-empty [name], [display_name] or
    [real_name], or an [id] (strings and the entries that
    [normalizeRoster] drops do no harm); in particular with an empty
    roster, whatever the check-ins. *)
Theorem quality_question_with_named_roster
        (now : Z) (parseIsoStrict : string -> Dayjs.t) (Payload : Type)
        (records : list Checkin.t) (roster : list Roster.entry)
        (question : string) :
  forallb Notions.nameable roster = true ->
  throws (answerQualityQuestion now parseIsoStrict Payload
            (constructor records roster) question) = false.
Proof. apply named_roster_answers. Qed.

Lemma quality_question_with_named_roster_witness :
  throws (answerQualityQuestion Samples.feb15 (fun _ => None) unit
            (constructor [Samples.great]
               [Roster.Text "Jane";
                Roster.Obj (Roster.mk (Some "U7") None None None None None)])
            "What is the quality of Jane's check-in on Monday?") = false.
Proof.
  apply (quality_question_with_named_roster Samples.feb15 (fun _ => None)
           unit [Samples.great]
           [Roster.Text "Jane";
            Roster.Obj (Roster.mk (Some "U7") None None None None None)]).
  reflexivity.
Defined.

Import WeekFacts.

(** X9.  The constructor keeps the records in their order and changes
    nothing but the quality label: a record that comes with a non-empty
    label keeps it, and any other record gets the label that the
    classifier gives to its text (to the empty text when it has none),
    one of Strong, Medium and Weak.  So no record of an agent is without
    a label. *)
Theorem constructor_labels_every_record
        (records : list Checkin.t) (roster : list Roster.entry) :
  Forall2
    (fun given kept =>
       kept = Checkin.withQuality given (Checkin.quality kept) /\
       truthy (Checkin.quality kept) = true /\
       Checkin.quality kept
       = (if truthy (Checkin.quality given) then Checkin.quality given
          else Some (Quality.classifyCheckinQuality
                       (Some (match Checkin.message_content given with
                              | Some text => text
                              | None => EmptyString
                              end)))) /\
       (truthy (Checkin.quality given) = false -> Spec.labelled kept))
    records (checkins (constructor records roster)).
Proof.
  unfold constructor. cbn [checkins].
  induction records as [|r rs IH]; cbn [map]; constructor; [|exact IH].
  cbn [Checkin.withQuality Checkin.quality].
  assert (E : normalizeQuality (Checkin.quality r) (Checkin.message_content r)
              = if truthy (Checkin.quality r) then Checkin.quality r
                else Some (Quality.classifyCheckinQuality
                             (Some (match Checkin.message_content r with
                                    | Some text => text
                                    | None => EmptyString
                                    end)))).
  { unfold normalizeQuality. destruct (truthy (Checkin.quality r));
      [reflexivity|].
    destruct (Checkin.message_content r) as [[|a t]|]; reflexivity. }
  rewrite E. clear E.
  match goal with
  | |- context [Quality.classifyCheckinQuality ?t] =>
      pose proof (classified_label t) as L;
      set (label := Quality.classifyCheckinQuality t) in *
  end.
  cbn [In] in L.
  destruct (truthy (Checkin.quality r)) eqn:T.
  - repeat split; [exact T|discriminate].
  - repeat split.
    + destruct L as [<-|[<-|[<-|[]]]]; reflexivity.
    + intros _. unfold Spec.labelled. cbn [Checkin.quality].
      destruct L as [<-|[<-|[<-|[]]]]; auto.
Qed.

(** X10.  For an agent built from records that come without a label,
    the average quality score of a range summary is a number between 1
    and 3.  An array holds fewer than 2^32 elements. *)
Theorem average_of_classified_records
        (records : list Checkin.t) (roster : list Roster.entry)
        (userId : option string) (start end_ : Dayjs.t)
        (summary : Summary.t) :
  forallb (fun c => negb (truthy (Checkin.quality c))) records = true ->
  Agent.length records < 2 ^ 32 ->
  summarizeRange (constructor records roster) userId start end_
  = Some summary ->
  exists avg, Summary.average_quality_score summary = Num avg /\
              (1 <= avg <= 3)%Q.
Proof.
  intros Hq Hn. pose proof (constructor_labels records roster Hq) as Hl.
  unfold summarizeRange. cbv zeta.
  set (this := constructor records roster) in *.
  assert (Hin : forall c,
             In c (getCheckinsForUser this userId (Some (start, end_))) ->
             In c (checkins this)).
  { intros c Hc. unfold getCheckinsForUser, getCheckinsByDateRange in Hc.
    apply filter_In in Hc. destruct Hc as [Hc _].
    apply filter_In in Hc. apply Hc. }
  assert (Hle : Agent.length
                  (getCheckinsForUser this userId (Some (start, end_)))
                <= Agent.length records).
  { unfold Agent.length, getCheckinsForUser, getCheckinsByDateRange.
    pose proof (filter_length_le (isUser userId)
                  (filter
                     (fun checkin =>
                        Dayjs.isSameOrAfter (Checkin.timestamp checkin) start
                        && Dayjs.isSameOrBefore (Checkin.timestamp checkin)
                                                end_)
                     (checkins this))) as L1.
    pose proof (filter_length_le
                  (fun checkin =>
                     Dayjs.isSameOrAfter (Checkin.timestamp checkin) start
                     && Dayjs.isSameOrBefore (Checkin.timestamp checkin) end_)
                  (checkins this)) as L2.
    assert (Lc : List.length (checkins this) = List.length records)
      by (unfold this, constructor; cbn [checkins]; apply length_map).
    lia. }
  assert (Hf : Forall Spec.labelled
                 (getCheckinsForUser this userId (Some (start, end_)))).
  { apply Forall_forall. intros c Hc. rewrite Forall_forall in Hl.
    apply Hl, Hin, Hc. }
  destruct (getCheckinsForUser this userId (Some (start, end_)))
    as [|e r] eqn:E; [discriminate|].
  remember (e :: r) as entries eqn:He.
  assert (Hpos : 0 < Agent.length entries)
    by (rewrite He; unfold Agent.length; cbn [List.length]; lia).
  clear He E.
  intros H. injection H as <-. cbn [Summary.average_quality_score].
  rewrite (score_of_labelled entries 0 Hf), Z.add_0_l.
  cbn [divide roundTo2].
  pose proof (counts_total entries Hf) as Ht.
  pose proof (count_nonneg "Strong" entries) as H1.
  pose proof (count_nonneg "Medium" entries) as H2.
  pose proof (count_nonneg "Weak" entries) as H3.
  assert (Hs : Agent.length entries <= Spec.weights entries
               <= 3 * Agent.length entries) by (unfold Spec.weights; lia).
  assert (Hr : 0 < Agent.length entries < 2 ^ 32)
    by (split; [exact Hpos|exact (Z.le_lt_trans _ _ _ Hle Hn)]).
  destruct (average_rounded _ _ Hr Hs) as (k & Hk & Hb).
  eexists. split; [reflexivity|]. rewrite Hk.
  assert (K : 100 <= k <= 300) by nia.
  destruct K as [K1 K2]. apply inject_Z_le in K1, K2.
  change (inject_Z 100) with 100%Q in K1.
  change (inject_Z 300) with 300%Q in K2.
  unfold Qdiv. change (/ 100)%Q with (1 # 100)%Q. lra.
Qed.

Lemma average_of_classified_records_witness :
  exists summary avg,
    summarizeRange
      (constructor
         [Checkin.mk "m7" "U7" None (Some Samples.feb15)
                     (Some Samples.sample_medium) None] [])
      (Some "U7") (Some 0) (Some Samples.feb15) = Some summary /\
    Summary.average_quality_score summary = Num avg /\
    (1 <= avg <= 3)%Q.
Proof.
  assert (E : exists summary,
             summarizeRange
               (constructor
                  [Checkin.mk "m7" "U7" None (Some Samples.feb15)
                              (Some Samples.sample_medium) None] [])
               (Some "U7") (Some 0) (Some Samples.feb15) = Some summary)
    by (eexists; vm_compute; reflexivity).
  destruct E as (summary & E).
  destruct (average_of_classified_records
              [Checkin.mk "m7" "U7" None (Some Samples.feb15)
                          (Some Samples.sample_medium) None] []
              (Some "U7") (Some 0) (Some Samples.feb15) summary
              ltac:(reflexivity) ltac:(reflexivity) E) as (avg & A & B).
  exists summary, avg. repeat split; assumption || apply B.
Defined.

(** X11.  A weekly dashboard for a valid anchor date runs from the
    Monday of the ISO week that holds the anchor to the Sunday after it:
    the week starts at the first instant of a Monday, the anchor falls
    within the seven days that follow, [week_start] and [week_end] are
    that Monday and the day six days later, and the summary is the one
    of [summarizeWeek] from that Monday on (a throw of which the
    generator lets through). *)
Theorem weekly_dashboard_runs_from_monday
        (this : Agent.t) (now : Z) (userId userName : option string)
        (timeframe : Timeframe.t) (type : string) (anchor : Z) :
  truthy userId = true ->
  Timeframe.type timeframe = Some type ->
  toLowerCase type = "weekly" ->
  orDate (Timeframe.start timeframe) (Timeframe.date timeframe)
  = Some (Some anchor) ->
  exists monday,
    Dayjs.isoWeekday monday = 1 /\
    Dayjs.TimeWithinDay monday = 0 /\
    monday <= anchor < monday + 7 * Dayjs.msPerDay /\
    generateDashboard this now userId userName (Some timeframe)
    = bind (summarizeWeek this userId (Some monday))
           (fun summary =>
              Ok (Dashboard.weekly userName
                    (Dayjs.formatIsoDate (Some monday))
                    (Dayjs.formatIsoDate
                       (Some (monday + 6 * Dayjs.msPerDay)))
                    summary)).
Proof.
  intros Hu Ht Hw Ha.
  exists ((Dayjs.Day anchor - (Dayjs.Day anchor + 3) mod 7) * Dayjs.msPerDay).
  destruct (monday_spec anchor) as (M1 & M2 & M3).
  repeat split; try assumption; try apply M3.
  unfold generateDashboard. rewrite Hu, Ht. cbn [negb].
  assert (Hne : truthy (Some type) = true).
  { destruct type; [discriminate|reflexivity]. }
  rewrite Hne. cbn [negb]. cbv zeta. rewrite Hw, Ha.
  change (String.eqb "weekly" "daily") with false.
  change (String.eqb "weekly" "weekly") with true. cbv iota.
  rewrite startOfIsoWeek_value, addDays_value. reflexivity.
Qed.

Lemma weekly_dashboard_runs_from_monday_witness :
  exists monday,
    Dayjs.isoWeekday monday = 1 /\
    monday <= Samples.feb15 < monday + 7 * Dayjs.msPerDay /\
    throws (generateDashboard
              (constructor [Samples.strong_entry] []) 0 (Some "U4") None
              (Some (Timeframe.mk (Some "Weekly") None
                                  (Some (Some Samples.feb15)) None)))
    = false.
Proof.
  destruct (weekly_dashboard_runs_from_monday
              (constructor [Samples.strong_entry] []) 0 (Some "U4") None
              (Timeframe.mk (Some "Weekly") None (Some (Some Samples.feb15))
                            None)
              "Weekly" Samples.feb15
              ltac:(reflexivity) ltac:(reflexivity) ltac:(reflexivity)
              ltac:(reflexivity)) as (monday & M1 & _ & M3 & E).
  exists monday. split; [exact M1|]. split; [exact M3|]. reflexivity.
Defined.

(** X12.  A weekday name resolves, without a reference date, to the
    first instant of that weekday in the current ISO week (Monday to
    Sunday); with a reference date it resolves to the reference moved
    forward by the position of the name in the week (none for Monday,
    six days for Sunday), whatever the weekday of the reference.  The
    token is read without its surrounding white space, without a final
    full stop and whatever the case of its letters; it is not a date in
    the strict format. *)
Theorem weekday_token_resolves
        (now : Z) (parseIsoStrict : string -> Dayjs.t) (token : string)
        (index : Z) :
  Dayjs.isValid (parseIsoStrict (dropFinalDot (trim token))) = false ->
  indexOf weekdays (toLowerCase (dropFinalDot (trim token))) 0
  = Some index ->
  (exists d,
     parseDateToken now parseIsoStrict token None = Some (Some d) /\
     Dayjs.isoWeekday d = index + 1 /\
     Dayjs.TimeWithinDay d = 0 /\
     Dayjs.startOfIsoWeek (Some d) = Dayjs.startOfIsoWeek (Some now)) /\
  (forall reference,
     parseDateToken now parseIsoStrict token (Some (Some reference))
     = Some (Some (reference + index * Dayjs.msPerDay))).
Proof.
  intros Hp Hi. pose proof (indexOf_range _ _ _ _ Hi) as R.
  cbn [List.length weekdays Z.of_nat] in R.
  unfold parseDateToken. cbv zeta. rewrite Hp, Hi. split.
  - rewrite startOfIsoWeek_value, addDays_value.
    set (M := Dayjs.Day now - (Dayjs.Day now + 3) mod 7).
    exists (M * Dayjs.msPerDay + index * Dayjs.msPerDay).
    assert (E : Dayjs.Day (M * Dayjs.msPerDay + index * Dayjs.msPerDay)
                = M + index).
    { replace (M * Dayjs.msPerDay + index * Dayjs.msPerDay)
        with ((M + index) * Dayjs.msPerDay + 0) by lia.
      apply Day_shift. unfold Dayjs.msPerDay. lia. }
    repeat split.
    + rewrite isoWeekday_of_day, E. unfold M. Z.div_mod_to_equations. lia.
    + unfold Dayjs.TimeWithinDay.
      replace (M * Dayjs.msPerDay + index * Dayjs.msPerDay)
        with ((M + index) * Dayjs.msPerDay) by lia.
      apply Z_mod_mult.
    + rewrite startOfIsoWeek_value, E. fold M. f_equal. f_equal.
      unfold M. Z.div_mod_to_equations. lia.
  - intros reference. rewrite addDays_value. reflexivity.
Qed.

Lemma weekday_token_resolves_witness :
  exists d,
    parseDateToken Samples.feb15 (fun _ => None) " Friday. " None
    = Some (Some d) /\
    Dayjs.isoWeekday d = 5 /\
    parseDateToken Samples.feb15 (fun _ => None) " Friday. "
                   (Some (Some 0))
    = Some (Some (4 * Dayjs.msPerDay)).
Proof.
  destruct (weekday_token_resolves Samples.feb15 (fun _ => None)
              " Friday. " 4 ltac:(reflexivity) ltac:(reflexivity))
    as ((d & D1 & D2 & _) & R).
  exists d. split; [exact D1|]. split; [exact D2|exact (R 0)].
Defined.

Import TokenFacts NumberFacts CaseFacts ScoreFacts.

(** X13.  [countWords] counts the maximal runs of code units that are
    not white space: white space at either end of the text, and the
    length of a stretch of white space between two words, make no
    difference. *)
Theorem countWords_counts_runs (text : string) :
  Quality.countWords text = Tokens.wordRuns text.
Proof. apply countWords_runs. Qed.

(** X14.  The specificity of a text is the number of its number tokens
    (maximal runs of letters, digits and underscores that hold digits
    only, so that the digits of v2 or 3rd do not count), plus the number
    of its asterisks, plus the number of its hyphens that follow a line
    feed or a carriage return (a hyphen that opens the text does not
    count), and 3 when this sum is larger. *)
Theorem specificity_counts_tokens_and_bullets (text : string) :
  Quality.numbers text = Tokens.digitTokens text /\
  Quality.bulletIndicators text
  = Tokens.stars text + Tokens.dashesAfterBreak text /\
  Quality.scoreSpecificity text
  = Z.min (Tokens.digitTokens text + Tokens.stars text
           + Tokens.dashesAfterBreak text) 3.
Proof.
  split; [apply numbers_tokens|]. split; [apply bulletIndicators_count|].
  unfold Quality.scoreSpecificity.
  rewrite numbers_tokens, bulletIndicators_count. f_equal. lia.
Qed.


(** X16.  A text is labelled Strong only if it names at least two of the
    three keyword categories, holds at least one number token or bullet
    marker, and has at least twenty words. *)
Theorem strong_label_requirements (text : string) :
  Quality.classifyCheckinQuality (Some text) = "Strong" ->
  2 <= Quality.scoreCompleteness text /\
  1 <= Quality.numbers text + Quality.bulletIndicators text /\
  20 <= Quality.countWords text.
Proof.
  destruct text as [|c r]; [discriminate|].
  rewrite classify_by_components by reflexivity. cbv zeta.
  pose proof (scoreCompleteness_range (String c r)) as C.
  pose proof (scoreSpecificity_range (String c r)) as S.
  pose proof (countWords_nonneg (String c r)) as W.
  destruct (Z.leb_spec 320
              (60 * Quality.scoreCompleteness (String c r)
               + 40 * Quality.scoreSpecificity (String c r)
               + Z.min (Quality.countWords (String c r)) 120)) as [L|L].
  - intros _. unfold Quality.scoreSpecificity in *. lia.
  - destruct (160 <=? _); discriminate.
Qed.

Lemma strong_label_requirements_witness :
  Quality.classifyCheckinQuality (Some MoreSamples.sample_strong) = "Strong"
  /\ 2 <= Quality.scoreCompleteness MoreSamples.sample_strong
  /\ 20 <= Quality.countWords MoreSamples.sample_strong.
Proof.
  split; [reflexivity|].
  destruct (strong_label_requirements MoreSamples.sample_strong eq_refl)
    as (H1 & _ & H3).
  split; assumption.
Defined.

(** X17.  The score of a text lies between 0 and 105.  A text that
    names the three keyword categories is never labelled Weak, and a
    text that names none and holds neither a number token nor a bullet
    marker is always labelled Weak, however long it is. *)
Theorem score_bounds_and_sure_labels (text : string) :
  (0 <= Quality.calculateQualityScore (Some text) <= 105)%Q /\
  (Quality.scoreCompleteness text = 3 ->
   Quality.classifyCheckinQuality (Some text) <> "Weak") /\
  (Quality.scoreCompleteness text = 0 ->
   Quality.numbers text + Quality.bulletIndicators text = 0 ->
   Quality.classifyCheckinQuality (Some text) = "Weak").
Proof.
  pose proof (scoreCompleteness_range text) as C.
  pose proof (scoreSpecificity_range text) as S.
  pose proof (countWords_nonneg text) as W.
  destruct text as [|c r].
  - split; [split; cbv; discriminate|]. split.
    + intros H. vm_compute in H. discriminate.
    + reflexivity.
  - set (text := String c r) in *.
    pose proof (score_as_quarters text eq_refl) as E.
    split; [|split].
    + rewrite E. unfold Qdiv. change (/ 4)%Q with (1 # 4)%Q.
      set (total := 60 * Quality.scoreCompleteness text
                    + 40 * Quality.scoreSpecificity text
                    + Z.min (Quality.countWords text) 120) in *.
      assert (T : 0 <= total <= 420) by (unfold total; lia).
      destruct T as [T1 T2]. apply inject_Z_le in T1, T2.
      change (inject_Z 0) with 0%Q in T1.
      change (inject_Z 420) with 420%Q in T2. lra.
    + intros H. rewrite classify_by_components by reflexivity. cbv zeta.
      destruct (Z.leb_spec 320
                  (60 * Quality.scoreCompleteness text
                   + 40 * Quality.scoreSpecificity text
                   + Z.min (Quality.countWords text) 120));
        [discriminate|].
      destruct (Z.leb_spec 160
                  (60 * Quality.scoreCompleteness text
                   + 40 * Quality.scoreSpecificity text
                   + Z.min (Quality.countWords text) 120));
        [discriminate|lia].
    + intros H0 H1. rewrite classify_by_components by reflexivity.
      cbv zeta. unfold Quality.scoreSpecificity in *. rewrite H0, H1.
      destruct (Z.leb_spec 320
                  (60 * 0 + 40 * Z.min 0 3
                   + Z.min (Quality.countWords text) 120)); [lia|].
      destruct (Z.leb_spec 160
                  (60 * 0 + 40 * Z.min 0 3
                   + Z.min (Quality.countWords text) 120)); [lia|].
      reflexivity.
Qed.

Import TableFacts HandlerFacts.

(** X18.  [answerYesterday] reports on the calendar day before the
    current one: [checked_in] holds one name for every user with a
    check-in stamped on that day, in the order of the users' first
    check-ins of the day, the name being that of the user's last
    check-in of the day; with a roster, [missing] holds the names of the
    students (of the roster or inferred from any check-in) without a
    check-in on that day and there is no note; without a roster,
    [missing] is empty and the note asks for a roster. *)
Theorem yesterday_attendance (now : Z) (this : Agent.t) :
  let entries := Told.ofDays this (Dayjs.Day now - 1) 1 in
  Handlers.answerYesterday now this
  = Handlers.Payload.yesterday
      "Who checked in yesterday and who did not?"
      (Dayjs.formatIsoDate (Some (now - Dayjs.msPerDay)))
      (map (Told.lastNameOf entries) (Told.usersOf entries))
      (Told.absentees this entries)
      (Told.noteWithoutRoster this).
Proof.
  intros entries. unfold Handlers.answerYesterday, Handlers.reparse.
  cbv zeta. rewrite addDays_value.
  replace (now + -1 * Dayjs.msPerDay) with (now - Dayjs.msPerDay) by lia.
  assert (D : Dayjs.Day (now - Dayjs.msPerDay) = Dayjs.Day now - 1).
  { unfold Dayjs.Day, Dayjs.msPerDay. Z.div_mod_to_equations. lia. }
  assert (D' : Dayjs.Day ((Dayjs.Day now - 1) * Dayjs.msPerDay)
               = Dayjs.Day now - 1).
  { replace ((Dayjs.Day now - 1) * Dayjs.msPerDay)
      with ((Dayjs.Day now - 1) * Dayjs.msPerDay + 0) by lia.
    apply Day_shift. unfold Dayjs.msPerDay. lia. }
  rewrite !startOfDay_value, endOfDay_value, D, D'.
  rewrite (missing_in_days this (Dayjs.Day now - 1) (Dayjs.Day now - 1)).
  rewrite rosterNote_told, range_of_days, names_by_user.
  replace (Dayjs.Day now - 1 + 1 - (Dayjs.Day now - 1)) with 1 by lia.
  reflexivity.
Qed.

(** X19.  [answerMissingRecent] looks at the [days] calendar days that
    end with the current one, where [days] is the number that follows
    "past " and precedes " day" in the question, and 3 when the question
    holds no such number: the students without a check-in on those days
    are missing, which is every student when [days] is 0.  When the
    first of those days lies beyond the dates that [Date] can hold, the
    start is an invalid date and every student is missing.  The names
    are listed with a roster only, as for [answerYesterday]. *)
Theorem missing_recent_window (now : Z) (this : Agent.t)
        (lowerQuestion : string) :
  let days :=
    match Handlers.matchPastDays lowerQuestion with
    | Some digits => Handlers.numberFrom 0 digits
    | None => 3
    end in
  let first := Dayjs.Day now - (days - 1) in
  Handlers.answerMissingRecent now this lowerQuestion
  = if Z.abs (first * Dayjs.msPerDay + 86399999) <=? Handlers.maxTime
    then Handlers.Payload.missingRecent
           "Students missing check-ins"
           (Dayjs.formatIsoDate (Some (first * Dayjs.msPerDay)))
           (Dayjs.formatIsoDate (Some now))
           (Told.absentees this (Told.ofDays this first days))
           (Told.noteWithoutRoster this)
    else Handlers.Payload.missingRecent
           "Students missing check-ins"
           Dayjs.INVALID_DATE_STRING
           (Dayjs.formatIsoDate (Some now))
           (Told.absentees this [])
           (Told.noteWithoutRoster this).
Proof.
  intros days first. unfold Handlers.answerMissingRecent. cbv zeta.
  fold days. unfold Handlers.subtractDays, Handlers.TimeClip.
  rewrite endOfDay_value, addDays_value, rosterNote_told.
  replace (Dayjs.Day now * Dayjs.msPerDay + 86399999
           + - (days - 1) * Dayjs.msPerDay)
    with (first * Dayjs.msPerDay + 86399999) by (unfold first; lia).
  assert (F : Dayjs.formatIsoDate
                (Some (Dayjs.Day now * Dayjs.msPerDay + 86399999))
              = Dayjs.formatIsoDate (Some now)).
  { rewrite (MonthFacts.formatIsoDate_of_day
               (Dayjs.Day now * Dayjs.msPerDay + 86399999)).
    rewrite Day_shift by (unfold Dayjs.msPerDay; lia).
    symmetry. apply MonthFacts.formatIsoDate_of_day. }
  destruct (Z.abs (first * Dayjs.msPerDay + 86399999) <=? Handlers.maxTime).
  - rewrite startOfDay_value.
    rewrite Day_shift by (unfold Dayjs.msPerDay; lia).
    rewrite (missing_in_days this first (Dayjs.Day now)), F.
    replace (Dayjs.Day now + 1 - first) with days by (unfold first; lia).
    reflexivity.
  - cbn [Dayjs.startOfDay option_map].
    rewrite (missing_in_empty_window this None _
               (nothing_since_invalid this _)), F.
    reflexivity.
Qed.

(** X20.  [answerProgressThisWeek] ranks the students that have a
    check-in stamped in the current ISO week (Monday to Sunday), by the
    average quality score of their week: [top_students] holds at most
    five of them, exactly five when others are left out; their averages
    never increase along the list, and no student left out has a higher
    average than a student listed; a student's [checkins] is the number
    of the student's check-ins of the week. *)
Theorem progress_lists_the_best_five (now : Z) (this : Agent.t) :
  let monday := Told.mondayOf now in
  let start : Dayjs.t := Some (monday * Dayjs.msPerDay) in
  let end_ : Dayjs.t := Some ((monday + 6) * Dayjs.msPerDay + 86399999) in
  let ranked :=
    filter (fun item => 0 <? Handlers.Ranking.checkins item)
           (map (Handlers.rankingOf this start end_) (getAllStudents this)) in
  (forall student,
     Handlers.Ranking.checkins (Handlers.rankingOf this start end_ student)
     = Agent.length
         (filter (fun c => Notions.withinDays monday 7 c
                           && isUser (Student.id student) c)
                 (checkins this))) /\
  exists top rest,
    Handlers.answerProgressThisWeek now this
    = Handlers.Payload.progress
        "Which students made the most substantial progress this week?"
        (Dayjs.formatIsoDate start) (Dayjs.formatIsoDate end_) top /\
    (List.length top <= 5)%nat /\
    (rest = [] \/ List.length top = 5%nat) /\
    Permutation (top ++ rest) ranked /\
    Told.descending (top ++ rest).
Proof.
  intros monday start end_ ranked. split.
  - intros student. rewrite ranking_checkins. unfold start, end_.
    rewrite user_in_days.
    replace (monday + 6 + 1 - monday) with 7 by lia. reflexivity.
  - destruct (sortByAverage_spec ranked) as [D P].
    exists (firstn 5 (Handlers.sortByAverage ranked)),
           (skipn 5 (Handlers.sortByAverage ranked)).
    rewrite firstn_skipn. repeat split; try assumption.
    + unfold Handlers.answerProgressThisWeek. cbv zeta.
      rewrite this_week_end, this_week_start. reflexivity.
    + apply firstn_le_length.
    + destruct (Nat.le_gt_cases (List.length (Handlers.sortByAverage ranked))
                                5) as [L|G].
      * left. apply skipn_all2. exact L.
      * right. apply firstn_length_le. lia.
Qed.



(** X22.  In a range named by two weekdays, the end is counted from the
    start, not from the beginning of the week: with the first weekday at
    position i of the week and the second at position j (Monday is 0,
    Sunday is 6), the listing covers the j + 1 days that begin with the
    first weekday of the current ISO week.  So "between Monday and
    Friday" covers Monday to Friday, and "between Wednesday and Friday"
    covers Wednesday to Sunday. *)
Theorem weekday_range_is_counted_from_its_start
        (now : Z) (parseIsoStrict : string -> Dayjs.t) (this : Agent.t)
        (question startToken endToken : string) (i j : Z) :
  Handlers.matchBetween question = Some (startToken, endToken) ->
  Dayjs.isValid (parseIsoStrict (dropFinalDot (trim startToken))) = false ->
  Dayjs.isValid (parseIsoStrict (dropFinalDot (trim endToken))) = false ->
  indexOf weekdays (toLowerCase (dropFinalDot (trim startToken))) 0
  = Some i ->
  indexOf weekdays (toLowerCase (dropFinalDot (trim endToken))) 0
  = Some j ->
  let first := Told.mondayOf now + i in
  let entries := Told.ofDays this first (j + 1) in
  Handlers.answerDateRangeListing now parseIsoStrict this question
  = if existsb Told.inheritedName entries then Throw TypeError
    else Ok (Handlers.Payload.listing question
               (Dayjs.formatIsoDate (Some (first * Dayjs.msPerDay)))
               (Dayjs.formatIsoDate
                  (Some ((first + j) * Dayjs.msPerDay)))
               (Told.groupsOf entries)).
Proof.
  intros Hm Ps Pe Is Ie first entries.
  assert (S : parseDateToken now parseIsoStrict startToken None
              = Some (Some (first * Dayjs.msPerDay))).
  { unfold parseDateToken. cbv zeta. rewrite Ps, Is.
    rewrite this_week_start, addDays_value. unfold first.
    do 2 f_equal. lia. }
  assert (E : parseDateToken now parseIsoStrict endToken
                (Some (Some (first * Dayjs.msPerDay)))
              = Some (Some ((first + j) * Dayjs.msPerDay))).
  { unfold parseDateToken. cbv zeta. rewrite Pe, Ie.
    rewrite addDays_value. do 2 f_equal. lia. }
  rewrite (listing_value now parseIsoStrict this
             question startToken endToken _ _ Hm S E).
  assert (D1 : Dayjs.Day (first * Dayjs.msPerDay) = first).
  { replace (first * Dayjs.msPerDay) with (first * Dayjs.msPerDay + 0)
      by lia. apply Day_shift. unfold Dayjs.msPerDay. lia. }
  assert (D2 : Dayjs.Day ((first + j) * Dayjs.msPerDay) = first + j).
  { replace ((first + j) * Dayjs.msPerDay)
      with ((first + j) * Dayjs.msPerDay + 0) by lia.
    apply Day_shift. unfold Dayjs.msPerDay. lia. }
  rewrite startOfDay_value, endOfDay_value, D1, D2, range_of_days.
  replace (first + j + 1 - first) with (j + 1) by lia.
  reflexivity.
Qed.

Lemma weekday_range_is_counted_from_its_start_witness :
  Handlers.answerDateRangeListing Samples.feb15 (fun _ => None)
    (constructor [] [])
    "Who checked in between Wednesday and Friday?"
  = Ok (Handlers.Payload.listing
          "Who checked in between Wednesday and Friday?"
          "2024-02-14" "2024-02-18" []).
Proof.
  rewrite (weekday_range_is_counted_from_its_start Samples.feb15
             (fun _ => None) (constructor [] [])
             "Who checked in between Wednesday and Friday?"
             "Wednesday" "Friday" 2 4
             eq_refl eq_refl eq_refl eq_refl eq_refl).
  reflexivity.
Defined.

(** X23.  [answerBlockersThisWeek] reports the blockers of the current
    ISO week (Monday to Sunday), of all users: one for every check-in
    stamped in that week whose text holds a blocker keyword, in the
    order received.  It throws a [TypeError] exactly when a check-in of
    that week has no text. *)
Theorem blockers_of_this_week (now : Z) (this : Agent.t) :
  let monday := Told.mondayOf now in
  let entries := Told.ofDays this monday 7 in
  Handlers.answerBlockersThisWeek now this
  = if forallb Spec.hasText entries
    then Ok (Handlers.Payload.blockersThisWeek
               "What were the key blockers mentioned this week?"
               (Dayjs.formatIsoDate (Some (monday * Dayjs.msPerDay)))
               (Dayjs.formatIsoDate
                  (Some ((monday + 6) * Dayjs.msPerDay + 86399999)))
               (map Notions.blockerOf
                    (filter Notions.mentionsBlocker entries)))
    else Throw TypeError.
Proof.
  intros monday entries. unfold Handlers.answerBlockersThisWeek. cbv zeta.
  rewrite this_week_end, this_week_start. fold monday.
  rewrite range_of_days.
  replace (monday + 6 + 1 - monday) with 7 by lia. fold entries.
  unfold Told.ofDays in entries. fold entries.
  rewrite extractBlockers_value.
  destruct (forallb Spec.hasText entries); reflexivity.
Qed.

(** X24.  [answerQuestion] with its six handlers answers every question
    without a throw when every object of the roster has a non-empty
    [name], [display_name] or [real_name], or an [id], every check-in
    has a text, and no check-in carries a user name that objects
    inherit. *)
Theorem interpreter_does_not_throw
        (now : Z) (parseIsoStrict : string -> Dayjs.t)
        (records : list Checkin.t) (roster : list Roster.entry)
        (question : string) :
  forallb Notions.nameable roster = true ->
  forallb Spec.hasText records = true ->
  forallb (fun c => negb (Told.inheritedName c)) records = true ->
  throws (Handlers.answer now parseIsoStrict (constructor records roster)
                          question) = false.
Proof. apply AnswerFacts.answer_does_not_throw. Qed.

Lemma interpreter_does_not_throw_witness :
  throws (Handlers.answer Samples.feb15 (fun _ => None)
            (constructor [Samples.strong_entry; Samples.weak_entry]
                         [Roster.Text "Ada"])
            "What were the key blockers this week?") = false.
Proof.
  apply (interpreter_does_not_throw Samples.feb15 (fun _ => None)
           [Samples.strong_entry; Samples.weak_entry] [Roster.Text "Ada"]
           "What were the key blockers this week?");
    reflexivity.
Defined.

Import AnswerFacts ControllerFacts.




(** X27.  A report request that the controller accepts (a user with a
    non-empty [id] or [user_id], a timeframe, complete check-ins, a
    roster that is an array) fails with status 500, not 400, when the
    generator rejects the timeframe: with the generator's message for a
    timeframe without a type, and with "Unsupported timeframe type: "
    and the type as written for a type that is none of daily, weekly and
    monthly. *)
Theorem timeframe_errors_are_server_errors
        (now : Z) (user : Controller.User.t) (timeframe : Timeframe.t)
        (items : list Controller.RawCheckin.t)
        (roster : list Roster.entry) :
  truthy (or (Controller.User.id user) (Controller.User.user_id user))
  = true ->
  forallb Asked.complete items = true ->
  let reply :=
    Controller.generateAgentReport now
      (Controller.ReportBody.mk (Some user) (Some timeframe)
                                (Controller.Items items)
                                (Controller.Items roster)) in
  (Timeframe.type timeframe = None ->
   reply = Controller.Failure 500
             (Error
                "A timeframe with a type is required (daily, weekly, monthly).")) /\
  (forall type,
     Timeframe.type timeframe = Some type ->
     existsb (String.eqb (toLowerCase type)) ["daily"; "weekly"; "monthly"]
     = false ->
     reply = Controller.Failure 500
               (Error (if truthy (Some type)
                       then "Unsupported timeframe type: " ++ type
                       else "A timeframe with a type is required (daily, weekly, monthly)."))).
Proof.
  intros Hu Hc reply.
  assert (U : negb (truthy (Controller.User.id user))
              && negb (truthy (Controller.User.user_id user)) = false).
  { rewrite StudentFacts.or_truthy in Hu.
    destruct (truthy (Controller.User.id user)),
      (truthy (Controller.User.user_id user)); try reflexivity.
    discriminate. }
  assert (R : reply
              = Controller.respond
                  (Controller.andThen
                     (Controller.run
                        (generateDashboard
                           (constructor (map Asked.accepted items) roster)
                           now
                           (or (Controller.User.id user)
                               (Controller.User.user_id user))
                           (or (or (Controller.User.name user)
                                   (Controller.User.display_name user))
                               (Controller.User.real_name user))
                           (Some timeframe)))
                     (fun dashboard => Controller.Returned (now, dashboard)))).
  { unfold reply, Controller.generateAgentReport, Controller.report.
    cbn [Controller.ReportBody.user Controller.ReportBody.timeframe
         Controller.ReportBody.checkins Controller.ReportBody.roster].
    rewrite U, ensureCheckins_value. cbn [Asked.badCheckins].
    rewrite Hc. reflexivity. }
  rewrite R. unfold generateDashboard. rewrite Hu. cbn [negb]. split.
  - intros ->. reflexivity.
  - intros type -> Hs. destruct (truthy (Some type)); [|reflexivity].
    cbn [negb]. cbv zeta.
    cbn [existsb] in Hs. rewrite !orb_false_iff in Hs.
    destruct Hs as (H1 & H2 & H3 & _). rewrite H1, H2, H3. reflexivity.
Qed.

Lemma timeframe_errors_are_server_errors_witness :
  Controller.generateAgentReport Samples.feb15
    (Controller.ReportBody.mk
       (Some (Controller.User.mk None (Some "U1") None None None))
       (Some (Timeframe.mk (Some "Yearly") None None None))
       (Controller.Items []) (Controller.Items []))
  = Controller.Failure 500 (Error "Unsupported timeframe type: Yearly").
Proof.
  apply (proj2 (timeframe_errors_are_server_errors Samples.feb15
                  (Controller.User.mk None (Some "U1") None None None)
                  (Timeframe.mk (Some "Yearly") None None None) [] []
                  eq_refl eq_refl) "Yearly" eq_refl eq_refl).
Defined.

Import TransformerFacts.

(** X28.  While it normalizes messages, the transformer asks the Slack
    service for the profile of a user at most once; it asks for the
    users with a non-empty id whose first message among those that the
    loop reaches carries no name in its [user_profile], and for no
    others. *)
Theorem profiles_are_fetched_once
        (World : Type)
        (usersInfo : World -> string -> World * option Slack.Info.t)
        (configured : bool) (w : World)
        (messages : list Transformer.Message.t) :
  let final :=
    fst (Transformer.normalizeCheckins World usersInfo configured w
                                       messages) in
  NoDup (Transformer.fetched World final) /\
  forall u,
    In u (Transformer.fetched World final)
    <-> truthy (Some u) = true /\
        Sent.firstIsNameless u (Sent.reached messages) = true.
Proof.
  intros final.
  destruct (normalizeFrom_spec World usersInfo configured messages
              (Transformer.mkState World w [] []) [] []
              (kept_start World w)) as [[K1 K2 _ _ _] _].
  split; [exact K1|exact K2].
Qed.

(** X29.  [normalizeCheckins] is rejected exactly when the timestamp of
    a message has no ISO text.  Otherwise it yields one record per
    message, in order, with the timestamp of the message as id, the
    user, the ISO text of the timestamp, the text, and the label that
    the classifier gives to the text; the user name is never empty: it
    is "Unknown User" for a message without a user, and the name of the
    message's own [user_profile] when it has one. *)
Theorem normalized_records_follow_messages
        (World : Type)
        (usersInfo : World -> string -> World * option Slack.Info.t)
        (configured : bool) (w : World)
        (messages : list Transformer.Message.t) :
  match snd (Transformer.normalizeCheckins World usersInfo configured w
                                           messages) with
  | Some records =>
      forallb Sent.convertible messages = true /\
      Forall2
        (fun m r =>
           Transformer.Normalized.message_id r = Transformer.Message.ts m /\
           Transformer.Normalized.user_id r = Transformer.Message.user m /\
           Transformer.toIsoString (Transformer.Message.ts m)
           = Some (Transformer.Normalized.timestamp r) /\
           Transformer.Normalized.message_content r
           = Transformer.Message.text m /\
           Transformer.Normalized.quality r
           = Quality.classifyCheckinQuality (Transformer.Message.text m) /\
           truthy (Some (Transformer.Normalized.user_name r)) = true /\
           (truthy (Transformer.Message.user m) = false ->
            Transformer.Normalized.user_name r = "Unknown User") /\
           (truthy (Transformer.Message.user m) = true ->
            truthy (Sent.profileName m) = true ->
            Sent.profileName m
            = Some (Transformer.Normalized.user_name r)))
        messages records
  | None => forallb Sent.convertible messages = false
  end.
Proof.
  destruct (normalizeFrom_spec World usersInfo configured messages
              (Transformer.mkState World w [] []) [] []
              (kept_start World w)) as [_ H].
  unfold Transformer.normalizeCheckins.
  destruct (snd (Transformer.normalizeFrom World usersInfo configured
                   (Transformer.mkState World w [] []) [] messages))
    as [records|]; [|exact H].
  destruct H as (H & new & -> & F). split; [exact H|exact F].
Qed.

Import TimestampFacts.

(** X30.  For a timestamp of Slack, a run of digits for the seconds
    (from 1099511628 to 2147483647, that is from November 2004 to
    January 2038), a full stop and six digits of microseconds,
    [toIsoString] yields the ISO text of the very millisecond: the
    seconds times 1000 plus the thousands of the microseconds.  The
    roundings of the two binary64 operations lose nothing. *)
Theorem slack_timestamps_convert_exactly (seconds micros : string) :
  Transformer.allDigits seconds = true ->
  Transformer.allDigits micros = true ->
  String.length micros = 6%nat ->
  1099511628 <= Handlers.numberFrom 0 seconds <= 2147483647 ->
  Transformer.toIsoString (seconds ++ "." ++ micros)
  = Some (Transformer.toISOString
            (Handlers.numberFrom 0 seconds * 1000
             + Handlers.numberFrom 0 micros / 1000)).
Proof. apply timestamp_millis. Qed.

Lemma slack_timestamps_convert_exactly_witness :
  Transformer.toIsoString "1708000496.789123"
  = Some "2024-02-15T12:34:56.789Z".
Proof.
  change (Transformer.toIsoString ("1708000496" ++ "." ++ "789123")
          = Some "2024-02-15T12:34:56.789Z").
  rewrite (slack_timestamps_convert_exactly "1708000496" "789123"
             eq_refl eq_refl eq_refl).
  - reflexivity.
  - vm_compute. split; discriminate.
Defined.
